(** * CropDoctor dashboard: response cache, request gateway, session load,
      offline directory and the local fallback estimators.

    A shallow embedding of the browser code (dashboard module, login module,
    auth.js) and the properties its specification states about it.  The
    dashboard module is present in two revisions that differ in markup, in
    the backend address and in the admin panel; the functions embedded here
    have the same logic in both, the admin panel is the revision that looks
    up the histories jointly, and string literals are the correctly encoded
    ones.  The login module exists in one file only, and its message texts
    are taken from that file as they stand.

    Conventions of the embedding.
    - A JSON payload or any other JavaScript value is a [value].
    - [localStorage] and the [API_CACHE] map are [gmap]s keyed by strings.
      The lookup tables of the estimators are object literals read with
      [table[key] || default]; they are embedded as [gmap]s over their own
      keys together with the list of the names that every object literal
      inherits from [Object.prototype] ([constructor], [toString], ...): a
      read under such a name finds the inherited member, not the default.
    - JavaScript numbers are embedded as rationals [Q]: every finite double
      is a rational, and [<], [>] on doubles agree with the order of the
      rationals they denote.  Products are taken exactly.  [NaN] is the
      result [None] of [parseFloat] on a form field and, in the estimators,
      the value [NaN] of a product with an inherited member.
    - A JavaScript string is a sequence of UTF-16 code units; [s.length] and
      [s.substring] of the login code are built-ins supplied with the
      handlers.
    - [Date.now()] is an integer number of milliseconds; [Math.random()]
      reads a stream of draws; both are supplied by the host.
    - The network is an oracle answering each request; a promise is the
      computation that settles it, and [await] runs it.
    - The document is reduced to the list of completed renderings, the
      list of renderings that assigned elements of their panel and then
      threw, the requested navigation and [window.currentUser]; the busy
      state of buttons and the loading overlay are not represented. *)

From Stdlib Require Import ZArith QArith Qround Lia Lqa.
From stdpp Require Import gmap strings list.

Set Warnings "-register-all".
Local Open Scope Z_scope.

(** ** JavaScript values *)

Inductive value : Type :=
| VUndefined
| VNull
| VBool (b : bool)
| VNum (q : Q)
| VStr (s : string)
| VArr (items : list value)
| VObj (fields : list (string * value)).

(** Truthiness, as used by [if (x)], [!x], [x && y] and [x || y]. *)
Definition truthy (v : value) : bool :=
  match v with
  | VUndefined | VNull => false
  | VBool b => b
  | VNum q => negb (Qnum q =? 0)
  | VStr s => negb (String.eqb s "")
  | VArr _ | VObj _ => true
  end.

(** [a || b] *)
Definition js_or (a b : value) : value := if truthy a then a else b.

(** First binding of a key in an object's field list. *)
Fixpoint assoc (k : string) (fields : list (string * value)) : option value :=
  match fields with
  | [] => None
  | (k', v) :: rest => if String.eqb k k' then Some v else assoc k rest
  end.

(** ** Response cache (dashboard module: [API_CACHE], [getCached], [setCache]) *)

Module Cache.

(** A cache slot [{ data, timestamp }]. *)
Record entry (P : Type) : Type := Entry { data : P; timestamp : Z }.
Arguments Entry {P} _ _.
Arguments data {P} _.
Arguments timestamp {P} _.

(** [const CACHE_TTL = 5 * 60 * 1000] *)
Definition CACHE_TTL : Z := 5 * 60 * 1000.

(** [getCached(key)]; the result [null] is [None], [now] is the reading of
    [Date.now()].  An entry object is always truthy, so the guard
    [entry && ...] only tests that the key is bound. *)
Definition getCached {P} (API_CACHE : gmap string (entry P)) (now : Z)
    (key : string) : option P :=
  match API_CACHE !! key with
  | Some e => if now - timestamp e <? CACHE_TTL then Some (data e) else None
  | None => None
  end.

(** [setCache(key, data)] *)
Definition setCache {P} (API_CACHE : gmap string (entry P)) (now : Z)
    (key : string) (d : P) : gmap string (entry P) :=
  <[key := Entry d now]> API_CACHE.

End Cache.

(** ** Math.random *)

(** A computation that reads the stream of [Math.random()] draws from a
    position on and returns the next position. *)
Definition Rand (A : Type) : Type := (nat -> Q) -> nat -> A * nat.

Definition rret {A} (a : A) : Rand A := fun _ n => (a, n).

Definition rbind {A B} (c : Rand A) (k : A -> Rand B) : Rand B :=
  fun draws n => let (a, n') := c draws n in k a draws n'.

Notation "'let*' x ':=' c 'in' k" := (rbind c (fun x => k))
  (at level 10, x name, c at level 100, k at level 200).

Definition Math_random : Rand Q := fun draws n => (draws n, S n).

(** [Math.floor(Math.random() * k)] *)
Definition random_below (k : Z) : Rand Z :=
  let* r := Math_random in rret (Qfloor (r * inject_Z k)).

Fixpoint rmapM {A B} (f : A -> Rand B) (l : list A) : Rand (list B) :=
  match l with
  | [] => rret []
  | a :: rest =>
      let* b := f a in
      let* bs := rmapM f rest in
      rret (b :: bs)
  end.

(** ** Fallback estimators (dashboard module) *)

Module Estimator.

(** A number as the estimators compute it: a rational, or NaN. *)
Inductive number : Type :=
| Num (q : Q)
| NaN.

(** [x * y] on two numbers and on a number and a literal. *)
Definition mul (x y : number) : number :=
  match x, y with
  | Num a, Num b => Num (a * b)
  | _, _ => NaN
  end.

Definition times (x : number) (y : Q) : number := mul x (Num y).

(** Two numbers are the same number; NaN is the same as itself here, since
    the question is what is shown. *)
Definition same_number (x y : number) : Prop :=
  match x, y with
  | Num a, Num b => (a == b)%Q
  | NaN, NaN => True
  | _, _ => False
  end.

(** The tables of the estimators are object literals, so a read [table[key]]
    also finds what every object inherits from [Object.prototype]: the
    methods below and, under [__proto__], the prototype itself. *)
Definition inherited_names : list string :=
  ["constructor"; "hasOwnProperty"; "isPrototypeOf"; "propertyIsEnumerable";
   "toLocaleString"; "toString"; "valueOf"; "__proto__";
   "__defineGetter__"; "__defineSetter__"; "__lookupGetter__"; "__lookupSetter__"].

Definition inherited (key : string) : bool :=
  existsb (String.eqb key) inherited_names.

(** [table[key] || dflt] on a table of numbers, as a factor of a product.
    An own entry other than 0 is taken and the default stands in for a
    missing key; a key that names an inherited member yields that member,
    which is truthy (a function or the prototype object) and turns the
    product into NaN. *)
Definition lookup_or (table : gmap string Q) (key : string) (dflt : Q) : number :=
  match table !! key with
  | Some q => Num (if Qnum q =? 0 then dflt else q)
  | None => if inherited key then NaN else Num dflt
  end.

(** A number-or-null field is truthy when it is a number other than 0. *)
Definition num_truthy (x : option Q) : bool :=
  match x with
  | Some q => negb (Qnum q =? 0)
  | None => false
  end.

Definition Qgtb (x y : Q) : bool := negb (Qle_bool x y).
Definition Qltb (x y : Q) : bool := negb (Qle_bool y x).

(** [x > c] and [x < c] on a number-or-null field; [null] converts to 0. *)
Definition to_number (x : option Q) : Q := default 0%Q x.

(** The nearest multiple of [10^-d] to a number that is not negative, the
    larger one when two are equally near. *)
Definition nearest (d : nat) (x : Q) : Q :=
  inject_Z (Qfloor (x * inject_Z (10 ^ Z.of_nat d) + (1 # 2)))
  / inject_Z (10 ^ Z.of_nat d).

(** The value that [x.toFixed(d)] prints: the sign is set aside and the
    magnitude rounded to [d] decimals, so ties go away from zero.  Numbers
    are exact here; the digits are not rendered. *)
Definition rounded (d : nat) (x : Q) : Q :=
  if Qle_bool 0 x then nearest d x else (- nearest d (- x))%Q.

(** [x.toFixed(d)]; NaN prints as ["NaN"]. *)
Definition toFixed (d : nat) (x : number) : number :=
  match x with
  | Num q => Num (rounded d q)
  | NaN => NaN
  end.

(** [Math.round(x)]: the nearest integer, the larger one at a tie. *)
Definition Math_round (x : number) : number :=
  match x with
  | Num q => Num (inject_Z (Qfloor (q + (1 # 2))))
  | NaN => NaN
  end.

(** *** Yield *)

Record YieldData : Type := {
  y_crop : string;
  y_soil : string;
  y_area : Q;
  y_season : string;
  y_sowing_date : string;
  y_harvest_date : option string;
  y_rainfall : option Q;
  y_temperature : option Q
}.

Record YieldResult : Type := {
  yield_per_hectare : number;
  total_yield : number;
  yr_crop : string;
  yr_area : Q;
  yr_confidence : Q;
  yr_model : string
}.

Definition baseYields : gmap string Q :=
  list_to_map [("rice", 4.5); ("wheat", 3.8); ("corn", 6.2); ("soybean", 2.8);
               ("cotton", 1.8); ("sugarcane", 70); ("potato", 25); ("tomato", 30)]%Q.

Definition soilMult : gmap string Q :=
  list_to_map [("clay", 0.92); ("sandy", 0.78); ("loamy", 1.1); ("silt", 1.0);
               ("peat", 0.88); ("chalky", 0.82)]%Q.

Definition seasonMult : gmap string Q :=
  list_to_map [("kharif", 1.05); ("rabi", 0.95); ("zaid", 0.85)]%Q.

(** [base(crop) * soilMult(soil) * seasonMult(season)] *)
Definition base_yield (d : YieldData) : number :=
  mul (mul (lookup_or baseYields (y_crop d) 4.0)
           (lookup_or soilMult (y_soil d) 1.0))
      (lookup_or seasonMult (y_season d) 1.0).

(** The guard of [y *= 0.85]:
    [data.temperature && (data.temperature > 35 || data.temperature < 10)] *)
Definition temperature_penalty (d : YieldData) : bool :=
  num_truthy (y_temperature d)
  && (Qgtb (to_number (y_temperature d)) 35
      || Qltb (to_number (y_temperature d)) 10).

(** The guards of [y *= 0.9] and [y *= 0.8]. *)
Definition rainfall_high (d : YieldData) : bool :=
  num_truthy (y_rainfall d) && Qgtb (to_number (y_rainfall d)) 300.

Definition rainfall_low (d : YieldData) : bool :=
  num_truthy (y_rainfall d) && Qltb (to_number (y_rainfall d)) 50.

(** The value of [y] after the three conditional penalties. *)
Definition adjusted_yield (d : YieldData) : number :=
  let y := base_yield d in
  let y := if temperature_penalty d then times y 0.85 else y in
  let y := if rainfall_high d then times y 0.9 else y in
  let y := if rainfall_low d then times y 0.8 else y in
  y.

(** The confidence [(78 + Math.random() * 17).toFixed(1)] involves no table
    and is always a number. *)
Definition localYieldPrediction (d : YieldData) : Rand YieldResult :=
  let* r1 := Math_random in
  let y := times (adjusted_yield d) (0.95 + r1 * 0.1) in
  let* r2 := Math_random in
  rret {| yield_per_hectare := toFixed 2 y;
          total_yield := toFixed 2 (times y (y_area d));
          yr_crop := y_crop d;
          yr_area := y_area d;
          yr_confidence := rounded 1 (78 + r2 * 17);
          yr_model := "DSSAT + Random Forest Regression v2.1" |}.

(** *** Irrigation *)

Record IrrigationData : Type := {
  i_crop : string;
  i_soil : string;
  i_moisture : Q;
  i_stage : string
}.

(** [moisture_level] is [data.moisture + '%']; the number is kept, the
    suffix belongs to the rendering. *)
Record IrrigationResult : Type := {
  water_per_day : number;
  schedule : string;
  moisture_status : string;
  recommendation : string;
  moisture_level : Q
}.

Definition waterNeeds : gmap string Q :=
  list_to_map [("rice", 6000); ("wheat", 3500); ("corn", 4500);
               ("soybean", 3000); ("cotton", 4000); ("sugarcane", 7000)]%Q.

Definition stageMult : gmap string Q :=
  list_to_map [("seedling", 0.6); ("vegetative", 1.0); ("flowering", 1.3);
               ("fruiting", 1.1); ("maturity", 0.5)]%Q.

Definition soilDrain : gmap string Q :=
  list_to_map [("clay", 0.7); ("sandy", 1.4); ("loamy", 1.0); ("silt", 0.9)]%Q.

Definition waterNeed (crop : string) : number := lookup_or waterNeeds crop 4000.
Definition stageMultiplier (stage : string) : number := lookup_or stageMult stage 1.0.
Definition soilDrainage (soil : string) : number := lookup_or soilDrain soil 1.0.

Definition schedule_of (moisture : Q) : string :=
  if Qgtb moisture 60 then "72h"
  else if Qgtb moisture 40 then "48h"
  else "24h".

Definition moisture_status_of (moisture : Q) : string :=
  if Qltb moisture 30 then "Critical — Irrigate Immediately"
  else if Qltb moisture 40 then "Low — Schedule Irrigation"
  else if Qgtb moisture 70 then "High — Reduce Irrigation"
  else "Adequate".

Definition localIrrigationCalc (d : IrrigationData) : IrrigationResult :=
  let water :=
    mul (mul (waterNeed (i_crop d)) (stageMultiplier (i_stage d)))
        (soilDrainage (i_soil d)) in
  {| water_per_day := Math_round water;
     schedule := schedule_of (i_moisture d);
     moisture_status := moisture_status_of (i_moisture d);
     recommendation :=
       "For " ++ i_crop d ++ " in " ++ i_soil d ++ " soil at " ++ i_stage d
       ++ " stage: "
       ++ (if Qltb (i_moisture d) 35 then "⚠️ Immediate irrigation recommended."
           else "✅ Moisture levels acceptable.")
       ++ " Apply water early morning or late evening. Consider drip irrigation for 40% water savings.";
     moisture_level := i_moisture d |}.

(** *** Fertilizer *)

Record FertilizerData : Type := {
  f_crop : string;
  f_soil : string;
  f_area : Q;
  f_stage : string
}.

Record Fertilizer : Type := {
  name : string;
  dosage : string;
  icon : string;
  desc : string
}.

Record NPK : Type := { n : Fertilizer; p : Fertilizer; k : Fertilizer }.

(** An entry of [fertilizers] is a fertilizer or [undefined] ([None]). *)
Record FertilizerResult : Type := {
  fertilizers : list (option Fertilizer);
  tips : string
}.

Definition rice_row : NPK :=
  {| n := {| name := "Urea (N)"; dosage := "120 kg/ha"; icon := "🟢";
             desc := "Apply in 3 split doses" |};
     p := {| name := "DAP (P)"; dosage := "60 kg/ha"; icon := "🟡";
             desc := "Apply at basal" |};
     k := {| name := "MOP (K)"; dosage := "40 kg/ha"; icon := "🔴";
             desc := "Apply at basal & tillering" |} |}.

Definition wheat_row : NPK :=
  {| n := {| name := "Urea (N)"; dosage := "100 kg/ha"; icon := "🟢";
             desc := "Apply in 2 split doses" |};
     p := {| name := "SSP (P)"; dosage := "50 kg/ha"; icon := "🟡";
             desc := "Apply at sowing" |};
     k := {| name := "MOP (K)"; dosage := "30 kg/ha"; icon := "🔴";
             desc := "Apply at sowing" |} |}.

Definition corn_row : NPK :=
  {| n := {| name := "Urea (N)"; dosage := "150 kg/ha"; icon := "🟢";
             desc := "Apply in 3 split doses" |};
     p := {| name := "DAP (P)"; dosage := "70 kg/ha"; icon := "🟡";
             desc := "Apply at basal" |};
     k := {| name := "MOP (K)"; dosage := "50 kg/ha"; icon := "🔴";
             desc := "Apply at basal" |} |}.

Definition db : gmap string NPK :=
  list_to_map [("rice", rice_row); ("wheat", wheat_row); ("corn", corn_row)].

(** [db.rice] *)
Definition db_rice : NPK := default rice_row (db !! "rice").

(** [db[data.crop] || db.rice].  A row object is always truthy; for a crop
    that names an inherited member the expression is that member ([None]),
    which is truthy too and has no [n], [p] or [k]. *)
Definition recommended (crop : string) : option NPK :=
  match db !! crop with
  | Some row => Some row
  | None => if inherited crop then None else Some db_rice
  end.

Definition localFertilizerCalc (d : FertilizerData) : FertilizerResult :=
  let rec := recommended (f_crop d) in
  {| fertilizers := [n <$> rec; p <$> rec; k <$> rec];
     tips :=
       "For " ++ f_crop d ++ " in " ++ f_soil d ++ " soil at " ++ f_stage d
       ++ " stage: Apply fertilizers when soil has adequate moisture. Best time is early morning or late evening. Consider soil testing every season for precise recommendations." |}.

(** *** Weather *)

Record ForecastDay : Type := {
  day : string;
  fd_icon : option string;
  high : Z;
  low : Z
}.

Record Weather : Type := {
  temp : Z;
  w_icon : option string;
  description : option string;
  location : string;
  humidity : Z;
  wind : Z;
  pressure : Z;
  forecast : list ForecastDay;
  advisory : string
}.

(** [arr[i]] for an integer index; [None] is [undefined]. *)
Definition at_index {A} (arr : list A) (i : Z) : option A :=
  if i <? 0 then None else arr !! Z.to_nat i.

(** How a template literal prints a string or [undefined]. *)
Definition show (s : option string) : string := default "undefined" s.

Definition icons : list string := ["☀️"; "🌤️"; "⛅"; "☁️"; "🌧️"; "⛈️"].

Definition descs : list string :=
  ["Sunny"; "Partly Cloudy"; "Mostly Cloudy"; "Cloudy"; "Light Rain"; "Thunderstorm"].

Definition days : list string := ["Mon"; "Tue"; "Wed"; "Thu"; "Fri"].

Definition forecast_day (d : string) : Rand ForecastDay :=
  let* i := random_below (Z.of_nat (length icons)) in
  let* h := random_below 10 in
  let* l := random_below 7 in
  rret {| day := d; fd_icon := at_index icons i; high := 25 + h; low := 18 + l |}.

Definition advisory_text (loc : string) (idx : Z) : string :=
  "Weather in " ++ loc ++ ": " ++ show (at_index descs idx) ++ ". "
  ++ (if idx <? 3 then "Favorable for field operations and spraying."
      else "Consider delaying field operations. Protect seedlings from rainfall.")
  ++ " Monitor updates before planning irrigation.".

Definition localWeather (loc : string) : Rand Weather :=
  let* idx := random_below 3 in
  let* fc := rmapM forecast_day days in
  let* t := random_below 10 in
  let* hu := random_below 30 in
  let* wi := random_below 20 in
  let* pr := random_below 15 in
  rret {| temp := 25 + t;
          w_icon := at_index icons idx;
          description := at_index descs idx;
          location := loc;
          humidity := 55 + hu;
          wind := 8 + wi;
          pressure := 1008 + pr;
          forecast := fc;
          advisory := advisory_text loc idx |}.

(** *** Disease *)

(** The canned results of [fallbackDiseaseDetection]; the HTML of the
    [details] field is markup and is left out. *)
Record DiseaseResult : Type := {
  disease : string;
  status : string;
  confidence : Q;
  severity : string;
  health_score : Z
}.

Definition diseases : list DiseaseResult :=
  [ {| disease := "Leaf Blight"; status := "diseased"; confidence := 87.5;
       severity := "Moderate"; health_score := 42 |};
    {| disease := "Healthy Crop"; status := "healthy"; confidence := 95.2;
       severity := "None"; health_score := 88 |};
    {| disease := "Powdery Mildew"; status := "diseased"; confidence := 91.3;
       severity := "Mild"; health_score := 55 |} ].

(** [diseases[Math.floor(Math.random() * diseases.length)]] *)
Definition fallbackDiseaseDetection : Rand (option DiseaseResult) :=
  let* i := random_below (Z.of_nat (length diseases)) in
  rret (at_index diseases i).

End Estimator.

(** ** The page: exceptions, payloads, host environment and state *)

Inductive Error : Type :=
| HTTP (status : Z)             (* new Error(`HTTP ${response.status}`) *)
| FetchFailed (cause : string)  (* fetch rejected: DNS, connect, CORS *)
| AbortError                    (* the 8000 ms timer called controller.abort() *)
| BodyError                     (* response.json() rejected *)
| TypeError.                    (* property read on null or undefined, call of a non-function *)

(** The objects handed to the display functions and to [setCache]: a payload
    decoded from a backend response, or an object built by an estimator. *)
Inductive Payload : Type :=
| Remote (v : value)
| YieldEstimate (r : Estimator.YieldResult)
| IrrigationEstimate (r : Estimator.IrrigationResult)
| FertilizerEstimate (r : Estimator.FertilizerResult)
| WeatherEstimate (r : Estimator.Weather)
| DiseaseEstimate (r : option Estimator.DiseaseResult).

Inductive Panel : Type :=
| DiseasePanel | YieldPanel | IrrigationPanel | FertilizerPanel | WeatherPanel.

(** The [options] argument of [apiFetch] and [fetch]. *)
Record Options : Type := {
  method : option string;
  headers : option (gmap string string);
  body : option string
}.

Definition no_options : Options :=
  {| method := None; headers := None; body := None |}.

Record Request : Type := { url : string; options : Options }.

(** What the network does with one request. *)
Inductive FetchOutcome : Type :=
| Rejected (cause : string)
| TimedOut
| Responded (status : Z) (json : option value).

(** Browser built-ins and the outside world. *)
Record Host : Type := {
  net : Request -> FetchOutcome;
  draws : nat -> Q;                       (* Math.random(), in order *)
  clock : nat -> Z;                       (* Date.now(), in order *)
  JSON_parse : string -> option value;    (* None: SyntaxError *)
  JSON_stringify : value -> string;
  toLowerCase : string -> string;
  encodeURIComponent : string -> string;
  to_string : value -> string             (* conversion inside a template literal *)
}.

Record World : Type := {
  localStorage : gmap string string;
  API_CACHE : gmap string (Cache.entry Payload);
  fetch_log : list Request;               (* calls of fetch, oldest first *)
  screen : list (Panel * Payload);        (* completed renderings, oldest first *)
  unfinished : list (Panel * Payload);    (* renderings that wrote to the page and
                                             then threw, oldest first *)
  location_href : option string;          (* navigation requested *)
  currentUser : option value;             (* window.currentUser *)
  ticks : nat;                            (* readings of Date.now() so far *)
  rng : nat                               (* draws of Math.random() so far *)
}.

Definition with_localStorage (s : gmap string string) (w : World) : World :=
  {| localStorage := s; API_CACHE := API_CACHE w; fetch_log := fetch_log w;
     screen := screen w; unfinished := unfinished w; location_href := location_href w;
     currentUser := currentUser w; ticks := ticks w; rng := rng w |}.

Definition with_API_CACHE (c : gmap string (Cache.entry Payload)) (w : World) : World :=
  {| localStorage := localStorage w; API_CACHE := c; fetch_log := fetch_log w;
     screen := screen w; unfinished := unfinished w; location_href := location_href w;
     currentUser := currentUser w; ticks := ticks w; rng := rng w |}.

Definition with_fetch_log (l : list Request) (w : World) : World :=
  {| localStorage := localStorage w; API_CACHE := API_CACHE w; fetch_log := l;
     screen := screen w; unfinished := unfinished w; location_href := location_href w;
     currentUser := currentUser w; ticks := ticks w; rng := rng w |}.

Definition with_screen (l : list (Panel * Payload)) (w : World) : World :=
  {| localStorage := localStorage w; API_CACHE := API_CACHE w;
     fetch_log := fetch_log w; screen := l; unfinished := unfinished w;
     location_href := location_href w;
     currentUser := currentUser w; ticks := ticks w; rng := rng w |}.

Definition with_location_href (l : option string) (w : World) : World :=
  {| localStorage := localStorage w; API_CACHE := API_CACHE w;
     fetch_log := fetch_log w; screen := screen w; unfinished := unfinished w; location_href := l;
     currentUser := currentUser w; ticks := ticks w; rng := rng w |}.

Definition with_currentUser (u : option value) (w : World) : World :=
  {| localStorage := localStorage w; API_CACHE := API_CACHE w;
     fetch_log := fetch_log w; screen := screen w; unfinished := unfinished w;
     location_href := location_href w; currentUser := u; ticks := ticks w;
     rng := rng w |}.

Definition with_ticks (t : nat) (w : World) : World :=
  {| localStorage := localStorage w; API_CACHE := API_CACHE w;
     fetch_log := fetch_log w; screen := screen w; unfinished := unfinished w;
     location_href := location_href w; currentUser := currentUser w;
     ticks := t; rng := rng w |}.

Definition with_rng (r : nat) (w : World) : World :=
  {| localStorage := localStorage w; API_CACHE := API_CACHE w;
     fetch_log := fetch_log w; screen := screen w; unfinished := unfinished w;
     location_href := location_href w; currentUser := currentUser w;
     ticks := ticks w; rng := r |}.

Definition with_unfinished (l : list (Panel * Payload)) (w : World) : World :=
  {| localStorage := localStorage w; API_CACHE := API_CACHE w;
     fetch_log := fetch_log w; screen := screen w; unfinished := l;
     location_href := location_href w; currentUser := currentUser w;
     ticks := ticks w; rng := rng w |}.

(** A computation of the page: it transforms the state and returns a value
    or throws. *)
Definition Comp (A : Type) : Type := World -> World * (Error + A).

Definition ret {A} (a : A) : Comp A := fun w => (w, inr a).

Definition throw {A} (e : Error) : Comp A := fun w => (w, inl e).

Definition bind {A B} (c : Comp A) (k : A -> Comp B) : Comp B :=
  fun w =>
    match c w with
    | (w', inr a) => k a w'
    | (w', inl e) => (w', inl e)
    end.

(** [try { c } catch (e) { handler(e) }] *)
Definition try_catch {A} (c : Comp A) (handler : Error -> Comp A) : Comp A :=
  fun w =>
    match c w with
    | (w', inr a) => (w', inr a)
    | (w', inl e) => handler e w'
    end.

Notation "'run' x ':=' c 'in' k" := (bind c (fun x => k))
  (at level 10, x name, c at level 100, k at level 200).

Notation "c ';;;' k" := (bind c (fun _ => k))
  (at level 100, k at level 200, right associativity).


(** [Date.now()] *)
Definition Date_now (h : Host) : Comp Z :=
  fun w => (with_ticks (S (ticks w)) w, inr (clock h (ticks w))).

(** Run an estimator on the page's stream of random draws. *)
Definition sample {A} (h : Host) (c : Rand A) : Comp A :=
  fun w => let (a, pos) := c (draws h) (rng w) in (with_rng pos w, inr a).

(** [getCached(key)] and [setCache(key, data)] on the page's cache.  The
    guard [entry && Date.now() - entry.timestamp < CACHE_TTL] reads the
    clock only when the key is bound. *)
Definition getCached (h : Host) (key : string) : Comp (option Payload) :=
  fun w =>
    match API_CACHE w !! key with
    | None => (w, inr None)
    | Some _ =>
        (run now := Date_now h in
         fun w => (w, inr (Cache.getCached (API_CACHE w) now key))) w
    end.

Definition setCache (h : Host) (key : string) (d : Payload) : Comp unit :=
  run now := Date_now h in
  fun w => (with_API_CACHE (Cache.setCache (API_CACHE w) now key d) w, inr tt).

(** Property reads on a value: [None] is the TypeError of reading a property
    of [null] or [undefined]. *)
Definition prop (v : value) (key : string) : option value :=
  match v with
  | VUndefined | VNull => None
  | VObj fields => Some (default VUndefined (assoc key fields))
  | VArr items =>
      Some (if String.eqb key "length"
            then VNum (inject_Z (Z.of_nat (length items))) else VUndefined)
  | VStr s =>
      Some (if String.eqb key "length"
            then VNum (inject_Z (Z.of_nat (String.length s))) else VUndefined)
  | VBool _ | VNum _ => Some VUndefined
  end.


Definition nullish (v : value) : bool :=
  match v with VUndefined | VNull => true | _ => false end.

(** ** Timed request gateway *)

Definition with_headers (hs : gmap string string) (o : Options) : Options :=
  {| method := method o; headers := Some hs; body := body o |}.

Definition response_ok (status : Z) : bool := (200 <=? status) && (status <=? 299).

(** [apiFetch(url, options)].  The timer and the abort controller are
    represented by the outcome [TimedOut] of the network. *)
Definition apiFetch (h : Host) (u : string) (o : Options) : Comp value :=
  fun w =>
    let token := localStorage w !! "cropdoctor_token" in
    let o :=
      match token with
      | Some t =>
          if negb (String.eqb t "")
          then with_headers (<["Authorization" := "Bearer " +:+ t]> (default ∅ (headers o))) o
          else o
      | None => o
      end in
    let req := {| url := u; options := o |} in
    let w := with_fetch_log (fetch_log w ++ [req]) w in
    match net h req with
    | Rejected cause => (w, inl (FetchFailed cause))
    | TimedOut => (w, inl AbortError)
    | Responded st json =>
        if response_ok st
        then match json with
             | Some v => (w, inr v)
             | None => (w, inl BodyError)
             end
        else (w, inl (HTTP st))
    end.

(** ** View controllers (dashboard module) *)

Definition API_BASE : string := "https://crop-monitoring-system-3.onrender.com".

Definition json_headers : gmap string string :=
  {[ "Content-Type" := "application/json" ]}.

Definition post_json (text : string) : Options :=
  {| method := Some "POST"; headers := Some json_headers; body := Some text |}.

(** A display function either completes the rendering of its panel or
    throws a TypeError on a payload that lacks what it dereferences.
    [renders d] tells whether it completes; [writes d] tells whether, when
    it does not, elements of the panel were assigned before the statement
    that throws, which leaves the panel half-written. *)
Definition display (panel : Panel) (renders writes : Payload -> bool) (d : Payload)
    : Comp unit :=
  fun w =>
    if renders d
    then (with_screen (screen w ++ [(panel, d)]) w, inr tt)
    else ((if writes d then with_unfinished (unfinished w ++ [(panel, d)]) w else w),
          inl TypeError).

(** The first property of [data] can be read: [data] is neither [null] nor
    [undefined]. *)
Definition readable (d : Payload) : bool :=
  match d with
  | Remote v => negb (nullish v)
  | DiseaseEstimate None => false
  | _ => true
  end.

(** [displayYieldResult], [displayWeather] and [displayDiseaseResult]
    assign elements from the first statement on, and the statement that may
    throw on a readable payload comes later; [displayFertilizerResult]
    evaluates [data.fertilizers.map(...)] before its first assignment, and
    [displayIrrigationResult] throws only on the first read. *)
Definition writes_at_once : Payload -> bool := readable.
Definition writes_last : Payload -> bool := fun _ => false.

Definition all_objects (items : list value) : bool :=
  forallb (fun v => negb (nullish v)) items.

(** [displayYieldResult] calls [data.crop.charAt]. *)
Definition yield_renders (d : Payload) : bool :=
  match d with
  | Remote v => match prop v "crop" with Some (VStr _) => true | _ => false end
  | YieldEstimate _ => true
  | _ => false
  end.

(** [displayIrrigationResult] only reads properties of [data]. *)
Definition irrigation_renders (d : Payload) : bool := readable d.

(** [displayFertilizerResult] calls [data.fertilizers.map(f => ... f.icon ...)]. *)
Definition fertilizer_renders (d : Payload) : bool :=
  match d with
  | Remote v =>
      match prop v "fertilizers" with
      | Some (VArr items) => all_objects items
      | _ => false
      end
  | FertilizerEstimate r => forallb (fun f => bool_decide (is_Some f)) (Estimator.fertilizers r)
  | _ => false
  end.

(** [displayWeather] calls [data.forecast.map(day => ... day.day ...)]. *)
Definition weather_renders (d : Payload) : bool :=
  match d with
  | Remote v =>
      match prop v "forecast" with
      | Some (VArr items) => all_objects items
      | _ => false
      end
  | WeatherEstimate _ => true
  | _ => false
  end.

(** [displayDiseaseResult] calls [data.confidence.toFixed(1)]. *)
Definition disease_renders (d : Payload) : bool :=
  match d with
  | Remote v => match prop v "confidence" with Some (VNum _) => true | _ => false end
  | DiseaseEstimate (Some _) => true
  | _ => false
  end.

Definition displayDiseaseResult := display DiseasePanel disease_renders writes_at_once.
Definition displayYieldResult := display YieldPanel yield_renders writes_at_once.
Definition displayIrrigationResult := display IrrigationPanel irrigation_renders writes_last.
Definition displayFertilizerResult := display FertilizerPanel fertilizer_renders writes_last.
Definition displayWeather := display WeatherPanel weather_renders writes_at_once.

(** The test [if (cached)] on the result of [getCached]. *)
Definition cache_hit (cached : option Payload) : option Payload :=
  match cached with
  | Some (Remote v) => if truthy v then cached else None
  | Some (DiseaseEstimate None) => None
  | Some _ => cached
  | None => None
  end.

(** [x || null] and [x || d] on the result of [parseFloat] ([None]: NaN). *)
Definition or_null (x : option Q) : option Q :=
  if Estimator.num_truthy x then x else None.

Definition or_number (x : option Q) (d : Q) : Q :=
  if Estimator.num_truthy x then default d x else d.

Definition str_or_null (s : string) : option string :=
  if String.eqb s "" then None else Some s.

Definition json_num_or_null (x : option Q) : value :=
  match x with Some q => VNum q | None => VNull end.

Definition json_str_or_null (x : option string) : value :=
  match x with Some s => VStr s | None => VNull end.

(** *** Disease *)

(** [uploadedImageFile] is the selected file, if any. *)
Definition analyzeDisease (h : Host) (uploadedImageFile : option string) : Comp unit :=
  match uploadedImageFile with
  | None => ret tt
  | Some file =>
      try_catch
        (run data := apiFetch h (API_BASE +:+ "/api/disease/detect")
                       {| method := Some "POST"; headers := None; body := Some file |} in
         displayDiseaseResult (Remote data))
        (fun _ =>
           run est := sample h Estimator.fallbackDiseaseDetection in
           displayDiseaseResult (DiseaseEstimate est))
  end.

(** *** Yield *)

(** The fields of the yield form; the optional numbers are the results of
    [parseFloat] ([None]: NaN), the area is a number. *)
Record YieldForm : Type := {
  yield_crop : string;
  yield_soil : string;
  yield_area : Q;
  yield_season : string;
  yield_sowing_date : string;
  yield_harvest_date : string;
  yield_rainfall : option Q;
  yield_temperature : option Q
}.

Definition yield_data (f : YieldForm) : Estimator.YieldData :=
  {| Estimator.y_crop := yield_crop f;
     Estimator.y_soil := yield_soil f;
     Estimator.y_area := yield_area f;
     Estimator.y_season := yield_season f;
     Estimator.y_sowing_date := yield_sowing_date f;
     Estimator.y_harvest_date := str_or_null (yield_harvest_date f);
     Estimator.y_rainfall := or_null (yield_rainfall f);
     Estimator.y_temperature := or_null (yield_temperature f) |}.

Definition yield_json (d : Estimator.YieldData) : value :=
  VObj [("crop", VStr (Estimator.y_crop d));
        ("soil", VStr (Estimator.y_soil d));
        ("area", VNum (Estimator.y_area d));
        ("season", VStr (Estimator.y_season d));
        ("sowing_date", VStr (Estimator.y_sowing_date d));
        ("harvest_date", json_str_or_null (Estimator.y_harvest_date d));
        ("rainfall", json_num_or_null (Estimator.y_rainfall d));
        ("temperature", json_num_or_null (Estimator.y_temperature d))].

Definition predictYield (h : Host) (f : YieldForm) : Comp unit :=
  let data := yield_data f in
  let cacheKey := "yield_" +:+ JSON_stringify h (yield_json data) in
  run cached := getCached h cacheKey in
  match cache_hit cached with
  | Some c => displayYieldResult c
  | None =>
      try_catch
        (run result := apiFetch h (API_BASE +:+ "/api/yield/predict")
                         (post_json (JSON_stringify h (yield_json data))) in
         setCache h cacheKey (Remote result) ;;;
         displayYieldResult (Remote result))
        (fun _ =>
           run est := sample h (Estimator.localYieldPrediction data) in
           displayYieldResult (YieldEstimate est))
  end.

(** *** Irrigation *)

Record IrrigationForm : Type := {
  irr_crop : string;
  irr_soil : string;
  irr_moisture : option Q;
  irr_stage : string
}.

Definition irrigation_data (f : IrrigationForm) : Estimator.IrrigationData :=
  {| Estimator.i_crop := irr_crop f;
     Estimator.i_soil := irr_soil f;
     Estimator.i_moisture := or_number (irr_moisture f) 40;
     Estimator.i_stage := irr_stage f |}.

Definition irrigation_json (d : Estimator.IrrigationData) : value :=
  VObj [("crop", VStr (Estimator.i_crop d));
        ("soil", VStr (Estimator.i_soil d));
        ("moisture", VNum (Estimator.i_moisture d));
        ("stage", VStr (Estimator.i_stage d))].

Definition getIrrigationAdvice (h : Host) (f : IrrigationForm) : Comp unit :=
  let data := irrigation_data f in
  let cacheKey := "irr_" +:+ JSON_stringify h (irrigation_json data) in
  run cached := getCached h cacheKey in
  match cache_hit cached with
  | Some c => displayIrrigationResult c
  | None =>
      try_catch
        (run result := apiFetch h (API_BASE +:+ "/api/irrigation/recommend")
                         (post_json (JSON_stringify h (irrigation_json data))) in
         setCache h cacheKey (Remote result) ;;;
         displayIrrigationResult (Remote result))
        (fun _ =>
           displayIrrigationResult
             (IrrigationEstimate (Estimator.localIrrigationCalc data)))
  end.

(** *** Fertilizer *)

Record FertilizerForm : Type := {
  fert_crop : string;
  fert_soil : string;
  fert_area : option Q;
  fert_stage : string
}.

Definition fertilizer_data (f : FertilizerForm) : Estimator.FertilizerData :=
  {| Estimator.f_crop := fert_crop f;
     Estimator.f_soil := fert_soil f;
     Estimator.f_area := or_number (fert_area f) 1;
     Estimator.f_stage := fert_stage f |}.

Definition fertilizer_json (d : Estimator.FertilizerData) : value :=
  VObj [("crop", VStr (Estimator.f_crop d));
        ("soil", VStr (Estimator.f_soil d));
        ("area", VNum (Estimator.f_area d));
        ("stage", VStr (Estimator.f_stage d))].

Definition getFertilizerAdvice (h : Host) (f : FertilizerForm) : Comp unit :=
  let data := fertilizer_data f in
  let cacheKey := "fert_" +:+ JSON_stringify h (fertilizer_json data) in
  run cached := getCached h cacheKey in
  match cache_hit cached with
  | Some c => displayFertilizerResult c
  | None =>
      try_catch
        (run result := apiFetch h (API_BASE +:+ "/api/fertilizer/recommend")
                         (post_json (JSON_stringify h (fertilizer_json data))) in
         setCache h cacheKey (Remote result) ;;;
         displayFertilizerResult (Remote result))
        (fun _ =>
           displayFertilizerResult
             (FertilizerEstimate (Estimator.localFertilizerCalc data)))
  end.

(** *** Weather *)

(** [loc] is the trimmed text of the location field. *)
Definition getWeather (h : Host) (loc : string) : Comp unit :=
  if String.eqb loc "" then ret tt
  else
    let cacheKey := "weather_" +:+ toLowerCase h loc in
    run cached := getCached h cacheKey in
    match cache_hit cached with
    | Some c => displayWeather c
    | None =>
        try_catch
          (run data := apiFetch h (API_BASE +:+ "/api/weather?location="
                                            +:+ encodeURIComponent h loc)
                         no_options in
           setCache h cacheKey (Remote data) ;;;
           displayWeather (Remote data))
          (fun _ =>
             run est := sample h (Estimator.localWeather loc) in
             displayWeather (WeatherEstimate est))
    end.

(** ** Session load (dashboard module, [loadUserInfo]) *)

Definition getItem (key : string) : Comp (option string) :=
  fun w => (w, inr (localStorage w !! key)).

Definition removeItem (key : string) : Comp unit :=
  fun w => (with_localStorage (delete key (localStorage w)) w, inr tt).

(** [window.location.href = target] *)
Definition navigate (target : string) : Comp unit :=
  fun w => (with_location_href (Some target) w, inr tt).

(** [v.key] on a value already known not to be [null] or [undefined]. *)
Definition field (v : value) (key : string) : value :=
  default VUndefined (prop v key).

(** The guard [!userData || !userData.name], negated. *)
Definition has_required_fields (userData : value) : bool :=
  truthy userData && truthy (field userData "name").

(** The avatar and role lines: [getInitials(name)] calls [name.trim()], the
    role line calls [userData.role.charAt(0)]. *)
Definition render_user (userData : value) : Comp unit :=
  (if truthy (field userData "initials") then ret tt
   else match field userData "name" with
        | VStr _ => ret tt
        | _ => throw TypeError
        end) ;;;
  (if truthy (field userData "role")
   then match field userData "role" with
        | VStr _ => ret tt
        | _ => throw TypeError
        end
   else ret tt).

(** [loadUserInfo()], up to the assignment of [window.currentUser].  The
    function goes on to show the navigation of the role and to call
    [switchPage]; for an admin it also starts [loadAdminData()], which is
    embedded with the admin panel and runs on the state this part leaves.
    None of the three paths that ask for the login page reaches that
    part. *)
Definition loadUserInfo (h : Host) : Comp unit :=
  run raw := getItem "cropdoctor_user" in
  match raw with
  | None => navigate "login.html"
  | Some text =>
      if String.eqb text "" then navigate "login.html"
      else
        match JSON_parse h text with
        | None =>
            removeItem "cropdoctor_user" ;;; navigate "login.html"
        | Some userData =>
            if negb (has_required_fields userData)
            then removeItem "cropdoctor_user" ;;; navigate "login.html"
            else
              render_user userData ;;;
              (fun w => (with_currentUser (Some userData) w, inr tt))
        end
  end.

(** ** Admin panel: the joint history lookup of [loadAdminData] *)






(** ** Offline directory (login module) *)

Module Directory.

Record UserData : Type := {
  name : string;
  initials : string;
  email_phone : string;
  address : string;
  age : string;
  role : string;
  password : string
}.

(** [arr.findIndex(pred)]: the first position that satisfies [pred], or -1. *)
Fixpoint findIndex {A} (pred : A -> bool) (arr : list A) : Z :=
  match arr with
  | [] => -1
  | x :: rest =>
      if pred x then 0
      else let i := findIndex pred rest in if i <? 0 then -1 else i + 1
  end.

(** [cacheUser(userData)] of the login module, on the array that
    [JSON.parse] returns for the text under [cropdoctor_users] (the empty
    array when the key is unset); the result is the array written back. *)
Definition cacheUser (users : list UserData) (userData : UserData) : list UserData :=
  let idx := findIndex (fun u => String.eqb (email_phone u) (email_phone userData)) users in
  if 0 <=? idx then <[Z.to_nat idx := userData]> users else users ++ [userData].

(** [storeUserLocally(userData)] of auth.js. *)
Definition storeUserLocally (users : list UserData) (userData : UserData) : list UserData :=
  let existingIdx :=
    findIndex (fun u => String.eqb (email_phone u) (email_phone userData)) users in
  if 0 <=? existingIdx
  then <[Z.to_nat existingIdx := userData]> users
  else users ++ [userData].

End Directory.

(** * Vocabulary of the statements and sample inputs *)

Import Estimator.

(** The request that [apiFetch] hands to [fetch]: the caller's options, with
    the [Authorization] header set when a non-empty token is stored. *)
Definition request_sent (w : World) (u : string) (o : Options) : Request :=
  match localStorage w !! "cropdoctor_token" with
  | Some t =>
      if negb (String.eqb t "")
      then {| url := u;
              options := with_headers
                           (<["Authorization" := "Bearer " +:+ t]> (default ∅ (headers o))) o |}
      else {| url := u; options := o |}
  | None => {| url := u; options := o |}
  end.

(** A host whose backend answers 503 to every request. *)
Definition host_unavailable : Host :=
  {| net := fun _ => Responded 503 None;
     draws := fun _ => 1 # 2;
     clock := fun n => 1000 * Z.of_nat n;
     JSON_parse := fun _ => None;
     JSON_stringify := fun _ => "{}";
     toLowerCase := fun s => s;
     encodeURIComponent := fun s => s;
     to_string := fun _ => "1" |}.

(** A freshly loaded page with nothing stored. *)
Definition empty_world : World :=
  {| localStorage := ∅; API_CACHE := ∅; fetch_log := []; screen := [];
     unfinished := []; location_href := None; currentUser := None;
     ticks := 0; rng := 0 |}.

(** The same page after a login that stored the token ["abc"]. *)
Definition signed_in_world : World :=
  with_localStorage {[ "cropdoctor_token" := "abc" ]} empty_world.

(** The state in which [getCached(key)] returns: the clock was read if the
    key is bound, and not otherwise. *)
Definition looked_up (key : string) (w : World) : World :=
  match API_CACHE w !! key with
  | Some _ => with_ticks (S (ticks w)) w
  | None => w
  end.

(** The shape the four cached controllers share. *)
Definition cached_or_fetch (h : Host) (key u : string) (o : Options)
    (show : Payload -> Comp unit) (fallback : Comp unit) : Comp unit :=
  run cached := getCached h key in
  match cache_hit cached with
  | Some c => show c
  | None =>
      try_catch
        (run result := apiFetch h u o in
         setCache h key (Remote result) ;;;
         show (Remote result))
        (fun _ => fallback)
  end.

(** An advisory request of one of the five domains. *)
Inductive Advisory : Type :=
| Disease (file : string)
| Yield (f : YieldForm)
| Irrigation (f : IrrigationForm)
| Fertilizer (f : FertilizerForm)
| WeatherQuery (loc : string).

Definition controller (h : Host) (a : Advisory) : Comp unit :=
  match a with
  | Disease file => analyzeDisease h (Some file)
  | Yield f => predictYield h f
  | Irrigation f => getIrrigationAdvice h f
  | Fertilizer f => getFertilizerAdvice h f
  | WeatherQuery loc => getWeather h loc
  end.

(** The cache key of a request; the disease controller has none. *)
Definition cache_key (h : Host) (a : Advisory) : option string :=
  match a with
  | Disease _ => None
  | Yield f => Some ("yield_" +:+ JSON_stringify h (yield_json (yield_data f)))
  | Irrigation f => Some ("irr_" +:+ JSON_stringify h (irrigation_json (irrigation_data f)))
  | Fertilizer f => Some ("fert_" +:+ JSON_stringify h (fertilizer_json (fertilizer_data f)))
  | WeatherQuery loc => Some ("weather_" +:+ toLowerCase h loc)
  end.

(** The arguments of the controller's call of [apiFetch]. *)
Definition gateway_call (h : Host) (a : Advisory) : string * Options :=
  match a with
  | Disease file =>
      (API_BASE +:+ "/api/disease/detect",
       {| method := Some "POST"; headers := None; body := Some file |})
  | Yield f =>
      (API_BASE +:+ "/api/yield/predict",
       post_json (JSON_stringify h (yield_json (yield_data f))))
  | Irrigation f =>
      (API_BASE +:+ "/api/irrigation/recommend",
       post_json (JSON_stringify h (irrigation_json (irrigation_data f))))
  | Fertilizer f =>
      (API_BASE +:+ "/api/fertilizer/recommend",
       post_json (JSON_stringify h (fertilizer_json (fertilizer_data f))))
  | WeatherQuery loc =>
      (API_BASE +:+ "/api/weather?location=" +:+ encodeURIComponent h loc, no_options)
  end.

(** The result of the gateway for the request, in a state of the page. *)
Definition gateway_result (h : Host) (a : Advisory) (w : World) : Error + value :=
  (apiFetch h (gateway_call h a).1 (gateway_call h a).2 w).2.

(** The controller gets as far as the gateway: it does not return early and
    the cache has no live truthy entry for the request. *)
Definition reaches_gateway (h : Host) (a : Advisory) (w : World) : bool :=
  match a, cache_key h a with
  | WeatherQuery loc, Some key =>
      negb (String.eqb loc "")
      && bool_decide (cache_hit (Cache.getCached (API_CACHE w) (clock h (ticks w)) key) = None)
  | _, Some key =>
      bool_decide (cache_hit (Cache.getCached (API_CACHE w) (clock h (ticks w)) key) = None)
  | _, None => true
  end.

(** [estimate(domain, request)]: the local fallback computed from the
    request, on the draws of [Math.random()] that follow position [pos]. *)
Definition estimate (h : Host) (a : Advisory) (pos : nat) : Panel * Payload :=
  match a with
  | Disease _ =>
      (DiseasePanel, DiseaseEstimate (Estimator.fallbackDiseaseDetection (draws h) pos).1)
  | Yield f =>
      (YieldPanel,
       YieldEstimate (Estimator.localYieldPrediction (yield_data f) (draws h) pos).1)
  | Irrigation f =>
      (IrrigationPanel,
       IrrigationEstimate (Estimator.localIrrigationCalc (irrigation_data f)))
  | Fertilizer f =>
      (FertilizerPanel,
       FertilizerEstimate (Estimator.localFertilizerCalc (fertilizer_data f)))
  | WeatherQuery loc =>
      (WeatherPanel, WeatherEstimate (Estimator.localWeather loc (draws h) pos).1)
  end.

(** The entry that [table[key] || dflt] takes from the table itself: an own
    entry other than 0, else the default. *)
Definition entry_or (table : gmap string Q) (key : string) (dflt : Q) : Q :=
  match table !! key with
  | Some q => if Qnum q =? 0 then dflt else q
  | None => dflt
  end.

(** The yield before and after the penalties, computed from the entries of
    the tables. *)
Definition base_entries (d : YieldData) : Q :=
  (entry_or baseYields (y_crop d) 4.0
   * entry_or soilMult (y_soil d) 1.0
   * entry_or seasonMult (y_season d) 1.0)%Q.

Definition adjusted_entries (d : YieldData) : Q :=
  let y := base_entries d in
  let y := if temperature_penalty d then (y * 0.85)%Q else y in
  let y := if rainfall_high d then (y * 0.9)%Q else y in
  let y := if rainfall_low d then (y * 0.8)%Q else y in
  y.

(** The water computed from the entries of the tables. *)
Definition water_entries (d : IrrigationData) : Q :=
  (entry_or waterNeeds (i_crop d) 4000
   * entry_or stageMult (i_stage d) 1.0
   * entry_or soilDrain (i_soil d) 1.0)%Q.

(** A field of the request names an inherited member of its table. *)
Definition yield_inherits (d : YieldData) : bool :=
  inherited (y_crop d) || inherited (y_soil d) || inherited (y_season d).

Definition irrigation_inherits (d : IrrigationData) : bool :=
  inherited (i_crop d) || inherited (i_stage d) || inherited (i_soil d).

(** The request is a fertilizer request whose crop names an inherited
    member of the table. *)
Definition inherited_crop (a : Advisory) : bool :=
  match a with
  | Fertilizer f => inherited (fert_crop f)
  | _ => false
  end.

(** The yield request [d] with the crop ["constructor"]. *)
Definition constructor_yield (d : YieldData) : YieldData :=
  {| y_crop := "constructor"; y_soil := y_soil d; y_area := y_area d;
     y_season := y_season d; y_sowing_date := y_sowing_date d;
     y_harvest_date := y_harvest_date d; y_rainfall := y_rainfall d;
     y_temperature := y_temperature d |}.

(** The fertilizer request [d] with the crop ["constructor"]. *)
Definition constructor_request (d : FertilizerData) : FertilizerData :=
  {| f_crop := "constructor"; f_soil := f_soil d; f_area := f_area d;
     f_stage := f_stage d |}.

(** A fertilizer form for the crop ["constructor"]. *)
Definition constructor_form : FertilizerForm :=
  {| fert_crop := "constructor"; fert_soil := "loamy"; fert_area := Some 2%Q;
     fert_stage := "vegetative" |}.

(** The contract of [Math.random()]: every draw is in [0, 1). *)
Definition unit_interval (draws : nat -> Q) : Prop :=
  forall i : nat, (0 <= draws i /\ draws i < 1)%Q.

(** The irrigation form of the specification's scenario, sent while the
    backend answers 503. *)
Definition rice_clay_form : IrrigationForm :=
  {| irr_crop := "rice"; irr_soil := "clay"; irr_moisture := Some 25%Q;
     irr_stage := "vegetative" |}.

(** The page is sent to the login surface and no session is installed. *)
Definition redirected_to_login (w w' : World) : Prop :=
  location_href w' = Some "login.html" /\ currentUser w' = currentUser w.

(** The session is accepted: no navigation is requested and the persisted
    record stays. *)
Definition session_accepted (w w' : World) : Prop :=
  location_href w' = location_href w /\ localStorage w' = localStorage w.

(** A host whose [JSON.parse] knows three texts: the empty object, [null],
    and the record of a farmer named Asha. *)
Definition dq : string := String (Ascii.ascii_of_nat 34) EmptyString.

Definition asha_text : string :=
  "{" +:+ dq +:+ "name" +:+ dq +:+ ":" +:+ dq +:+ "Asha" +:+ dq +:+ ","
  +:+ dq +:+ "role" +:+ dq +:+ ":" +:+ dq +:+ "farmer" +:+ dq +:+ "}".

Definition asha : value := VObj [("name", VStr "Asha"); ("role", VStr "farmer")].

Definition host_parsing : Host :=
  {| net := fun _ => TimedOut;
     draws := fun _ => 0%Q;
     clock := fun n => Z.of_nat n;
     JSON_parse := fun text =>
       if String.eqb text "{}" then Some (VObj [])
       else if String.eqb text "null" then Some VNull
       else if String.eqb text asha_text then Some asha
       else None;
     JSON_stringify := fun _ => "{}";
     toLowerCase := fun s => s;
     encodeURIComponent := fun s => s;
     to_string := fun _ => "1" |}.

Definition world_storing (text : string) : World :=
  with_localStorage {[ "cropdoctor_user" := text ]} empty_world.

(** The dashboard loaded again: a new document with the storage of [w].
    No navigation is requested yet, [window.currentUser] is not set, the
    module-level [API_CACHE] is empty and nothing is rendered; the log of
    requests, the clock and the random stream go on. *)
Definition reloaded (w : World) : World :=
  {| localStorage := localStorage w; API_CACHE := ∅; fetch_log := fetch_log w;
     screen := []; unfinished := []; location_href := None; currentUser := None;
     ticks := ticks w; rng := rng w |}.

(** Asha signed in on the dashboard, with a token and an empty directory of
    offline accounts in the storage. *)
Definition asha_signed_in : World :=
  {| localStorage := {[ "cropdoctor_user" := asha_text; "cropdoctor_token" := "abc";
                        "cropdoctor_users" := "[]" ]};
     API_CACHE := ∅; fetch_log := []; screen := []; unfinished := [];
     location_href := None; currentUser := Some asha; ticks := 0; rng := 0 |}.

(** A yield request at 0 degrees: rice on clay in kharif, one hectare. *)
Definition freezing_request : YieldData :=
  {| y_crop := "rice"; y_soil := "clay"; y_area := 1; y_season := "kharif";
     y_sowing_date := "2024-06-15"; y_harvest_date := None;
     y_rainfall := None; y_temperature := Some 0%Q |}.

(** The same request as the form holds it. *)
Definition freezing_form : YieldForm :=
  {| yield_crop := "rice"; yield_soil := "clay"; yield_area := 1;
     yield_season := "kharif"; yield_sowing_date := "2024-06-15";
     yield_harvest_date := ""; yield_rainfall := None;
     yield_temperature := Some 0%Q |}.

Definition with_temperature (t : option Q) (d : YieldData) : YieldData :=
  {| y_crop := y_crop d; y_soil := y_soil d; y_area := y_area d;
     y_season := y_season d; y_sowing_date := y_sowing_date d;
     y_harvest_date := y_harvest_date d; y_rainfall := y_rainfall d;
     y_temperature := t |}.

(** A stream of draws that is constantly 5/7. *)
Definition rainy_draws : nat -> Q := fun _ => (5 # 7)%Q.








(** Position [i] of the directory holds the contact [c]. *)
Definition holds_contact (users : list Directory.UserData) (i : nat) (c : string) : Prop :=
  exists u, users !! i = Some u /\ Directory.email_phone u = c.

(** The contact [c] occurs at one position of the directory at most. *)
Definition at_most_once (c : string) (users : list Directory.UserData) : Prop :=
  forall i j, holds_contact users i c -> holds_contact users j c -> i = j.

(** Exactly one position holds the contact of [e], and it carries [e]. *)
Definition exactly_one_position (e : Directory.UserData)
    (users : list Directory.UserData) : Prop :=
  exists i, users !! i = Some e
    /\ forall j, holds_contact users j (Directory.email_phone e) -> j = i.

Definition account (who contact secret : string) : Directory.UserData :=
  {| Directory.name := who; Directory.initials := "";
     Directory.email_phone := contact; Directory.address := "";
     Directory.age := ""; Directory.role := "farmer";
     Directory.password := secret |}.

(** A directory that holds Ravi's contact twice, as a hand-edited or merged
    [cropdoctor_users] text can. *)
Definition duplicated_directory : list Directory.UserData :=
  [account "Ravi" "ravi@example.org" "first"; account "Ravi" "ravi@example.org" "second"].

Definition unique_directory : list Directory.UserData :=
  [account "Asha" "asha@example.org" "secret"; account "Ravi" "ravi@example.org" "first"].

Definition ravi_new : Directory.UserData := account "Ravi" "ravi@example.org" "third".

(** * Vocabulary of the further properties *)

(** The panel a controller renders into and the test of its display
    function. *)
Definition panel_of (a : Advisory) : Panel :=
  match a with
  | Disease _ => DiseasePanel
  | Yield _ => YieldPanel
  | Irrigation _ => IrrigationPanel
  | Fertilizer _ => FertilizerPanel
  | WeatherQuery _ => WeatherPanel
  end.

Definition renders_of (a : Advisory) : Payload -> bool :=
  match a with
  | Disease _ => disease_renders
  | Yield _ => yield_renders
  | Irrigation _ => irrigation_renders
  | Fertilizer _ => fertilizer_renders
  | WeatherQuery _ => weather_renders
  end.

(** Whether the display function has assigned an element of its panel by
    the time it throws. *)
Definition writes_of (a : Advisory) : Payload -> bool :=
  match a with
  | Disease _ => writes_at_once
  | Yield _ => writes_at_once
  | Irrigation _ => writes_last
  | Fertilizer _ => writes_last
  | WeatherQuery _ => writes_at_once
  end.

(** The body of the controller's [catch] block. *)
Definition fallback_of (h : Host) (a : Advisory) : Comp unit :=
  match a with
  | Disease _ =>
      run est := sample h fallbackDiseaseDetection in
      display DiseasePanel disease_renders writes_at_once (DiseaseEstimate est)
  | Yield f =>
      run est := sample h (localYieldPrediction (yield_data f)) in
      display YieldPanel yield_renders writes_at_once (YieldEstimate est)
  | Irrigation f =>
      display IrrigationPanel irrigation_renders writes_last
        (IrrigationEstimate (localIrrigationCalc (irrigation_data f)))
  | Fertilizer f =>
      display FertilizerPanel fertilizer_renders writes_last
        (FertilizerEstimate (localFertilizerCalc (fertilizer_data f)))
  | WeatherQuery loc =>
      run est := sample h (localWeather loc) in
      display WeatherPanel weather_renders writes_at_once (WeatherEstimate est)
  end.

(** Every payload in the cache came from the backend. *)
Definition only_remote (c : gmap string (Cache.entry Payload)) : Prop :=
  forall key e, c !! key = Some e -> exists v, Cache.data e = Remote v.

(** The controllers of a list of requests, run one after the other. *)
Definition run_all (h : Host) (requests : list Advisory) (w : World) : World :=
  foldl (fun w a => (controller h a w).1) w requests.

(** The state after a cached controller whose request was answered and
    rendered: the lookup, the request, the write stamped with the reading
    of [setCache], the rendering. *)
Definition answered_state (h : Host) (w : World) (key u : string) (o : Options)
    (panel : Panel) (v : value) : World :=
  with_screen (screen w ++ [(panel, Remote v)])
    (with_API_CACHE
       (Cache.setCache (API_CACHE w) (clock h (ticks (looked_up key w))) key (Remote v))
       (with_ticks (S (ticks (looked_up key w)))
          (with_fetch_log (fetch_log w ++ [request_sent w u o])
             (looked_up key w)))).

(** A backend that answers every request with an irrigation plan, and a
    clock that advances one second per reading. *)
Definition irrigation_plan : value :=
  VObj [("water_per_day", VNum 4100); ("schedule", VStr "48h")].

Definition host_serving : Host :=
  {| net := fun _ => Responded 200 (Some irrigation_plan);
     draws := fun _ => 1 # 2;
     clock := fun n => 1000 * Z.of_nat n;
     JSON_parse := fun _ => None;
     JSON_stringify := fun _ => "{}";
     toLowerCase := fun s => s;
     encodeURIComponent := fun s => s;
     to_string := fun _ => "1" |}.

(** The same backend seen by a page that reads its clock once every ten
    minutes. *)
Definition host_serving_slowly : Host :=
  {| net := net host_serving;
     draws := draws host_serving;
     clock := fun n => 600000 * Z.of_nat n;
     JSON_parse := JSON_parse host_serving;
     JSON_stringify := JSON_stringify host_serving;
     toLowerCase := toLowerCase host_serving;
     encodeURIComponent := encodeURIComponent host_serving;
     to_string := to_string host_serving |}.

(** A yield form for wheat on loam in rabi, two hectares. *)
Definition wheat_form : YieldForm :=
  {| yield_crop := "wheat"; yield_soil := "loamy"; yield_area := 2;
     yield_season := "rabi"; yield_sowing_date := "2024-11-01";
     yield_harvest_date := ""; yield_rainfall := None;
     yield_temperature := None |}.

(** The two texts of the irrigation recommendation. *)
Definition recommendation_text (d : IrrigationData) (verdict : string) : string :=
  "For " +:+ i_crop d +:+ " in " +:+ i_soil d +:+ " soil at " +:+ i_stage d
  +:+ " stage: " +:+ verdict
  +:+ " Apply water early morning or late evening. Consider drip irrigation for 40% water savings.".

Definition immediate_text (d : IrrigationData) : string :=
  recommendation_text d "⚠️ Immediate irrigation recommended.".

Definition acceptable_text (d : IrrigationData) : string :=
  recommendation_text d "✅ Moisture levels acceptable.".

(** [users.find(u => u.email_phone === email && u.password === password)]:
    the account an offline login looks for. *)
Definition find_account (users : list Directory.UserData) (email secret : string)
    : option Directory.UserData :=
  List.find (fun u => String.eqb (Directory.email_phone u) email
                      && String.eqb (Directory.password u) secret) users.

(** [users.some(u => u.email_phone === contact)]: the test of an offline
    signup. *)
Definition contact_taken (users : list Directory.UserData) (contact : string) : bool :=
  existsb (fun u => String.eqb (Directory.email_phone u) contact) users.

(** * Session handling and the login page *)

(** The submit handlers of the login page ([handleFarmerLogin],
    [handleAdminLogin], [handleSignup]) exist twice, in the login module and
    in auth.js.  A handler takes the values of its form fields as arguments
    and returns the message it leaves on the page; the elements it writes to
    are taken to exist.  The navigation that a handler schedules with a
    timer is the navigation it requests.  [fetch] is called without an abort
    signal, so a request that is never answered counts as a failed one.
    [JSON.parse] and [JSON.stringify] are those of the host; trimming,
    upper-casing, [parseInt] and the formatting of dates are built-ins
    supplied with the handler. *)

(** ** Built-ins used by the login code *)

(** String and date built-ins of the browser that the login code calls.
    A JavaScript string is a sequence of UTF-16 code units: its length and
    its prefixes are counted in code units, so they are built-ins too and
    not the byte operations of [string]. *)
Record Builtins : Type := {
  String_trim : string -> string;
  String_toUpperCase : string -> string;
  String_length : string -> nat;            (* s.length *)
  String_prefix : nat -> string -> string;  (* s.substring(0, n) *)
  Number_parseInt : string -> option Z;     (* None: NaN *)
  Date_toISOString : Z -> string
}.

(** [a === b]; objects and arrays are equal only to themselves, and two
    values decoded from different texts are never the same object. *)
Definition strict_eq (a b : value) : bool :=
  match a, b with
  | VUndefined, VUndefined => true
  | VNull, VNull => true
  | VBool x, VBool y => Bool.eqb x y
  | VNum x, VNum y => Qeq_bool x y
  | VStr x, VStr y => String.eqb x y
  | _, _ => false
  end.

(** [v.key] as an expression: a TypeError on [null] and [undefined]. *)
Definition member (v : value) (key : string) : Comp value :=
  match prop v key with
  | Some x => ret x
  | None => throw TypeError
  end.

(** The space character. *)
Definition space : Ascii.ascii := Ascii.ascii_of_nat 32.

(** [s.split(' ')] *)
Fixpoint split_spaces (s : string) : list string :=
  match s with
  | EmptyString => [EmptyString]
  | String c rest =>
      if Ascii.eqb c space then EmptyString :: split_spaces rest
      else match split_spaces rest with
           | part :: parts => String c part :: parts
           | [] => [String c EmptyString]
           end
  end.

(** [getInitials(name)] on a string.  The parts that pass the filter are
    not empty, so [part[0]] is the prefix of one code unit. *)
Definition initials_of (b : Builtins) (name : string) : string :=
  if String.eqb name "" then "CD"
  else
    let parts :=
      List.filter (fun part => negb (String.eqb part ""))
        (split_spaces (String_trim b name)) in
    match parts with
    | first :: second :: _ =>
        String_toUpperCase b (String_prefix b 1 first +:+ String_prefix b 1 second)
    | _ => String_toUpperCase b (String_prefix b 2 name)
    end.

(** [getInitials(name)] on any value: a truthy value that is not a string
    has no [trim]. *)
Definition getInitials (b : Builtins) (name : value) : Comp string :=
  if negb (truthy name) then ret "CD"
  else match name with
       | VStr s => ret (initials_of b s)
       | _ => throw TypeError
       end.

(** ** Storage and network primitives *)

(** [localStorage.setItem(key, text)] *)
Definition setItem (key text : string) : Comp unit :=
  fun w => (with_localStorage (<[key := text]> (localStorage w)) w, inr tt).

(** [JSON.parse(text)]; a text that is not JSON throws. *)
Definition parse (h : Host) (text : string) : Comp value :=
  match JSON_parse h text with
  | Some v => ret v
  | None => throw BodyError
  end.

(** [JSON.parse(localStorage.getItem('cropdoctor_users') || '[]')] *)
Definition read_users (h : Host) : Comp value :=
  run raw := getItem "cropdoctor_users" in
  match raw with
  | None => ret (VArr [])
  | Some text => if String.eqb text "" then ret (VArr []) else parse h text
  end.

(** A response of [fetch]: its status and, when it is JSON, its body. *)
Record Response : Type := { status_code : Z; json_body : option value }.

(** [fetch(url, options)] without an abort signal: a request that is
    refused or never answered rejects. *)
Definition fetch (h : Host) (u : string) (o : Options) : Comp Response :=
  fun w =>
    let req := {| url := u; options := o |} in
    let w := with_fetch_log (fetch_log w ++ [req]) w in
    match net h req with
    | Rejected cause => (w, inl (FetchFailed cause))
    | TimedOut => (w, inl (FetchFailed "timeout"))
    | Responded st json => (w, inr {| status_code := st; json_body := json |})
    end.

(** [await res.json()] *)
Definition res_json (res : Response) : Comp value :=
  match json_body res with
  | Some v => ret v
  | None => throw BodyError
  end.

(** The message a handler leaves on the page: its text and its kind. *)
Inductive Notice : Type :=
| NoticeError (text : value)
| NoticeSuccess (text : value).

(** [{ ...obj, key: v }]: the key keeps its place when [obj] has it. *)
Fixpoint put_field (key : string) (v : value) (fields : list (string * value))
    : list (string * value) :=
  match fields with
  | [] => [(key, v)]
  | (k, x) :: rest =>
      if String.eqb k key then (k, v) :: rest else (k, x) :: put_field key v rest
  end.

Definition own_fields (v : value) : list (string * value) :=
  match v with VObj fields => fields | _ => [] end.

(** [arr.find(pred)] and [arr.findIndex(pred)] with a predicate that may
    throw; a value that is not an array has neither method. *)
Fixpoint find_first (pred : value -> option bool) (items : list value)
    : option (option value) :=
  match items with
  | [] => Some None
  | x :: rest =>
      match pred x with
      | None => None
      | Some true => Some (Some x)
      | Some false => find_first pred rest
      end
  end.

Fixpoint find_index (pred : value -> option bool) (items : list value) : option Z :=
  match items with
  | [] => Some (-1)
  | x :: rest =>
      match pred x with
      | None => None
      | Some true => Some 0
      | Some false =>
          match find_index pred rest with
          | Some i => Some (if i <? 0 then -1 else i + 1)
          | None => None
          end
      end
  end.

(** [u => u.email_phone === contact] *)
Definition has_contact (contact : value) (u : value) : option bool :=
  match prop u "email_phone" with
  | Some c => Some (strict_eq c contact)
  | None => None
  end.

(** [u => u.email_phone === email && u.password === password] *)
Definition has_credentials (email secret : string) (u : value) : option bool :=
  match prop u "email_phone", prop u "password" with
  | Some c, Some p => Some (strict_eq c (VStr email) && strict_eq p (VStr secret))
  | _, _ => None
  end.

(** [cacheUser(userData)] / [storeUserLocally(userData)] on the stored
    text. *)
Definition cacheUser_stored (h : Host) (userData : value) : Comp unit :=
  run users := read_users h in
  match users with
  | VArr items =>
      match find_index (has_contact (field userData "email_phone")) items with
      | None => throw TypeError
      | Some idx =>
          let items' :=
            if 0 <=? idx then <[Z.to_nat idx := userData]> items
            else items ++ [userData] in
          setItem "cropdoctor_users" (JSON_stringify h (VArr items'))
      end
  | _ => throw TypeError
  end.

(** [localStorage.setItem('cropdoctor_token', token || '')] *)
Definition token_text (h : Host) (token : value) : string :=
  if truthy token
  then match token with VStr s => s | _ => to_string h token end
  else "".

(** [handleLogout()] of the dashboard. *)
Definition handleLogout : Comp unit :=
  removeItem "cropdoctor_user" ;;;
  removeItem "cropdoctor_token" ;;;
  navigate "login.html".

(** ** Login module *)

(** The texts of the messages are the ones of the file, character for
    character. *)

Module Login.

(** The handler run when the login page has loaded, up to the handling of
    the URL hash. *)
Definition pageLoad (h : Host) : Comp unit :=
  run existing := getItem "cropdoctor_user" in
  match existing with
  | None => ret tt
  | Some text =>
      if String.eqb text "" then ret tt
      else
        try_catch
          (run u := parse h text in
           if truthy u && truthy (field u "name") then navigate "dashboard.html"
           else ret tt)
          (fun _ => ret tt)
  end.

(** The session object built from the response of a login. *)
Definition session_of (h : Host) (b : Builtins) (data : value) (role : value -> value)
    : Comp (list (string * value)) :=
  run user := member data "user" in
  run name := member user "name" in
  run initials :=
    (if truthy (field user "initials") then ret (field user "initials")
     else run s := getInitials b name in ret (VStr s)) in
  run now := Date_now h in
  ret [("name", name);
       ("initials", initials);
       ("email_phone", field user "email_phone");
       ("address", js_or (field user "address") (VStr ""));
       ("age", js_or (field user "age") (VStr ""));
       ("role", role (field user "role"));
       ("loggedInAt", VStr (Date_toISOString b now))].

(** The offline branch of the farmer login. *)
Definition offline_login (h : Host) (b : Builtins) (email secret : string) : Comp Notice :=
  run users := read_users h in
  match users with
  | VArr items =>
      match find_first (has_credentials email secret) items with
      | None => throw TypeError
      | Some (Some user) =>
          run now := Date_now h in
          setItem "cropdoctor_user"
            (JSON_stringify h
               (VObj (put_field "loggedInAt" (VStr (Date_toISOString b now))
                        (own_fields user)))) ;;;
          navigate "dashboard.html" ;;;
          ret (NoticeSuccess (VStr "âœ… Logged in (offline mode)."))
      | Some None =>
          ret (NoticeError
                 (VStr "Cannot reach server. Check your credentials and try again."))
      end
  | _ => throw TypeError
  end.

(** [handleFarmerLogin(event)]; the navigation is the one the timer
    requests a second later. *)
Definition handleFarmerLogin (h : Host) (b : Builtins) (email_field secret : string)
    : Comp Notice :=
  let email := String_trim b email_field in
  if String.eqb email "" || String.eqb secret ""
  then ret (NoticeError (VStr "Please fill in all fields."))
  else
    try_catch
      (run res := fetch h (API_BASE +:+ "/api/auth/login")
                    (post_json
                       (JSON_stringify h
                          (VObj [("email_phone", VStr email); ("password", VStr secret)]))) in
       run data := res_json res in
       if response_ok (status_code res)
       then
         run user := session_of h b data (fun r => js_or r (VStr "farmer")) in
         setItem "cropdoctor_user" (JSON_stringify h (VObj user)) ;;;
         run token := member data "token" in
         setItem "cropdoctor_token" (token_text h token) ;;;
         cacheUser_stored h (VObj (user ++ [("password", VStr secret)])) ;;;
         navigate "dashboard.html" ;;;
         ret (NoticeSuccess (VStr "âœ… Login successful! Redirecting..."))
       else
         run detail := member data "detail" in
         ret (NoticeError (js_or detail (VStr "Invalid credentials."))))
      (fun _ => offline_login h b email secret).

(** [handleAdminLogin(event)] *)
Definition handleAdminLogin (h : Host) (b : Builtins) (email_field secret : string)
    : Comp Notice :=
  let email := String_trim b email_field in
  if String.eqb email "" || String.eqb secret ""
  then ret (NoticeError (VStr "Please fill in all fields."))
  else
    try_catch
      (run res := fetch h (API_BASE +:+ "/api/auth/admin/login")
                    (post_json
                       (JSON_stringify h
                          (VObj [("email", VStr email); ("password", VStr secret)]))) in
       run data := res_json res in
       if response_ok (status_code res)
       then
         run user := member data "user" in
         run name := member user "name" in
         run initials :=
           (if truthy (field user "initials") then ret (field user "initials")
            else run s := getInitials b name in ret (VStr s)) in
         run now := Date_now h in
         setItem "cropdoctor_user"
           (JSON_stringify h
              (VObj [("name", name);
                     ("initials", initials);
                     ("email_phone", field user "email_phone");
                     ("role", VStr "admin");
                     ("loggedInAt", VStr (Date_toISOString b now))])) ;;;
         run token := member data "token" in
         setItem "cropdoctor_token" (token_text h token) ;;;
         navigate "dashboard.html" ;;;
         ret (NoticeSuccess (VStr "âœ… Admin login successful! Redirecting..."))
       else
         run detail := member data "detail" in
         ret (NoticeError (js_or detail (VStr "Invalid admin credentials."))))
      (fun _ =>
         ret (NoticeError (VStr "Cannot reach server. Please check your connection."))).

(** The fields of the signup form. *)
Record SignupForm : Type := {
  farmer_name : string;
  farmer_address : string;
  farmer_age : string;
  farmer_contact : string;
  farmer_password : string;
  farmer_confirm_password : string
}.

(** [parseInt(age) < 18 || parseInt(age) > 100]; every comparison with NaN
    is false. *)
Definition age_out_of_range (b : Builtins) (age : string) : bool :=
  match Number_parseInt b age with
  | Some n => (n <? 18) || (100 <? n)
  | None => false
  end.

(** The message of the first validation that fails, if any. *)
Definition validate (b : Builtins) (f : SignupForm) : option string :=
  let name := String_trim b (farmer_name f) in
  let address := String_trim b (farmer_address f) in
  let contact := String_trim b (farmer_contact f) in
  if String.eqb name "" || String.eqb address "" || String.eqb (farmer_age f) ""
     || String.eqb contact "" || String.eqb (farmer_password f) ""
     || String.eqb (farmer_confirm_password f) ""
  then Some "Please fill in all required fields."
  else if negb (String.eqb (farmer_password f) (farmer_confirm_password f))
  then Some "Passwords do not match."
  else if (String_length b (farmer_password f) <? 6)%nat
  then Some "Password must be at least 6 characters."
  else if age_out_of_range b (farmer_age f)
  then Some "Age must be between 18 and 100."
  else None.

(** [parseInt(age)] as it is serialised: NaN becomes [null]. *)
Definition age_value (b : Builtins) (age : string) : value :=
  match Number_parseInt b age with
  | Some n => VNum (inject_Z n)
  | None => VNull
  end.

(** [payload] of the signup. *)
Definition payload (b : Builtins) (f : SignupForm) : list (string * value) :=
  [("name", VStr (String_trim b (farmer_name f)));
   ("address", VStr (String_trim b (farmer_address f)));
   ("age", age_value b (farmer_age f));
   ("email_phone", VStr (String_trim b (farmer_contact f)));
   ("password", VStr (farmer_password f))].

(** [{ ...payload, initials: getInitials(name), role: 'farmer' }] *)
Definition account_of (b : Builtins) (f : SignupForm) : value :=
  VObj (payload b f
        ++ [("initials", VStr (initials_of b (String_trim b (farmer_name f))));
            ("role", VStr "farmer")]).

(** The offline branch of the signup. *)
Definition offline_signup (h : Host) (b : Builtins) (f : SignupForm) : Comp Notice :=
  run users := read_users h in
  match users with
  | VArr items =>
      match find_first (has_contact (VStr (String_trim b (farmer_contact f)))) items with
      | None => throw TypeError
      | Some (Some _) =>
          ret (NoticeError (VStr "An account with this email/phone already exists."))
      | Some None =>
          cacheUser_stored h (account_of b f) ;;;
          ret (NoticeSuccess (VStr "âœ… Account created (offline mode). Please login."))
      end
  | _ => throw TypeError
  end.

(** [handleSignup(event)] *)
Definition handleSignup (h : Host) (b : Builtins) (f : SignupForm) : Comp Notice :=
  match validate b f with
  | Some text => ret (NoticeError (VStr text))
  | None =>
      try_catch
        (run res := fetch h (API_BASE +:+ "/api/auth/signup")
                      (post_json (JSON_stringify h (VObj (payload b f)))) in
         run data := res_json res in
         if response_ok (status_code res)
         then
           cacheUser_stored h (account_of b f) ;;;
           ret (NoticeSuccess (VStr "âœ… Account created! Please login."))
         else
           run detail := member data "detail" in
           ret (NoticeError (js_or detail (VStr "Signup failed. Try again."))))
        (fun _ => offline_signup h b f)
  end.

End Login.

(** ** auth.js *)

Module Auth.

(** The handler run when the page has loaded; [JSON.parse] is not
    guarded here. *)
Definition pageLoad (h : Host) : Comp unit :=
  run existingUser := getItem "cropdoctor_user" in
  match existingUser with
  | None => ret tt
  | Some text =>
      if String.eqb text "" then ret tt
      else
        run user := parse h text in
        if truthy user && truthy (field user "name") then navigate "dashboard.html"
        else ret tt
  end.

(** The offline branch of the farmer login: the session is built field by
    field from the cached account. *)
Definition offline_login (h : Host) (b : Builtins) (email secret : string)
    : Comp (option Notice) :=
  run users := read_users h in
  match users with
  | VArr items =>
      match find_first (has_credentials email secret) items with
      | None => throw TypeError
      | Some (Some user) =>
          run initials :=
            (if truthy (field user "initials") then ret (field user "initials")
             else run s := getInitials b (field user "name") in ret (VStr s)) in
          run now := Date_now h in
          setItem "cropdoctor_user"
            (JSON_stringify h
               (VObj [("name", field user "name");
                      ("initials", initials);
                      ("email_phone", field user "email_phone");
                      ("address", js_or (field user "address") (VStr ""));
                      ("age", js_or (field user "age") (VStr ""));
                      ("role", VStr "farmer");
                      ("loggedInAt", VStr (Date_toISOString b now))])) ;;;
          ret None
      | Some None =>
          ret (Some (NoticeError
                       (VStr "Invalid email/phone or password. Please check your credentials.")))
      end
  | _ => throw TypeError
  end.

(** [handleFarmerLogin(event)]; a branch that returns early yields its
    message, the others set [loggedIn] and fall through to the redirect. *)
Definition handleFarmerLogin (h : Host) (b : Builtins) (email_field secret : string)
    : Comp Notice :=
  let email := String_trim b email_field in
  if String.eqb email "" || String.eqb secret ""
  then ret (NoticeError (VStr "Please fill in all fields."))
  else
    run early :=
      try_catch
        (run res := fetch h (API_BASE +:+ "/api/auth/login")
                      (post_json
                         (JSON_stringify h
                            (VObj [("email_phone", VStr email); ("password", VStr secret)]))) in
         run data := res_json res in
         if response_ok (status_code res)
         then
           run user := Login.session_of h b data (fun r => js_or r (VStr "farmer")) in
           setItem "cropdoctor_user" (JSON_stringify h (VObj user)) ;;;
           run token := member data "token" in
           setItem "cropdoctor_token" (token_text h token) ;;;
           cacheUser_stored h (VObj (user ++ [("password", VStr secret)])) ;;;
           ret None
         else
           run detail := member data "detail" in
           ret (Some (NoticeError
                        (js_or detail (VStr "Invalid credentials. Please try again.")))))
        (fun _ => offline_login h b email secret) in
    match early with
    | Some notice => ret notice
    | None =>
        navigate "dashboard.html" ;;;
        ret (NoticeSuccess (VStr "✅ Login successful! Redirecting to dashboard..."))
    end.

(** [userData] of the signup, built before the request. *)
Definition userData (b : Builtins) (f : Login.SignupForm) : value :=
  VObj [("name", VStr (String_trim b (Login.farmer_name f)));
        ("address", VStr (String_trim b (Login.farmer_address f)));
        ("age", Login.age_value b (Login.farmer_age f));
        ("email_phone", VStr (String_trim b (Login.farmer_contact f)));
        ("password", VStr (Login.farmer_password f));
        ("initials", VStr (initials_of b (String_trim b (Login.farmer_name f))))].

Definition offline_signup (h : Host) (b : Builtins) (f : Login.SignupForm)
    : Comp (option Notice) :=
  run users := read_users h in
  match users with
  | VArr items =>
      match find_first (has_contact (VStr (String_trim b (Login.farmer_contact f)))) items with
      | None => throw TypeError
      | Some (Some _) =>
          ret (Some (NoticeError
                       (VStr "An account with this email/phone already exists.")))
      | Some None => cacheUser_stored h (userData b f) ;;; ret None
      end
  | _ => throw TypeError
  end.

(** [handleSignup(event)]; the validation is the one of the login module,
    with the same messages. *)
Definition handleSignup (h : Host) (b : Builtins) (f : Login.SignupForm) : Comp Notice :=
  match Login.validate b f with
  | Some text => ret (NoticeError (VStr text))
  | None =>
      run early :=
        try_catch
          (run res := fetch h (API_BASE +:+ "/api/auth/signup")
                        (post_json (JSON_stringify h (userData b f))) in
           run data := res_json res in
           if response_ok (status_code res)
           then cacheUser_stored h (userData b f) ;;; ret None
           else
             run detail := member data "detail" in
             ret (Some (NoticeError
                          (js_or detail (VStr "Signup failed. Please try again.")))))
          (fun _ => offline_signup h b f) in
      match early with
      | Some notice => ret notice
      | None =>
          ret (NoticeSuccess
                 (VStr "✅ Account created successfully! Redirecting to login..."))
      end
  end.

End Auth.

(** ** Vocabulary of the login properties *)

(** The request of a login, of an admin login and of the two signups. *)
Definition login_request (h : Host) (email secret : string) : Request :=
  {| url := API_BASE +:+ "/api/auth/login";
     options := post_json (JSON_stringify h
                             (VObj [("email_phone", VStr email); ("password", VStr secret)])) |}.

Definition admin_login_request (h : Host) (email secret : string) : Request :=
  {| url := API_BASE +:+ "/api/auth/admin/login";
     options := post_json (JSON_stringify h
                             (VObj [("email", VStr email); ("password", VStr secret)])) |}.

Definition signup_request (h : Host) (body : value) : Request :=
  {| url := API_BASE +:+ "/api/auth/signup";
     options := post_json (JSON_stringify h body) |}.

(** The request gets no answer that can be read: it is refused, never
    answered, or answered with a body that is not JSON. *)
Definition unanswered (h : Host) (req : Request) : bool :=
  match net h req with
  | Rejected _ | TimedOut => true
  | Responded _ None => true
  | Responded _ (Some _) => false
  end.

(** The offline directory as the login code reads it: the array under
    [cropdoctor_users], empty when the key is unset; [None] when the text is
    not the JSON of an array. *)
Definition stored_users (h : Host) (w : World) : option (list value) :=
  match localStorage w !! "cropdoctor_users" with
  | None => Some []
  | Some text =>
      if String.eqb text "" then Some []
      else match JSON_parse h text with
           | Some (VArr items) => Some items
           | _ => None
           end
  end.

(** The state after a request was handed to [fetch]. *)
Definition after_fetch (req : Request) (w : World) : World :=
  with_fetch_log (fetch_log w ++ [req]) w.

(** Built-ins for the sample inputs, which are plain ASCII and need no
    trimming: lengths and prefixes are those of the text, and upper-casing
    goes by table. *)
Definition sample_builtins : Builtins :=
  {| String_trim := fun s => s;
     String_toUpperCase := fun s => if String.eqb s "Me" then "ME" else s;
     String_length := String.length;
     String_prefix := fun n s => String.substring 0 n s;
     Number_parseInt := fun s => if String.eqb s "34" then Some 34 else None;
     Date_toISOString := fun _ => "2024-06-15T10:00:00.000Z" |}.

(** The first cached account with the credentials, as [find] returns it. *)
Definition matching_account (email secret : string) (items : list value) : option value :=
  List.find (fun u => default false (has_credentials email secret u)) items.

(** [getInitials] can be computed for the account: its initials are truthy
    or its name is falsy or a string. *)
Definition initials_computable (user : value) : bool :=
  truthy (field user "initials")
  || negb (truthy (field user "name"))
  || match field user "name" with VStr _ => true | _ => false end.

(** A directory with Ravi's account, under a host that reads and writes it
    as the text ["ravi.json"], and a network that is down. *)
Definition ravi_account : value :=
  VObj [("name", VStr "Ravi"); ("email_phone", VStr "ravi@example.org");
        ("password", VStr "monsoon"); ("role", VStr "farmer")].

Definition host_offline : Host :=
  {| net := fun _ => Rejected "connection refused";
     draws := fun _ => 0%Q;
     clock := fun n => Z.of_nat n;
     JSON_parse := fun text =>
       if String.eqb text "ravi.json" then Some (VArr [ravi_account]) else None;
     JSON_stringify := fun v =>
       match v with
       | VArr [_] => "ravi.json"
       | VArr _ => "accounts.json"
       | _ => "session.json"
       end;
     toLowerCase := fun s => s;
     encodeURIComponent := fun s => s;
     to_string := fun _ => "1" |}.

Definition world_with_ravi : World :=
  with_localStorage {[ "cropdoctor_users" := "ravi.json" ]} empty_world.



(** A signup form that passes every check. *)
Definition meena_form : Login.SignupForm :=
  {| Login.farmer_name := "Meena";
     Login.farmer_address := "Guntur";
     Login.farmer_age := "34";
     Login.farmer_contact := "meena@example.org";
     Login.farmer_password := "harvest";
     Login.farmer_confirm_password := "harvest" |}.

(** A step that hands nothing to [fetch], and a step that hands exactly
    the request [req] to it, whatever it returns or throws. *)
Definition keeps_requests {A} (c : Comp A) : Prop :=
  forall w, fetch_log (c w).1 = fetch_log w.

Definition sends {A} (req : Request) (c : Comp A) : Prop :=
  forall w, fetch_log (c w).1 = fetch_log w ++ [req].

(** What the login code finds in the directory for a contact: the first
    cached account that holds it. *)
Definition account_with_contact (contact : string) (items : list value) : option value :=
  List.find (fun u => default false (has_contact (VStr contact) u)) items.

(** The host writes the directory [items] as a text that it reads back as
    the same array; the text of an array is never empty. *)
Definition reads_back (h : Host) (items : list value) : Prop :=
  JSON_stringify h (VArr items) <> ""
  /\ JSON_parse h (JSON_stringify h (VArr items)) = Some (VArr items).

(** A host without network that keeps a directory of one account under
    the text ["account.json"]. *)
Definition host_remembering (acct : value) : Host :=
  {| net := fun _ => Rejected "connection refused";
     draws := fun _ => 0%Q;
     clock := fun n => Z.of_nat n;
     JSON_parse := fun text =>
       if String.eqb text "account.json" then Some (VArr [acct]) else None;
     JSON_stringify := fun v =>
       match v with
       | VArr _ => "account.json"
       | _ => "session.json"
       end;
     toLowerCase := fun s => s;
     encodeURIComponent := fun s => s;
     to_string := fun _ => "1" |}.

(** A form whose age is not a number. *)
Definition ageless_form : Login.SignupForm :=
  {| Login.farmer_name := "Meena";
     Login.farmer_address := "Guntur";
     Login.farmer_age := "soon";
     Login.farmer_contact := "meena@example.org";
     Login.farmer_password := "harvest";
     Login.farmer_confirm_password := "harvest" |}.

(** Meena's account as each module caches it, and the state after her
    offline signup. *)
Definition meena_account : value := Login.account_of sample_builtins meena_form.

Definition meena_userData : value := Auth.userData sample_builtins meena_form.

(** The directory after [cacheUser(acct)] on a directory of objects: the
    first account with the contact of [acct] is replaced, or [acct] is
    appended. *)
Definition upsert (acct : value) (items : list value) : list value :=
  match find_index (has_contact (field acct "email_phone")) items with
  | Some idx => if 0 <=? idx then <[Z.to_nat idx := acct]> items else items ++ [acct]
  | None => items
  end.






(** * Admin panel (dashboard module) *)











(** ** Vocabulary of the admin properties *)










(** * Properties *)

(** ** Response cache *)

Section CacheProperties.

Context {P : Type}.
Implicit Types (c : gmap string (Cache.entry P)) (k : string) (v : P).

Lemma getCached_unbound c now k :
  c !! k = None -> Cache.getCached c now k = None.
Proof. intros Hk. unfold Cache.getCached. by rewrite Hk. Qed.

Lemma getCached_setCache_fresh c k v t_put t_get :
  t_get - t_put < Cache.CACHE_TTL ->
  Cache.getCached (Cache.setCache c t_put k v) t_get k = Some v.
Proof.
  intros Hfresh. unfold Cache.getCached, Cache.setCache.
  rewrite lookup_insert_eq. cbn.
  destruct (Z.ltb_spec (t_get - t_put) Cache.CACHE_TTL); [done | lia].
Qed.

Lemma getCached_setCache_expired c k v t_put t_get :
  Cache.CACHE_TTL <= t_get - t_put ->
  Cache.getCached (Cache.setCache c t_put k v) t_get k = None.
Proof.
  intros Hold. unfold Cache.getCached, Cache.setCache.
  rewrite lookup_insert_eq. cbn.
  destruct (Z.ltb_spec (t_get - t_put) Cache.CACHE_TTL); [lia | done].
Qed.

(** A write under another key does not disturb a key. *)
Lemma getCached_setCache_other c k k' v now t :
  k <> k' ->
  Cache.getCached (Cache.setCache c t k' v) now k = Cache.getCached c now k.
Proof.
  intros Hne. unfold Cache.getCached, Cache.setCache.
  by rewrite lookup_insert_ne.
Qed.

End CacheProperties.

(** C1. For every cache, key [k] and value [v]: a [getCached(k)] at the same
    clock reading as [setCache(k, v)], and at any reading less than
    [CACHE_TTL] = 300000 ms after it, returns [v]; a [getCached(k)] once
    300000 ms or more have elapsed since the [setCache] returns absent; and a
    [getCached] of a key that was never put returns absent. *)
Theorem cache_get_after_put (P : Type) (c : gmap string (Cache.entry P))
    (k : string) (v : P) (t_put t_get : Z) :
  Cache.CACHE_TTL = 300000
  /\ Cache.getCached (Cache.setCache c t_put k v) t_put k = Some v
  /\ (t_get - t_put < Cache.CACHE_TTL ->
      Cache.getCached (Cache.setCache c t_put k v) t_get k = Some v)
  /\ (Cache.CACHE_TTL <= t_get - t_put ->
      Cache.getCached (Cache.setCache c t_put k v) t_get k = None)
  /\ Cache.getCached (∅ : gmap string (Cache.entry P)) t_get k = None
  /\ (c !! k = None -> Cache.getCached c t_get k = None).
Proof.
  split; [reflexivity |].
  split; [apply getCached_setCache_fresh; unfold Cache.CACHE_TTL; lia |].
  split; [apply getCached_setCache_fresh |].
  split; [apply getCached_setCache_expired |].
  split; [apply getCached_unbound, lookup_empty | apply getCached_unbound].
Qed.

(** A weather payload is put at 1000 ms and read at 2000 ms, at 301000 ms,
    and under a key never put. *)
Lemma cache_get_after_put_witness :
  Cache.getCached (Cache.setCache ∅ 1000 "weather_pune" (VStr "sunny")) 2000 "weather_pune"
    = Some (VStr "sunny")
  /\ Cache.getCached (Cache.setCache ∅ 1000 "weather_pune" (VStr "sunny")) 301000 "weather_pune"
    = None
  /\ Cache.getCached (Cache.setCache ∅ 1000 "weather_pune" (VStr "sunny")) 2000 "weather_delhi"
    = None.
Proof.
  pose proof (cache_get_after_put value ∅ "weather_pune" (VStr "sunny") 1000 2000)
    as (_ & _ & Hfresh & _).
  pose proof (cache_get_after_put value ∅ "weather_pune" (VStr "sunny") 1000 301000)
    as (_ & _ & _ & Hold & _).
  pose proof (cache_get_after_put value
                (Cache.setCache ∅ 1000 "weather_pune" (VStr "sunny"))
                "weather_delhi" (VStr "sunny") 1000 2000)
    as (_ & _ & _ & _ & _ & Hnever).
  split; [apply Hfresh; unfold Cache.CACHE_TTL; lia |].
  split; [apply Hold; unfold Cache.CACHE_TTL; lia |].
  apply Hnever. unfold Cache.setCache. rewrite lookup_insert_ne; [apply lookup_empty | done].
Defined.

(** ** Timed request gateway *)

Lemma apiFetch_unfold h u o w :
  apiFetch h u o w =
    (with_fetch_log (fetch_log w ++ [request_sent w u o]) w,
     match net h (request_sent w u o) with
     | Rejected cause => inl (FetchFailed cause)
     | TimedOut => inl AbortError
     | Responded st json =>
         if response_ok st
         then match json with Some v => inr v | None => inl BodyError end
         else inl (HTTP st)
     end).
Proof.
  unfold apiFetch, request_sent.
  destruct (localStorage w !! "cropdoctor_token") as [t|]; [destruct (negb (String.eqb t ""))|];
    (destruct (net h _) as [cause| |st [v|]]; [done | done | by destruct (response_ok st) ..]).
Qed.

(** Only the request log changes. *)
Lemma apiFetch_frame h u o w :
  let w' := (apiFetch h u o w).1 in
  localStorage w' = localStorage w /\ API_CACHE w' = API_CACHE w
  /\ screen w' = screen w /\ location_href w' = location_href w
  /\ currentUser w' = currentUser w /\ ticks w' = ticks w /\ rng w' = rng w.
Proof. rewrite apiFetch_unfold. by cbn. Qed.

Lemma response_ok_spec st : response_ok st = true <-> 200 <= st <= 299.
Proof. unfold response_ok. rewrite andb_true_iff, !Z.leb_le. done. Qed.

(** C3. For every call of [apiFetch]: exactly one request is handed to
    [fetch] (the log grows by one entry, whatever the outcome); when a
    non-empty token is stored under [cropdoctor_token] that request carries
    the header [Authorization: Bearer <token>] next to the caller's headers,
    and otherwise the caller's options unchanged; a response whose status is
    outside 200..299 makes the call fail with the error that carries the
    status; a transport failure or a timeout makes it fail with its cause;
    there is no second attempt. *)
Theorem apiFetch_contract (h : Host) (w : World) (u : string) (o : Options) :
  exists req : Request,
    fetch_log (apiFetch h u o w).1 = fetch_log w ++ [req]
    /\ url req = u
    /\ (forall t, localStorage w !! "cropdoctor_token" = Some t -> t <> "" ->
        headers (options req)
          = Some (<["Authorization" := "Bearer " +:+ t]> (default ∅ (headers o)))
        /\ method (options req) = method o /\ body (options req) = body o)
    /\ (localStorage w !! "cropdoctor_token" = None
        \/ localStorage w !! "cropdoctor_token" = Some "" ->
        options req = o)
    /\ (forall st json, net h req = Responded st json -> ~ (200 <= st <= 299) ->
        (apiFetch h u o w).2 = inl (HTTP st))
    /\ (forall cause, net h req = Rejected cause ->
        (apiFetch h u o w).2 = inl (FetchFailed cause))
    /\ (net h req = TimedOut -> (apiFetch h u o w).2 = inl AbortError)
    /\ (forall st v, net h req = Responded st (Some v) -> 200 <= st <= 299 ->
        (apiFetch h u o w).2 = inr v).
Proof.
  exists (request_sent w u o). rewrite apiFetch_unfold. cbn [fst snd].
  split; [by cbn |].
  split; [unfold request_sent; by repeat case_match |].
  split.
  { intros t Ht Hne. unfold request_sent. rewrite Ht.
    destruct (String.eqb_spec t "") as [->|_]; [done | by cbn]. }
  split.
  { intros [Ht|Ht]; unfold request_sent; by rewrite Ht. }
  split.
  { intros st json -> Hst. destruct (response_ok st) eqn:Hok; [|done].
    apply response_ok_spec in Hok. contradiction. }
  split; [by intros cause -> |].
  split; [by intros -> |].
  intros st v -> Hst. apply response_ok_spec in Hst. by rewrite Hst.
Qed.

(** The signed-in page asks for the farmer list while the backend answers
    503. *)
Lemma apiFetch_contract_witness :
  (apiFetch host_unavailable "/api/admin/farmers" no_options signed_in_world).2
    = inl (HTTP 503)
  /\ exists req,
      fetch_log (apiFetch host_unavailable "/api/admin/farmers" no_options signed_in_world).1
        = [req]
      /\ headers (options req) = Some {[ "Authorization" := "Bearer abc" ]}.
Proof.
  destruct (apiFetch_contract host_unavailable signed_in_world
              "/api/admin/farmers" no_options)
    as (req & Hlog & _ & Hauth & _ & Hstatus & _).
  split.
  - apply (Hstatus 503 None); [reflexivity | lia].
  - exists req. split; [exact Hlog |].
    destruct (Hauth "abc") as (Hh & _); [reflexivity | discriminate |].
    exact Hh.
Defined.

(** ** Fallback on gateway failure *)

Lemma request_sent_storage w1 w2 u o :
  localStorage w1 = localStorage w2 -> request_sent w1 u o = request_sent w2 u o.
Proof. intros Heq. unfold request_sent. by rewrite Heq. Qed.

Lemma apiFetch_result_storage h u o w1 w2 :
  localStorage w1 = localStorage w2 -> (apiFetch h u o w1).2 = (apiFetch h u o w2).2.
Proof.
  intros Heq. rewrite !apiFetch_unfold. cbn [snd].
  by rewrite (request_sent_storage w1 w2).
Qed.

Lemma apiFetch_state h u o w :
  (apiFetch h u o w).1 = with_fetch_log (fetch_log w ++ [request_sent w u o]) w.
Proof. by rewrite apiFetch_unfold. Qed.

Lemma getCached_run h key w :
  getCached h key w
  = (looked_up key w, inr (Cache.getCached (API_CACHE w) (clock h (ticks w)) key)).
Proof.
  unfold getCached, looked_up.
  destruct (API_CACHE w !! key) as [e|] eqn:Hkey;
    [|by rewrite getCached_unbound].
  unfold bind, Date_now. cbn. unfold Cache.getCached. by rewrite Hkey.
Qed.

Lemma looked_up_frame key w :
  localStorage (looked_up key w) = localStorage w
  /\ API_CACHE (looked_up key w) = API_CACHE w
  /\ fetch_log (looked_up key w) = fetch_log w
  /\ screen (looked_up key w) = screen w
  /\ unfinished (looked_up key w) = unfinished w
  /\ rng (looked_up key w) = rng w.
Proof. unfold looked_up. by destruct (API_CACHE w !! key). Qed.

(** The three paths of a cached controller: hit, failed call, answered
    call. *)
Lemma cached_or_fetch_unfold h key u o show fallback w :
  cached_or_fetch h key u o show fallback w =
    let w1 := looked_up key w in
    match cache_hit (Cache.getCached (API_CACHE w) (clock h (ticks w)) key) with
    | Some c => show c w1
    | None =>
        let w2 := with_fetch_log (fetch_log w ++ [request_sent w u o]) w1 in
        match (apiFetch h u o w).2 with
        | inl _ => fallback w2
        | inr v =>
            let w3 :=
              with_API_CACHE
                (Cache.setCache (API_CACHE w) (clock h (ticks w1)) key (Remote v))
                (with_ticks (S (ticks w1)) w2) in
            match show (Remote v) w3 with
            | (w4, inl _) => fallback w4
            | (w4, inr a) => (w4, inr a)
            end
        end
    end.
Proof.
  unfold cached_or_fetch, bind at 1. rewrite getCached_run.
  destruct (looked_up_frame key w) as (Hstore & Hcache & Hlog & _).
  destruct (cache_hit _) as [c|]; [done |].
  unfold try_catch, bind at 1.
  rewrite (surjective_pairing (apiFetch h u o (looked_up key w))).
  rewrite (apiFetch_result_storage h u o _ w) by done.
  rewrite apiFetch_state.
  rewrite (request_sent_storage (looked_up key w) w) by done. rewrite Hlog.
  destruct ((apiFetch h u o w).2) as [e|v]; [done |].
  unfold bind at 1, setCache, bind at 1, Date_now. cbn. rewrite Hcache.
  by destruct (show (Remote v) _) as [w4 [e|a]].
Qed.

Lemma cached_or_fetch_failure h key u o show fallback w e :
  cache_hit (Cache.getCached (API_CACHE w) (clock h (ticks w)) key) = None ->
  (apiFetch h u o w).2 = inl e ->
  cached_or_fetch h key u o show fallback w
  = fallback (with_fetch_log (fetch_log w ++ [request_sent w u o]) (looked_up key w)).
Proof.
  intros Hmiss Hfail. rewrite cached_or_fetch_unfold. cbn zeta.
  by rewrite Hmiss, Hfail.
Qed.

Lemma display_cache panel renders writes d w :
  API_CACHE (display panel renders writes d w).1 = API_CACHE w.
Proof. unfold display. destruct (renders d); [done |]. by destruct (writes d). Qed.

Lemma display_ok panel renders writes d w :
  renders d = true ->
  display panel renders writes d w
  = (with_screen (screen w ++ [(panel, d)]) w, inr tt).
Proof. intros Hr. unfold display. by rewrite Hr. Qed.

Lemma sample_unfold {A} h (c : Rand A) w :
  sample h c w = (with_rng (c (draws h) (rng w)).2 w, inr (c (draws h) (rng w)).1).
Proof. unfold sample. by destruct (c (draws h) (rng w)). Qed.

(** The cache after a cached controller: untouched, or extended with the
    payload of a successful response. *)
Lemma cached_or_fetch_cache h key u o show fallback w :
  (forall d w0, API_CACHE (show d w0).1 = API_CACHE w0) ->
  (forall w0, API_CACHE (fallback w0).1 = API_CACHE w0) ->
  let w' := (cached_or_fetch h key u o show fallback w).1 in
  API_CACHE w' = API_CACHE w
  \/ exists v, (apiFetch h u o w).2 = inr v
       /\ API_CACHE w'
          = Cache.setCache (API_CACHE w) (clock h (ticks (looked_up key w))) key (Remote v).
Proof.
  intros Hshow Hfb. rewrite cached_or_fetch_unfold. cbn zeta.
  destruct (looked_up_frame key w) as (_ & Hcache & _).
  destruct (cache_hit _) as [c|].
  { left. by rewrite Hshow. }
  destruct ((apiFetch h u o w).2) as [e|v] eqn:Hres.
  { left. by rewrite Hfb. }
  right. exists v. split; [done |].
  match goal with |- context [show (Remote v) ?w3] =>
    pose proof (Hshow (Remote v) w3) as Hs; destruct (show (Remote v) w3) as [w4 [e|a]]
  end; cbn [fst] in *; [by rewrite Hfb | done].
Qed.

Lemma floor_scaled_range (r : Q) (k : Z) :
  (0 <= r)%Q -> (r < 1)%Q -> 0 < k -> 0 <= Qfloor (r * inject_Z k) < k.
Proof.
  intros Hr0 Hr1 Hk.
  assert (Hk' : (0 < inject_Z k)%Q) by (unfold Qlt; cbn; lia).
  split.
  - change 0 with (Qfloor 0). apply Qfloor_resp_le.
    apply Qmult_le_0_compat; [done | by apply Qlt_le_weak].
  - rewrite Zlt_Qlt. eapply Qle_lt_trans; [apply Qfloor_le |].
    rewrite <- (Qmult_1_l (inject_Z k)) at 2.
    by apply Qmult_lt_compat_r.
Qed.

Lemma random_below_unfold k draws pos :
  random_below k draws pos = (Qfloor (draws pos * inject_Z k), S pos).
Proof. reflexivity. Qed.

Lemma at_index_in_range {A} (arr : list A) (i : Z) :
  0 <= i < Z.of_nat (length arr) -> is_Some (Estimator.at_index arr i).
Proof.
  intros [Hlo Hhi]. unfold Estimator.at_index.
  destruct (Z.ltb_spec i 0); [lia |]. apply lookup_lt_is_Some. lia.
Qed.

Lemma fallbackDiseaseDetection_defined draws pos :
  unit_interval draws ->
  is_Some (Estimator.fallbackDiseaseDetection draws pos).1.
Proof.
  intros Hd. unfold Estimator.fallbackDiseaseDetection, rbind, rret.
  rewrite random_below_unfold. cbn [fst].
  apply at_index_in_range. destruct (Hd pos). by apply floor_scaled_range.
Qed.

Lemma sample_then_display_cache {A} h (c : Rand A) panel renders writes
    (wrap : A -> Payload) w :
  API_CACHE ((run est := sample h c in display panel renders writes (wrap est)) w).1
  = API_CACHE w.
Proof. unfold bind. rewrite sample_unfold. by rewrite display_cache. Qed.

Lemma sample_then_display_ok {A} h (c : Rand A) panel renders writes
    (wrap : A -> Payload) w :
  renders (wrap (c (draws h) (rng w)).1) = true ->
  (run est := sample h c in display panel renders writes (wrap est)) w
  = (with_screen (screen w ++ [(panel, wrap (c (draws h) (rng w)).1)])
       (with_rng (c (draws h) (rng w)).2 w), inr tt).
Proof. intros Hr. unfold bind. rewrite sample_unfold. by rewrite display_ok. Qed.

Lemma predictYield_shape h f :
  predictYield h f =
    cached_or_fetch h ("yield_" +:+ JSON_stringify h (yield_json (yield_data f)))
      (API_BASE +:+ "/api/yield/predict")
      (post_json (JSON_stringify h (yield_json (yield_data f))))
      (display YieldPanel yield_renders writes_at_once)
      (run est := sample h (Estimator.localYieldPrediction (yield_data f)) in
       display YieldPanel yield_renders writes_at_once (YieldEstimate est)).
Proof. reflexivity. Qed.

Lemma getIrrigationAdvice_shape h f :
  getIrrigationAdvice h f =
    cached_or_fetch h ("irr_" +:+ JSON_stringify h (irrigation_json (irrigation_data f)))
      (API_BASE +:+ "/api/irrigation/recommend")
      (post_json (JSON_stringify h (irrigation_json (irrigation_data f))))
      (display IrrigationPanel irrigation_renders writes_last)
      (display IrrigationPanel irrigation_renders writes_last
         (IrrigationEstimate (Estimator.localIrrigationCalc (irrigation_data f)))).
Proof. reflexivity. Qed.

Lemma getFertilizerAdvice_shape h f :
  getFertilizerAdvice h f =
    cached_or_fetch h ("fert_" +:+ JSON_stringify h (fertilizer_json (fertilizer_data f)))
      (API_BASE +:+ "/api/fertilizer/recommend")
      (post_json (JSON_stringify h (fertilizer_json (fertilizer_data f))))
      (display FertilizerPanel fertilizer_renders writes_last)
      (display FertilizerPanel fertilizer_renders writes_last
         (FertilizerEstimate (Estimator.localFertilizerCalc (fertilizer_data f)))).
Proof. reflexivity. Qed.

Lemma getWeather_shape h loc :
  getWeather h loc =
    if String.eqb loc "" then ret tt
    else cached_or_fetch h ("weather_" +:+ toLowerCase h loc)
           (API_BASE +:+ "/api/weather?location=" +:+ encodeURIComponent h loc)
           no_options
           (display WeatherPanel weather_renders writes_at_once)
           (run est := sample h (Estimator.localWeather loc) in
            display WeatherPanel weather_renders writes_at_once (WeatherEstimate est)).
Proof. reflexivity. Qed.

Lemma display_throws panel renders writes d w :
  renders d = false ->
  display panel renders writes d w
  = ((if writes d then with_unfinished (unfinished w ++ [(panel, d)]) w else w),
     inl TypeError).
Proof. intros Hr. unfold display. by rewrite Hr. Qed.

(** No key of the fertilizer table is the name of an inherited member. *)
Lemma inherited_not_a_row crop : inherited crop = true -> Estimator.db !! crop = None.
Proof.
  unfold inherited. intros Hin. apply existsb_exists in Hin as (name & Hname & Heq).
  apply String.eqb_eq in Heq. subst name.
  repeat (destruct Hname as [<-|Hname]; [by vm_compute |]). destruct Hname.
Qed.

Lemma recommended_inherited crop :
  inherited crop = true -> Estimator.recommended crop = None.
Proof.
  intros Hin. unfold Estimator.recommended.
  by rewrite (inherited_not_a_row crop Hin), Hin.
Qed.

Lemma recommended_row crop :
  inherited crop = false -> is_Some (Estimator.recommended crop).
Proof.
  intros Hin. unfold Estimator.recommended. rewrite Hin.
  by destruct (Estimator.db !! crop).
Qed.

(** The fertilizer estimate can be rendered exactly when the crop does not
    name an inherited member. *)
Lemma fertilizer_estimate_renders d :
  fertilizer_renders (FertilizerEstimate (Estimator.localFertilizerCalc d))
  = negb (inherited (Estimator.f_crop d)).
Proof.
  unfold fertilizer_renders, Estimator.localFertilizerCalc. cbn [Estimator.fertilizers].
  destruct (inherited (Estimator.f_crop d)) eqn:Hin.
  - by rewrite (recommended_inherited _ Hin).
  - by destruct (recommended_row _ Hin) as [row ->].
Qed.

(** C2 (the code departs from the claim on one kind of request).  For every
    advisory request (disease, yield, irrigation, fertilizer, weather) whose
    controller gets as far as the gateway: if [apiFetch] fails, one request
    was sent and the response cache is left as it was; and unless the
    request is a fertilizer request whose crop names a member that the table
    inherits, such as ["constructor"], the controller completes and the
    rendering it adds to the screen is the local estimate computed from that
    same request.  For such a fertilizer request the estimate holds three
    [undefined] entries, [displayFertilizerResult] throws on the first of
    them inside the [catch] block, and nothing is displayed.  Moreover,
    whatever the gateway answers, the cache after the controller is either
    unchanged or the old cache with the payload of a successful response
    stored under the request's key at the reading of [setCache]: it runs
    only after a successful remote response. *)
Theorem fallback_on_gateway_failure (h : Host) (a : Advisory) (w : World) :
  unit_interval (draws h) ->
  (forall e : Error,
      reaches_gateway h a w = true ->
      gateway_result h a w = inl e ->
      length (fetch_log (controller h a w).1) = S (length (fetch_log w))
      /\ API_CACHE (controller h a w).1 = API_CACHE w
      /\ (inherited_crop a = false ->
            (controller h a w).2 = inr tt
            /\ screen (controller h a w).1 = screen w ++ [estimate h a (rng w)])
      /\ (inherited_crop a = true ->
            (controller h a w).2 = inl TypeError
            /\ screen (controller h a w).1 = screen w
            /\ unfinished (controller h a w).1 = unfinished w
            /\ exists r,
                 (estimate h a (rng w)).2 = FertilizerEstimate r
                 /\ Estimator.fertilizers r = [None; None; None]))
  /\ (API_CACHE (controller h a w).1 = API_CACHE w
      \/ exists key v,
          cache_key h a = Some key
          /\ gateway_result h a w = inr v
          /\ API_CACHE (controller h a w).1
             = Cache.setCache (API_CACHE w) (clock h (ticks (looked_up key w))) key
                 (Remote v)).
Proof.
  intros Hrand. split.
  - intros e Hreach Hfail. unfold gateway_result in Hfail.
    remember (controller h a w) as res eqn:Hres.
    destruct a as [file|f|f|f|loc];
      cbn [controller gateway_call fst snd inherited_crop] in *.
    + (* disease: no cache in front of the gateway *)
      unfold analyzeDisease, try_catch, bind at 1, displayDiseaseResult in Hres.
      rewrite (surjective_pairing (apiFetch h _ _ w)), Hfail, apiFetch_state in Hres.
      destruct (fallbackDiseaseDetection_defined (draws h) (rng w) Hrand) as [r Hr].
      rewrite sample_then_display_ok in Hres
        by (cbn [rng with_fetch_log]; by rewrite Hr).
      subst res. cbn. by rewrite length_app, Nat.add_1_r.
    + apply bool_decide_eq_true in Hreach.
      rewrite predictYield_shape in Hres.
      rewrite (cached_or_fetch_failure _ _ _ _ _ _ _ e Hreach Hfail) in Hres.
      rewrite sample_then_display_ok in Hres by done.
      destruct (looked_up_frame
                  ("yield_" +:+ JSON_stringify h (yield_json (yield_data f))) w)
        as (_ & Hcache & Hlog & Hscreen & _ & Hrng).
      subst res. cbn. rewrite length_app, Nat.add_1_r, Hcache, Hscreen, Hrng. done.
    + apply bool_decide_eq_true in Hreach.
      rewrite getIrrigationAdvice_shape in Hres.
      rewrite (cached_or_fetch_failure _ _ _ _ _ _ _ e Hreach Hfail) in Hres.
      rewrite display_ok in Hres by done.
      destruct (looked_up_frame
                  ("irr_" +:+ JSON_stringify h (irrigation_json (irrigation_data f))) w)
        as (_ & Hcache & Hlog & Hscreen & _ & Hrng).
      subst res. cbn. rewrite length_app, Nat.add_1_r, Hcache, Hscreen. done.
    + apply bool_decide_eq_true in Hreach.
      rewrite getFertilizerAdvice_shape in Hres.
      rewrite (cached_or_fetch_failure _ _ _ _ _ _ _ e Hreach Hfail) in Hres.
      destruct (looked_up_frame
                  ("fert_" +:+ JSON_stringify h (fertilizer_json (fertilizer_data f))) w)
        as (_ & Hcache & Hlog & Hscreen & Hpartial & Hrng).
      pose proof (fertilizer_estimate_renders (fertilizer_data f)) as Hrenders.
      cbn [Estimator.f_crop fertilizer_data] in Hrenders.
      destruct (inherited (fert_crop f)) eqn:Hin; cbn [negb] in Hrenders.
      * rewrite display_throws in Hres by done.
        subst res. cbn. rewrite length_app, Nat.add_1_r, Hcache, Hscreen, Hpartial.
        split; [done |]. split; [done |]. split; [done |].
        intros _. split; [done |]. split; [done |]. split; [done |].
        eexists. split; [reflexivity |].
        unfold Estimator.localFertilizerCalc. cbn [Estimator.fertilizers].
        cbn [Estimator.f_crop fertilizer_data].
        by rewrite (recommended_inherited _ Hin).
      * rewrite display_ok in Hres by done.
        subst res. cbn. rewrite length_app, Nat.add_1_r, Hcache, Hscreen. done.
    + cbn [reaches_gateway cache_key] in Hreach.
      apply andb_true_iff in Hreach as [Hloc Hreach].
      apply bool_decide_eq_true in Hreach.
      rewrite getWeather_shape in Hres.
      apply negb_true_iff in Hloc. rewrite Hloc in Hres.
      rewrite (cached_or_fetch_failure _ _ _ _ _ _ _ e Hreach Hfail) in Hres.
      rewrite sample_then_display_ok in Hres by done.
      destruct (looked_up_frame ("weather_" +:+ toLowerCase h loc) w)
        as (_ & Hcache & Hlog & Hscreen & _ & Hrng).
      subst res. cbn. rewrite length_app, Nat.add_1_r, Hcache, Hscreen, Hrng. done.
  - unfold gateway_result.
    destruct a as [file|f|f|f|loc]; cbn [controller gateway_call cache_key fst snd].
    + left. unfold analyzeDisease, try_catch, bind at 1, displayDiseaseResult.
      rewrite (surjective_pairing (apiFetch h _ _ w)), apiFetch_state.
      destruct ((apiFetch h _ _ w).2) as [e|v].
      * by rewrite sample_then_display_cache.
      * match goal with |- context [display ?p ?r ?wr ?d ?w0] =>
          pose proof (display_cache p r wr d w0) as Hd;
          destruct (display p r wr d w0) as [w1 [e|[]]]
        end; cbn [fst] in *; [by rewrite sample_then_display_cache | done].
    + rewrite predictYield_shape.
      edestruct cached_or_fetch_cache as [Hsame|(v & Hv & Hnew)];
        [| | left; exact Hsame | right; eauto];
        intros; first [apply display_cache | apply sample_then_display_cache].
    + rewrite getIrrigationAdvice_shape.
      edestruct cached_or_fetch_cache as [Hsame|(v & Hv & Hnew)];
        [| | left; exact Hsame | right; eauto];
        intros; apply display_cache.
    + rewrite getFertilizerAdvice_shape.
      edestruct cached_or_fetch_cache as [Hsame|(v & Hv & Hnew)];
        [| | left; exact Hsame | right; eauto];
        intros; apply display_cache.
    + rewrite getWeather_shape. destruct (String.eqb loc ""); [by left |].
      edestruct cached_or_fetch_cache as [Hsame|(v & Hv & Hnew)];
        [| | left; exact Hsame | right; eauto];
        intros; first [apply display_cache | apply sample_then_display_cache].
Qed.

Lemma host_unavailable_random : unit_interval (draws host_unavailable).
Proof. intros i. cbn. split; [discriminate | reflexivity]. Defined.

(** While the backend answers 503: the irrigation scenario shows its
    estimate, and the fertilizer request for ["constructor"] throws and
    shows nothing. *)
Lemma fallback_on_gateway_failure_witness :
  screen (controller host_unavailable (Irrigation rice_clay_form) empty_world).1
    = [estimate host_unavailable (Irrigation rice_clay_form) 0%nat]
  /\ API_CACHE (controller host_unavailable (Irrigation rice_clay_form) empty_world).1
    = ∅
  /\ (controller host_unavailable (Fertilizer constructor_form) empty_world).2
     = inl TypeError
  /\ screen (controller host_unavailable (Fertilizer constructor_form) empty_world).1
     = [].
Proof.
  destruct (fallback_on_gateway_failure host_unavailable (Irrigation rice_clay_form)
              empty_world host_unavailable_random) as [Hfail _].
  destruct (Hfail (HTTP 503)) as (_ & Hcache & Hshown & _);
    [vm_compute; reflexivity | vm_compute; reflexivity |].
  destruct Hshown as [_ Hscreen]; [reflexivity |].
  destruct (fallback_on_gateway_failure host_unavailable (Fertilizer constructor_form)
              empty_world host_unavailable_random) as [Hslip _].
  destruct (Hslip (HTTP 503)) as (_ & _ & _ & Hthrows);
    [vm_compute; reflexivity | vm_compute; reflexivity |].
  destruct Hthrows as (Hthrow & Hnothing & _); [reflexivity |].
  repeat split; assumption.
Defined.

(** ** Session load *)

Lemma missing_name_fails_check fields :
  assoc "name" fields = None -> has_required_fields (VObj fields) = false.
Proof. intros Hn. unfold has_required_fields, field. cbn. by rewrite Hn. Qed.

Lemma loadUserInfo_absent h w :
  localStorage w !! "cropdoctor_user" = None ->
  loadUserInfo h w = (with_location_href (Some "login.html") w, inr tt).
Proof. intros Hraw. unfold loadUserInfo, bind, getItem. by rewrite Hraw. Qed.

Lemma loadUserInfo_empty h w :
  localStorage w !! "cropdoctor_user" = Some "" ->
  loadUserInfo h w = (with_location_href (Some "login.html") w, inr tt).
Proof. intros Hraw. unfold loadUserInfo, bind, getItem. by rewrite Hraw. Qed.

Lemma loadUserInfo_rejected h w text :
  localStorage w !! "cropdoctor_user" = Some text -> text <> "" ->
  (JSON_parse h text = None
   \/ exists v, JSON_parse h text = Some v /\ has_required_fields v = false) ->
  loadUserInfo h w =
    (with_location_href (Some "login.html")
       (with_localStorage (delete "cropdoctor_user" (localStorage w)) w), inr tt).
Proof.
  intros Hraw Hne Hbad. unfold loadUserInfo, bind at 1, getItem. rewrite Hraw.
  destruct (String.eqb_spec text "") as [|_]; [done |].
  destruct Hbad as [->|(v & -> & ->)]; done.
Qed.

Lemma render_user_frame v w :
  (render_user v w).1 = w.
Proof.
  unfold render_user, bind.
  destruct (truthy (field v "initials")); [|destruct (field v "name")];
    cbn; try done;
    (destruct (truthy (field v "role")); [destruct (field v "role")|]; done).
Qed.

Lemma loadUserInfo_accepted h w text v :
  localStorage w !! "cropdoctor_user" = Some text -> text <> "" ->
  JSON_parse h text = Some v -> has_required_fields v = true ->
  session_accepted w (loadUserInfo h w).1
  /\ ((loadUserInfo h w).2 = inr tt -> currentUser (loadUserInfo h w).1 = Some v).
Proof.
  intros Hraw Hne Hparse Hok.
  remember (loadUserInfo h w) as res eqn:Hres.
  unfold loadUserInfo, bind at 1, getItem in Hres. rewrite Hraw in Hres.
  destruct (String.eqb_spec text "") as [|_]; [done |].
  rewrite Hparse, Hok in Hres. cbn [negb] in Hres. unfold bind at 1 in Hres.
  pose proof (render_user_frame v w) as Hfr.
  destruct (render_user v w) as [w1 [e|[]]]; cbn [fst] in Hfr; subst w1 res; by cbn.
Qed.

(** C4. Session load fails closed.  If no record is stored under
    [cropdoctor_user], or the stored text does not parse, or the parsed value
    fails the required-field check of the code (it is falsy, or its [name] is
    missing or falsy), then [loadUserInfo] requests the navigation to
    [login.html] and installs no session, and it deletes a record that was
    parsed or could not be; a record that parses and passes the check is
    accepted: no navigation is requested, the record stays, and it becomes
    the current user.  Conversely, when no navigation is requested the stored
    record parsed and passed the check. *)
Theorem session_load_fails_closed (h : Host) (w : World) :
  (localStorage w !! "cropdoctor_user" = None ->
   redirected_to_login w (loadUserInfo h w).1)
  /\ (forall text,
       localStorage w !! "cropdoctor_user" = Some text ->
       JSON_parse h text = None ->
       redirected_to_login w (loadUserInfo h w).1
       /\ (text <> "" -> localStorage (loadUserInfo h w).1 !! "cropdoctor_user" = None))
  /\ (forall text v,
       localStorage w !! "cropdoctor_user" = Some text ->
       JSON_parse h text = Some v ->
       has_required_fields v = false ->
       redirected_to_login w (loadUserInfo h w).1
       /\ (text <> "" -> localStorage (loadUserInfo h w).1 !! "cropdoctor_user" = None))
  /\ (forall fields, assoc "name" fields = None -> has_required_fields (VObj fields) = false)
  /\ (forall text v,
       localStorage w !! "cropdoctor_user" = Some text -> text <> "" ->
       JSON_parse h text = Some v ->
       has_required_fields v = true ->
       session_accepted w (loadUserInfo h w).1
       /\ ((loadUserInfo h w).2 = inr tt -> currentUser (loadUserInfo h w).1 = Some v))
  /\ (location_href (loadUserInfo h w).1 <> Some "login.html" ->
      exists text v,
        localStorage w !! "cropdoctor_user" = Some text
        /\ JSON_parse h text = Some v
        /\ has_required_fields v = true).
Proof.
  assert (Hbad : forall text,
             localStorage w !! "cropdoctor_user" = Some text ->
             (JSON_parse h text = None
              \/ exists v, JSON_parse h text = Some v /\ has_required_fields v = false) ->
             redirected_to_login w (loadUserInfo h w).1
             /\ (text <> "" ->
                 localStorage (loadUserInfo h w).1 !! "cropdoctor_user" = None)).
  { intros text Hraw Hcase. destruct (String.eqb_spec text "") as [->|Hne].
    - by rewrite loadUserInfo_empty.
    - rewrite (loadUserInfo_rejected h w text) by done.
      split; [done |]. intros _. cbn. apply lookup_delete_eq. }
  split; [intros Hraw; by rewrite loadUserInfo_absent |].
  split; [intros text Hraw Hparse; apply (Hbad text); auto |].
  split; [intros text v Hraw Hparse Hcheck; apply (Hbad text); eauto |].
  split; [apply missing_name_fails_check |].
  split; [apply loadUserInfo_accepted |].
  intros Hstay.
  destruct (localStorage w !! "cropdoctor_user") as [text|] eqn:Hraw;
    [|by rewrite loadUserInfo_absent in Hstay].
  destruct (JSON_parse h text) as [v|] eqn:Hparse;
    [|by destruct (Hbad text) as [[? _] _]; auto].
  destruct (has_required_fields v) eqn:Hcheck; [by eauto |].
  by destruct (Hbad text) as [[? _] _]; eauto.
Qed.

(** A record without [name] is thrown away and the page goes to the login
    surface; Asha's record is accepted. *)
Lemma session_load_fails_closed_witness :
  (location_href (loadUserInfo host_parsing (world_storing "{}")).1 = Some "login.html"
   /\ localStorage (loadUserInfo host_parsing (world_storing "{}")).1 !! "cropdoctor_user"
      = None)
  /\ location_href (loadUserInfo host_parsing (world_storing "{oops")).1
     = Some "login.html"
  /\ location_href (loadUserInfo host_parsing empty_world).1 = Some "login.html"
  /\ currentUser (loadUserInfo host_parsing (world_storing asha_text)).1 = Some asha.
Proof.
  pose proof (session_load_fails_closed host_parsing (world_storing "{}"))
    as (_ & _ & Hfield & _).
  pose proof (session_load_fails_closed host_parsing (world_storing "{oops"))
    as (_ & Hparse & _).
  pose proof (session_load_fails_closed host_parsing empty_world) as (Habsent & _).
  pose proof (session_load_fails_closed host_parsing (world_storing asha_text))
    as (_ & _ & _ & _ & Hok & _).
  split.
  { destruct (Hfield "{}" (VObj [])) as [[Hnav _] Hgone];
      [reflexivity | reflexivity | reflexivity |].
    split; [exact Hnav | apply Hgone; discriminate]. }
  split.
  { destruct (Hparse "{oops") as [[Hnav _] _]; [reflexivity | reflexivity |].
    exact Hnav. }
  split.
  { destruct Habsent as [Hnav _]; [reflexivity | exact Hnav]. }
  destruct (Hok asha_text asha) as [_ Hcur];
    [reflexivity | discriminate | reflexivity | reflexivity |].
  apply Hcur. reflexivity.
Defined.

(** ** Fallback estimators *)

Lemma Qgtb_spec x y : Qgtb x y = true <-> (y < x)%Q.
Proof.
  unfold Qgtb. rewrite negb_true_iff, <- not_true_iff_false, Qle_bool_iff.
  split; [apply Qnot_le_lt | apply Qlt_not_le].
Qed.

Lemma Qltb_spec x y : Qltb x y = true <-> (x < y)%Q.
Proof. unfold Qltb. apply (Qgtb_spec y x). Qed.

Lemma Qgtb_false x y : Qgtb x y = false <-> (x <= y)%Q.
Proof.
  unfold Qgtb. rewrite negb_false_iff. apply Qle_bool_iff.
Qed.

Lemma Qltb_false x y : Qltb x y = false <-> (y <= x)%Q.
Proof. unfold Qltb. apply (Qgtb_false y x). Qed.

Lemma num_truthy_spec t : num_truthy (Some t) = true <-> ~ (t == 0)%Q.
Proof.
  unfold num_truthy, Qeq. cbn. rewrite negb_true_iff, Z.eqb_neq. lia.
Qed.

(** For a supplied temperature other than 0 the penalty is applied exactly
    outside [10, 35]. *)
Lemma temperature_penalty_nonzero (d : YieldData) (t : Q) :
  y_temperature d = Some t -> ~ (t == 0)%Q ->
  (temperature_penalty d = true <-> (t < 10 \/ 35 < t)%Q).
Proof.
  intros Ht Hnz. unfold temperature_penalty. rewrite Ht. cbn [to_number default].
  apply num_truthy_spec in Hnz. rewrite Hnz. cbn [andb].
  rewrite orb_true_iff, Qgtb_spec, Qltb_spec. tauto.
Qed.

(** No temperature supplied: no penalty. *)
Lemma temperature_penalty_null (d : YieldData) :
  y_temperature d = None -> temperature_penalty d = false.
Proof. intros Ht. unfold temperature_penalty. by rewrite Ht. Qed.

(** C5 (the code departs from the claim at 0 degrees).  The temperature 0 is
    outside [10, 35], yet the guard [data.temperature && ...] reads it as
    falsy: the estimate is the base yield 4.5 * 0.92 * 1.05 = 4.347 and not
    4.347 * 0.85, while at the boundaries 10 and 35 there is no penalty and
    at 9.9 and 35.1 there is one.  The controller turns the field 0 into
    [null] with [parseFloat(...) || null], with the same effect. *)
Theorem yield_penalty_missed_at_zero :
  (to_number (y_temperature freezing_request) < 10)%Q
  /\ temperature_penalty freezing_request = false
  /\ same_number (adjusted_yield freezing_request) (Num 4.347)
  /\ ~ same_number (adjusted_yield freezing_request) (Num (4.347 * 0.85))
  /\ y_temperature (yield_data freezing_form) = None
  /\ temperature_penalty (with_temperature (Some 10%Q) freezing_request) = false
  /\ temperature_penalty (with_temperature (Some 35%Q) freezing_request) = false
  /\ temperature_penalty (with_temperature (Some 9.9%Q) freezing_request) = true
  /\ temperature_penalty (with_temperature (Some 35.1%Q) freezing_request) = true
  /\ same_number (adjusted_yield (with_temperature (Some 9.9%Q) freezing_request))
       (Num (4.347 * 0.85)).
Proof.
  repeat split; try reflexivity. vm_compute. discriminate.
Qed.

(** *** Reads of the tables *)

Lemma inherited_cases key :
  inherited key = true -> key ∈ inherited_names.
Proof.
  unfold inherited. intros Hin. apply existsb_exists in Hin as (name & Hname & Heq).
  apply String.eqb_eq in Heq. subst name. by apply list_elem_of_In.
Qed.

(** One goal per inherited name. *)
Ltac inherited_names H :=
  apply inherited_cases in H; unfold inherited_names in H;
  repeat (apply elem_of_cons in H as [->|H]; [|]);
  [.. | by apply elem_of_nil in H].

(** Away from the inherited names a read is the entry of the table. *)
Lemma lookup_or_entry table key dflt :
  inherited key = false -> lookup_or table key dflt = Num (entry_or table key dflt).
Proof.
  intros Hin. unfold lookup_or, entry_or. rewrite Hin.
  by destruct (table !! key).
Qed.

Lemma lookup_or_NaN table key dflt :
  inherited key = true -> table !! key = None -> lookup_or table key dflt = NaN.
Proof. intros Hin Hkey. unfold lookup_or. by rewrite Hkey, Hin. Qed.

(** None of the six tables has a key that is an inherited name. *)
Lemma tables_own_no_inherited key :
  inherited key = true ->
  baseYields !! key = None /\ soilMult !! key = None /\ seasonMult !! key = None
  /\ waterNeeds !! key = None /\ stageMult !! key = None /\ soilDrain !! key = None.
Proof. intros Hin. inherited_names Hin; by vm_compute. Qed.

(** Every entry of a table built by [list_to_map] is one of the listed
    pairs. *)
Lemma entry_or_cases (pairs : list (string * Q)) (key : string) (dflt : Q) :
  entry_or (list_to_map pairs) key dflt = dflt
  \/ exists q, (key, q) ∈ pairs /\ entry_or (list_to_map pairs) key dflt = q.
Proof.
  unfold entry_or. destruct (list_to_map pairs !! key) as [q|] eqn:Hq; [|by left].
  destruct (Qnum q =? 0); [by left |].
  right. exists q. split; [|done]. by apply elem_of_list_to_map_2.
Qed.

(** One goal per listed pair. *)
Ltac table_cases H :=
  repeat (apply elem_of_cons in H as [H|H]; [injection H as _ -> |]);
  [.. | by apply elem_of_nil in H].

(** Close [exists a, q == ... a ...] for a literal [q] that is a whole
    multiple of [unit]. *)
Ltac whole_multiple unit :=
  match goal with
  | |- exists _ : Z, (?q == _)%Q => exists (Qfloor (q / unit))
  end.

(** *** Irrigation *)

(** The water needs are multiples of 500 and the two multipliers are
    tenths, so the product is a whole number of litres. *)
Lemma waterNeed_multiple crop :
  exists a : Z, (entry_or waterNeeds crop 4000 == inject_Z (500 * a))%Q.
Proof.
  unfold waterNeeds.
  destruct (entry_or_cases
              [("rice", 6000); ("wheat", 3500); ("corn", 4500);
               ("soybean", 3000); ("cotton", 4000); ("sugarcane", 7000)]%Q crop 4000%Q)
    as [->|(q & Hin & ->)].
  - by exists 8.
  - table_cases Hin; by whole_multiple 500%Q.
Qed.

Lemma stageMultiplier_tenths stage :
  exists b : Z, (entry_or stageMult stage 1.0 == inject_Z b / 10)%Q.
Proof.
  unfold stageMult.
  destruct (entry_or_cases
              [("seedling", 0.6); ("vegetative", 1.0); ("flowering", 1.3);
               ("fruiting", 1.1); ("maturity", 0.5)]%Q stage 1.0%Q)
    as [->|(q & Hin & ->)].
  - by exists 10.
  - table_cases Hin; by whole_multiple (1 # 10)%Q.
Qed.

Lemma soilDrainage_tenths soil :
  exists c : Z, (entry_or soilDrain soil 1.0 == inject_Z c / 10)%Q.
Proof.
  unfold soilDrain.
  destruct (entry_or_cases
              [("clay", 0.7); ("sandy", 1.4); ("loamy", 1.0); ("silt", 0.9)]%Q soil 1.0%Q)
    as [->|(q & Hin & ->)].
  - by exists 10.
  - table_cases Hin; by whole_multiple (1 # 10)%Q.
Qed.

Lemma round_whole (x : Q) (z : Z) : (x == inject_Z z)%Q -> Qfloor (x + (1 # 2)) = z.
Proof.
  intros Hx. rewrite Hx.
  apply Z.le_antisymm.
  - apply Z.lt_succ_r. rewrite Zlt_Qlt.
    eapply Qle_lt_trans; [apply Qfloor_le |].
    rewrite <- Z.add_1_r, inject_Z_plus. change (inject_Z 1) with 1%Q. lra.
  - rewrite <- (Qfloor_Z z) at 1. apply Qfloor_resp_le. lra.
Qed.

Lemma water_entries_whole (d : IrrigationData) :
  exists z : Z, (water_entries d == inject_Z z)%Q.
Proof.
  destruct (waterNeed_multiple (i_crop d)) as [a Ha].
  destruct (stageMultiplier_tenths (i_stage d)) as [b Hb].
  destruct (soilDrainage_tenths (i_soil d)) as [c Hc].
  exists (5 * a * b * c). unfold water_entries.
  rewrite Ha, Hb, Hc, !inject_Z_mult. field.
Qed.

(** The product of the three reads: the product of the entries, or NaN as
    soon as one field names an inherited member. *)
Lemma water_product (d : IrrigationData) :
  mul (mul (waterNeed (i_crop d)) (stageMultiplier (i_stage d))) (soilDrainage (i_soil d))
  = if irrigation_inherits d then NaN else Num (water_entries d).
Proof.
  unfold irrigation_inherits, waterNeed, stageMultiplier, soilDrainage, water_entries.
  destruct (inherited (i_crop d)) eqn:Hc.
  { destruct (tables_own_no_inherited _ Hc) as (_ & _ & _ & Hkey & _).
    by rewrite (lookup_or_NaN _ _ _ Hc Hkey). }
  rewrite (lookup_or_entry _ _ _ Hc).
  destruct (inherited (i_stage d)) eqn:Hs.
  { destruct (tables_own_no_inherited _ Hs) as (_ & _ & _ & _ & Hkey & _).
    by rewrite (lookup_or_NaN _ _ _ Hs Hkey). }
  rewrite (lookup_or_entry _ _ _ Hs).
  destruct (inherited (i_soil d)) eqn:Hso.
  { destruct (tables_own_no_inherited _ Hso) as (_ & _ & _ & _ & _ & Hkey).
    by rewrite (lookup_or_NaN _ _ _ Hso Hkey). }
  by rewrite (lookup_or_entry _ _ _ Hso).
Qed.




(** *** Fertilizer *)

Lemma db_rice_row : db_rice = rice_row.
Proof. reflexivity. Qed.

Lemma db_unknown_crop crop :
  crop <> "rice" -> crop <> "wheat" -> crop <> "corn" -> db !! crop = None.
Proof.
  intros Hr Hw Hc. unfold db. cbn [list_to_map foldr uncurry].
  rewrite !lookup_insert_ne by done. apply lookup_empty.
Qed.

Lemma db_known_crop crop row :
  db !! crop = Some row ->
  (crop = "rice" /\ row = rice_row) \/ (crop = "wheat" /\ row = wheat_row)
  \/ (crop = "corn" /\ row = corn_row).
Proof.
  intros Hrow. apply elem_of_list_to_map_2 in Hrow.
  repeat (apply elem_of_cons in Hrow as [Hrow|Hrow]; [injection Hrow as -> ->; tauto |]).
  by apply elem_of_nil in Hrow.
Qed.

(** C7 (the code departs from the claim on the inherited names).  The crop
    ["constructor"] is not a key of the table, yet the fallback does not
    return the rice row for it: [db["constructor"]] is the constructor that
    every object inherits, which is truthy, so [|| db.rice] is not taken and
    the three entries are [undefined]; the same holds for every name that
    the table inherits.  For every other crop that is not a key the
    fallback returns the N, P and K entries of the rice row, and for a crop
    of the table the N, P and K entries of that crop's row, in that order. *)
Theorem localFertilizerCalc_rows (d : FertilizerData) :
  "constructor" <> "rice" /\ "constructor" <> "wheat" /\ "constructor" <> "corn"
  /\ fertilizers (localFertilizerCalc (constructor_request d)) = [None; None; None]
  /\ (inherited (f_crop d) = true ->
      f_crop d <> "rice" /\ f_crop d <> "wheat" /\ f_crop d <> "corn"
      /\ fertilizers (localFertilizerCalc d) = [None; None; None])
  /\ (inherited (f_crop d) = false ->
      f_crop d <> "rice" -> f_crop d <> "wheat" -> f_crop d <> "corn" ->
      fertilizers (localFertilizerCalc d)
      = [Some (n rice_row); Some (p rice_row); Some (k rice_row)])
  /\ (forall row, db !! f_crop d = Some row ->
      fertilizers (localFertilizerCalc d) = [Some (n row); Some (p row); Some (k row)])
  /\ (f_crop d = "rice" ->
      fertilizers (localFertilizerCalc d)
      = [Some (n rice_row); Some (p rice_row); Some (k rice_row)])
  /\ (f_crop d = "wheat" ->
      fertilizers (localFertilizerCalc d)
      = [Some (n wheat_row); Some (p wheat_row); Some (k wheat_row)])
  /\ (f_crop d = "corn" ->
      fertilizers (localFertilizerCalc d)
      = [Some (n corn_row); Some (p corn_row); Some (k corn_row)])
  /\ dom db = {[ "rice"; "wheat"; "corn" ]}.
Proof.
  unfold localFertilizerCalc. cbn [fertilizers].
  split; [done |]. split; [done |]. split; [done |].
  split; [reflexivity |].
  split.
  { intros Hin. rewrite (recommended_inherited _ Hin).
    pose proof (inherited_not_a_row _ Hin) as Hkey.
    repeat split; try done; intros Heq; rewrite Heq in Hkey; discriminate Hkey. }
  split.
  { intros Hin Hr Hw Hc. unfold recommended.
    by rewrite db_unknown_crop, Hin. }
  split; [intros row Hrow; unfold recommended; by rewrite Hrow |].
  split; [by intros -> |].
  split; [by intros -> |].
  split; [by intros -> |].
  unfold db. cbn [list_to_map foldr uncurry].
  rewrite !dom_insert_L, dom_empty_L. set_solver.
Qed.

(** The crop ["constructor"] gets three [undefined] entries, soybean the
    rice row, and wheat its own row. *)
Lemma localFertilizerCalc_rows_witness :
  fertilizers (localFertilizerCalc
                 {| f_crop := "constructor"; f_soil := "loamy"; f_area := 2;
                    f_stage := "vegetative" |})
    = [None; None; None]
  /\ fertilizers (localFertilizerCalc
                    {| f_crop := "soybean"; f_soil := "loamy"; f_area := 2;
                       f_stage := "vegetative" |})
     = [Some (n rice_row); Some (p rice_row); Some (k rice_row)]
  /\ fertilizers (localFertilizerCalc
                    {| f_crop := "wheat"; f_soil := "loamy"; f_area := 2;
                       f_stage := "vegetative" |})
     = [Some (n wheat_row); Some (p wheat_row); Some (k wheat_row)].
Proof.
  pose proof (localFertilizerCalc_rows
                {| f_crop := "constructor"; f_soil := "loamy"; f_area := 2;
                   f_stage := "vegetative" |}) as (_ & _ & _ & _ & Hslip & _).
  pose proof (localFertilizerCalc_rows
                {| f_crop := "soybean"; f_soil := "loamy"; f_area := 2;
                   f_stage := "vegetative" |}) as (_ & _ & _ & _ & _ & Hother & _).
  pose proof (localFertilizerCalc_rows
                {| f_crop := "wheat"; f_soil := "loamy"; f_area := 2;
                   f_stage := "vegetative" |}) as (_ & _ & _ & _ & _ & _ & _ & _ & Hwheat & _).
  destruct Hslip as (_ & _ & _ & Hslip); [reflexivity |].
  split; [exact Hslip |].
  split; [apply Hother; [reflexivity | discriminate ..] | apply Hwheat; reflexivity].
Defined.

(** *** Weather *)

Lemma localWeather_current loc draws pos :
  let idx := Qfloor (draws pos * inject_Z 3) in
  w_icon (localWeather loc draws pos).1 = at_index icons idx
  /\ description (localWeather loc draws pos).1 = at_index descs idx
  /\ advisory (localWeather loc draws pos).1 = advisory_text loc idx.
Proof. cbn. done. Qed.

Lemma localWeather_forecast_icons loc draws pos :
  fd_icon <$> forecast (localWeather loc draws pos).1
  = (fun i => at_index icons (Qfloor (draws (S pos + 3 * i)%nat * inject_Z 6)))
      <$> [0; 1; 2; 3; 4]%nat.
Proof. cbn. repeat f_equal; lia. Qed.

(** C10. For every stream of draws in [0, 1) and every location, the index
    of the current conditions is 0, 1 or 2: the current icon is one of the
    first three icons, the current description is "Sunny", "Partly Cloudy"
    or "Mostly Cloudy", and the advisory is the text of the favourable
    branch; the delay-operations text is never produced.  The icons of the
    five forecast days are drawn from all six, and a rain icon does appear
    there for a suitable stream. *)
Theorem localWeather_current_is_fair (draws : nat -> Q) (pos : nat) (loc : string) :
  unit_interval draws ->
  (exists idx : Z,
      0 <= idx < 3
      /\ w_icon (localWeather loc draws pos).1 = at_index icons idx
      /\ description (localWeather loc draws pos).1 = at_index descs idx)
  /\ description (localWeather loc draws pos).1
       ∈ [Some "Sunny"; Some "Partly Cloudy"; Some "Mostly Cloudy"]
  /\ w_icon (localWeather loc draws pos).1 ∈ [Some "☀️"; Some "🌤️"; Some "⛅"]
  /\ advisory (localWeather loc draws pos).1
     = "Weather in " +:+ loc +:+ ": "
       +:+ show (description (localWeather loc draws pos).1)
       +:+ ". Favorable for field operations and spraying."
       +:+ " Monitor updates before planning irrigation."
  /\ (unit_interval rainy_draws
      /\ fd_icon <$> forecast (localWeather loc rainy_draws pos).1
         = [Some "🌧️"; Some "🌧️"; Some "🌧️"; Some "🌧️"; Some "🌧️"]).
Proof.
  intros Hd.
  destruct (localWeather_current loc draws pos) as (Hicon & Hdesc & Hadv).
  cbn zeta in *. rewrite Hicon, Hdesc, Hadv. clear Hicon Hdesc Hadv.
  destruct (Hd pos) as [H0 H1].
  pose proof (floor_scaled_range (draws pos) 3 H0 H1 ltac:(lia)) as Hidx.
  remember (Qfloor (draws pos * inject_Z 3)) as idx eqn:Eidx. clear Eidx.
  split; [by exists idx |].
  assert (Hcases : idx = 0 \/ idx = 1 \/ idx = 2) by lia.
  clear Hidx H0 H1.
  split; [|split; [|split]].
  - destruct Hcases as [-> | [-> | ->]]; cbn; set_solver.
  - destruct Hcases as [-> | [-> | ->]]; cbn; set_solver.
  - unfold advisory_text. destruct Hcases as [-> | [-> | ->]]; reflexivity.
  - split; [intros i; split; [discriminate | reflexivity] |].
    rewrite localWeather_forecast_icons. reflexivity.
Qed.

(** A stream that is constantly one half. *)
Lemma half_draws_unit_interval : unit_interval (fun _ => (1 # 2)%Q).
Proof. intros i. split; [discriminate | reflexivity]. Defined.

Lemma localWeather_current_is_fair_witness :
  description (localWeather "Pune" (fun _ => (1 # 2)%Q) 0%nat).1
    ∈ [Some "Sunny"; Some "Partly Cloudy"; Some "Mostly Cloudy"]
  /\ advisory (localWeather "Pune" (fun _ => (1 # 2)%Q) 0%nat).1
     = "Weather in Pune: Partly Cloudy. Favorable for field operations and spraying. Monitor updates before planning irrigation.".
Proof.
  destruct (localWeather_current_is_fair (fun _ => (1 # 2)%Q) 0%nat "Pune"
              half_draws_unit_interval) as (_ & Hdesc & _ & Hadv & _).
  split; [exact Hdesc | exact Hadv].
Defined.

(** ** Admin panel: joint history lookup *)







(** ** Offline directory *)

Section FindIndex.

Context {A : Type} (pred : A -> bool).

Lemma findIndex_lower (arr : list A) : -1 <= Directory.findIndex pred arr.
Proof.
  induction arr as [|x rest IH]; cbn; [lia |].
  destruct (pred x); [lia |].
  destruct (Z.ltb_spec (Directory.findIndex pred rest) 0); lia.
Qed.

(** -1 means that no element satisfies the predicate. *)
Lemma findIndex_absent (arr : list A) :
  Directory.findIndex pred arr < 0 -> Forall (fun x => pred x = false) arr.
Proof.
  induction arr as [|x rest IH]; cbn; [constructor |].
  destruct (pred x) eqn:Hx; [lia |].
  destruct (Z.ltb_spec (Directory.findIndex pred rest) 0); [|lia].
  intros _. constructor; [done | by apply IH].
Qed.

(** Otherwise the result is a position whose element satisfies it. *)
Lemma findIndex_found (arr : list A) :
  0 <= Directory.findIndex pred arr ->
  exists x, arr !! Z.to_nat (Directory.findIndex pred arr) = Some x /\ pred x = true.
Proof.
  induction arr as [|x rest IH]; cbn; [lia |].
  destruct (pred x) eqn:Hx; [intros _; by exists x |].
  destruct (Z.ltb_spec (Directory.findIndex pred rest) 0); [lia |].
  intros _. destruct IH as (y & Hy & Hpy); [lia |].
  exists y. split; [|done].
  replace (Z.to_nat (Directory.findIndex pred rest + 1))
    with (S (Z.to_nat (Directory.findIndex pred rest))) by lia.
  done.
Qed.

End FindIndex.

Lemma same_contact_spec (e u : Directory.UserData) :
  String.eqb (Directory.email_phone u) (Directory.email_phone e) = true
  <-> Directory.email_phone u = Directory.email_phone e.
Proof. apply String.eqb_eq. Qed.

Lemma cacheUser_found users e :
  0 <= Directory.findIndex
         (fun u => String.eqb (Directory.email_phone u) (Directory.email_phone e)) users ->
  exists i u,
    users !! i = Some u
    /\ Directory.email_phone u = Directory.email_phone e
    /\ Directory.cacheUser users e = <[i := e]> users.
Proof.
  intros Hidx. destruct (findIndex_found _ users Hidx) as (u & Hu & Hsame).
  apply same_contact_spec in Hsame.
  eexists _, u. split; [exact Hu |]. split; [done |].
  unfold Directory.cacheUser. cbn zeta.
  by destruct (Z.leb_spec 0 (Directory.findIndex
     (fun u => String.eqb (Directory.email_phone u) (Directory.email_phone e)) users));
    [|lia].
Qed.

Lemma cacheUser_absent users e :
  Directory.findIndex
    (fun u => String.eqb (Directory.email_phone u) (Directory.email_phone e)) users < 0 ->
  Forall (fun u => Directory.email_phone u <> Directory.email_phone e) users
  /\ Directory.cacheUser users e = users ++ [e].
Proof.
  intros Hidx. split.
  - eapply Forall_impl; [by apply findIndex_absent |].
    intros u Hu Heq. apply same_contact_spec in Heq. cbn in Hu. congruence.
  - unfold Directory.cacheUser. cbn zeta.
    by destruct (Z.leb_spec 0 (Directory.findIndex
       (fun u => String.eqb (Directory.email_phone u) (Directory.email_phone e)) users));
      [lia |].
Qed.

Lemma cacheUser_cases users e :
  (exists i u,
      users !! i = Some u
      /\ Directory.email_phone u = Directory.email_phone e
      /\ Directory.cacheUser users e = <[i := e]> users)
  \/ (Forall (fun u => Directory.email_phone u <> Directory.email_phone e) users
      /\ Directory.cacheUser users e = users ++ [e]).
Proof.
  destruct (Z.le_gt_cases 0
              (Directory.findIndex
                 (fun u => String.eqb (Directory.email_phone u) (Directory.email_phone e))
                 users)).
  - left. by apply cacheUser_found.
  - right. by apply cacheUser_absent.
Qed.

Lemma storeUserLocally_cacheUser users e :
  Directory.storeUserLocally users e = Directory.cacheUser users e.
Proof. reflexivity. Qed.

(** The entry is in the directory after the operation. *)
Lemma cacheUser_stores users e : e ∈ Directory.cacheUser users e.
Proof.
  destruct (cacheUser_cases users e) as [(i & u & Hu & _ & ->)|[_ ->]].
  - apply list_elem_of_lookup. exists i.
    apply list_lookup_insert_eq. by eapply lookup_lt_Some.
  - set_solver.
Qed.

Lemma cacheUser_exactly_one users e :
  at_most_once (Directory.email_phone e) users ->
  exactly_one_position e (Directory.cacheUser users e).
Proof.
  intros Honce.
  destruct (cacheUser_cases users e) as [(i & u & Hu & Hsame & ->)|[Hnone ->]].
  - exists i. split; [apply list_lookup_insert_eq; by eapply lookup_lt_Some |].
    intros j (v & Hv & Hc). destruct (decide (j = i)) as [|Hne]; [done |].
    rewrite list_lookup_insert_ne in Hv by done.
    apply Honce; [by exists v | by exists u].
  - exists (length users). split; [by rewrite lookup_app_r, Nat.sub_diag |].
    intros j (v & Hv & Hc).
    destruct (decide (j < length users)%nat) as [Hlt|Hge].
    + rewrite lookup_app_l in Hv by done.
      rewrite Forall_forall in Hnone. exfalso. eapply Hnone; [|done].
      by eapply list_elem_of_lookup_2.
    + apply lookup_lt_Some in Hv. rewrite length_app in Hv. cbn in Hv. lia.
Qed.

Lemma cacheUser_NoDup users e :
  NoDup (Directory.email_phone <$> users) ->
  NoDup (Directory.email_phone <$> Directory.cacheUser users e).
Proof.
  intros Hnd.
  destruct (cacheUser_cases users e) as [(i & u & Hu & Hsame & ->)|[Hnone ->]].
  - rewrite list_fmap_insert, list_insert_id; [done |].
    by rewrite list_lookup_fmap, Hu, <- Hsame.
  - rewrite fmap_app. apply NoDup_app. split; [done |].
    split; [|apply NoDup_singleton].
    intros c Hc Hin. apply list_elem_of_singleton in Hin as ->.
    apply list_elem_of_fmap in Hc as (u & Hcu & Hu).
    rewrite Forall_forall in Hnone. by eapply Hnone.
Qed.

(** Unique contacts give at most one position per contact. *)
Lemma NoDup_at_most_once users c :
  NoDup (Directory.email_phone <$> users) -> at_most_once c users.
Proof.
  intros Hnd i j (u & Hu & Hcu) (v & Hv & Hcv).
  apply (NoDup_lookup _ i j c Hnd); rewrite list_lookup_fmap.
  - by rewrite Hu; cbn; rewrite Hcu.
  - by rewrite Hv; cbn; rewrite Hcv.
Qed.

(** A directory grown from the empty one by [cacheUser] has unique
    contacts. *)
Lemma grown_directory_NoDup (entries : list Directory.UserData) :
  NoDup (Directory.email_phone <$> foldl Directory.cacheUser [] entries).
Proof.
  assert (Hgen : forall users,
             NoDup (Directory.email_phone <$> users) ->
             NoDup (Directory.email_phone <$> foldl Directory.cacheUser users entries)).
  { induction entries as [|e entries IH]; intros users Hnd; [done |].
    cbn. apply IH. by apply cacheUser_NoDup. }
  apply Hgen. constructor.
Qed.

(** C9 as stated fails on a directory that already holds the contact twice:
    only the first holder is replaced, the second keeps the contact and its
    old data. *)
Lemma cacheUser_duplicate_contact :
  Directory.cacheUser duplicated_directory ravi_new
    = [ravi_new; account "Ravi" "ravi@example.org" "second"]
  /\ holds_contact (Directory.cacheUser duplicated_directory ravi_new) 0
       (Directory.email_phone ravi_new)
  /\ holds_contact (Directory.cacheUser duplicated_directory ravi_new) 1
       (Directory.email_phone ravi_new)
  /\ ~ exactly_one_position ravi_new (Directory.cacheUser duplicated_directory ravi_new).
Proof.
  split; [reflexivity |].
  assert (H0 : holds_contact (Directory.cacheUser duplicated_directory ravi_new) 0
                 (Directory.email_phone ravi_new)) by (eexists; split; reflexivity).
  assert (H1 : holds_contact (Directory.cacheUser duplicated_directory ravi_new) 1
                 (Directory.email_phone ravi_new)) by (eexists; split; reflexivity).
  split; [exact H0 |]. split; [exact H1 |].
  intros (i & _ & Honly).
  pose proof (Honly 0%nat H0). pose proof (Honly 1%nat H1). lia.
Qed.

(** C9, amended.  For every directory in which the entry's contact occurs at
    one position at most, after [cacheUser] (and after [storeUserLocally],
    which is the same function) exactly one position of the directory holds
    the entry's [email_phone], and it carries the newly written entry; for
    every directory in which contacts are unique, contacts are unique after
    the operation and exactly one position holds the entry. *)
Theorem cacheUser_upserts_by_contact (users : list Directory.UserData)
    (e : Directory.UserData) :
  (at_most_once (Directory.email_phone e) users ->
   exactly_one_position e (Directory.cacheUser users e)
   /\ exactly_one_position e (Directory.storeUserLocally users e))
  /\ (NoDup (Directory.email_phone <$> users) ->
      NoDup (Directory.email_phone <$> Directory.cacheUser users e)
      /\ NoDup (Directory.email_phone <$> Directory.storeUserLocally users e)
      /\ exactly_one_position e (Directory.cacheUser users e)).
Proof.
  change (Directory.storeUserLocally users e) with (Directory.cacheUser users e).
  split.
  - intros Honce. split; by apply cacheUser_exactly_one.
  - intros Hnd. split; [by apply cacheUser_NoDup |]. split; [by apply cacheUser_NoDup |].
    apply cacheUser_exactly_one. by apply NoDup_at_most_once.
Qed.

(** Ravi logs in again with a new password: his one entry is replaced. *)
Lemma cacheUser_upserts_by_contact_witness :
  NoDup (Directory.email_phone <$> Directory.cacheUser unique_directory ravi_new)
  /\ exactly_one_position ravi_new (Directory.cacheUser unique_directory ravi_new).
Proof.
  destruct (cacheUser_upserts_by_contact unique_directory ravi_new) as [_ Hunique].
  destruct Hunique as (Hnd & _ & Hone).
  - refine (bool_decide_unpack _ _). vm_compute. exact I.
  - split; [exact Hnd | exact Hone].
Defined.

(** * Further properties of the code *)

(** ** Response cache: overwriting and expiry *)

(** X1. A second [setCache] under the same key replaces the value and
    restarts the time to live: the entry is served exactly while less than
    [CACHE_TTL] has passed since the last write.  An expired entry is not
    removed by [getCached] or by writes under other keys: the keys of the
    cache only grow. *)
Theorem cache_last_write_wins (P : Type) (c : gmap string (Cache.entry P))
    (key other : string) (v1 v2 : P) (t1 t2 now : Z) :
  Cache.getCached (Cache.setCache (Cache.setCache c t1 key v1) t2 key v2) now key
    = (if now - t2 <? Cache.CACHE_TTL then Some v2 else None)
  /\ dom (Cache.setCache c t1 key v1) = {[ key ]} ∪ dom c
  /\ (is_Some (c !! other) -> is_Some (Cache.setCache c t1 key v1 !! other))
  /\ (Cache.CACHE_TTL <= now - t1 ->
      Cache.getCached (Cache.setCache c t1 key v1) now key = None
      /\ is_Some (Cache.setCache c t1 key v1 !! key)).
Proof.
  split.
  { unfold Cache.getCached, Cache.setCache. by rewrite lookup_insert_eq. }
  split; [unfold Cache.setCache; by rewrite dom_insert_L |].
  split.
  { intros Hsome. unfold Cache.setCache.
    destruct (decide (key = other)) as [->|Hne];
      [rewrite lookup_insert_eq | rewrite lookup_insert_ne]; done. }
  intros Hold. split; [by apply getCached_setCache_expired |].
  unfold Cache.setCache. by rewrite lookup_insert_eq.
Qed.

Lemma cache_last_write_wins_witness :
  Cache.getCached (Cache.setCache ∅ 1000 "weather_pune" (VStr "sunny")) 400000 "weather_pune"
    = None
  /\ is_Some (Cache.setCache ∅ 1000 "weather_pune" (VStr "sunny") !! "weather_pune").
Proof.
  pose proof (cache_last_write_wins value ∅ "weather_pune" "weather_pune"
                (VStr "sunny") (VStr "sunny") 1000 1000 400000) as (_ & _ & _ & Hold).
  apply Hold. unfold Cache.CACHE_TTL. lia.
Defined.

(** ** Controllers: repeats of a request *)

Lemma controller_shape h a key :
  cache_key h a = Some key ->
  (forall loc, a = WeatherQuery loc -> loc <> "") ->
  controller h a
  = cached_or_fetch h key (gateway_call h a).1 (gateway_call h a).2
      (display (panel_of a) (renders_of a) (writes_of a)) (fallback_of h a).
Proof.
  intros Hkey Hloc. destruct a as [file|f|f|f|loc]; cbn in Hkey; try done;
    injection Hkey as <-; try reflexivity.
  cbn [controller]. rewrite getWeather_shape.
  destruct (String.eqb_spec loc "") as [->|_]; [by destruct (Hloc "") | reflexivity].
Qed.

Lemma reaches_gateway_miss h a w key :
  cache_key h a = Some key -> reaches_gateway h a w = true ->
  cache_hit (Cache.getCached (API_CACHE w) (clock h (ticks w)) key) = None
  /\ (forall loc, a = WeatherQuery loc -> loc <> "").
Proof.
  intros Hkey Hreach.
  destruct a as [file|f|f|f|loc]; cbn in Hkey; try done; injection Hkey as <-;
    cbn [reaches_gateway cache_key] in Hreach;
    try (apply bool_decide_eq_true in Hreach; by split).
  apply andb_true_iff in Hreach as [Hloc Hmiss]. apply bool_decide_eq_true in Hmiss.
  split; [done |]. intros loc' [= <-] ->. done.
Qed.

Lemma cached_or_fetch_answered h key u o panel renders writes fallback w v :
  cache_hit (Cache.getCached (API_CACHE w) (clock h (ticks w)) key) = None ->
  (apiFetch h u o w).2 = inr v ->
  renders (Remote v) = true ->
  cached_or_fetch h key u o (display panel renders writes) fallback w
  = (answered_state h w key u o panel v, inr tt).
Proof.
  intros Hmiss Hres Hrender. rewrite cached_or_fetch_unfold. cbn zeta.
  rewrite Hmiss, Hres. rewrite display_ok by done.
  destruct (looked_up_frame key w) as (_ & _ & _ & Hscreen & _).
  unfold answered_state. cbn. by rewrite Hscreen.
Qed.

Lemma cached_or_fetch_hit h key u o show fallback w c :
  cache_hit (Cache.getCached (API_CACHE w) (clock h (ticks w)) key) = Some c ->
  cached_or_fetch h key u o show fallback w = show c (looked_up key w).
Proof. intros Hhit. rewrite cached_or_fetch_unfold. cbn zeta. by rewrite Hhit. Qed.

(** A lookup that finds an entry has read the clock. *)
Lemma looked_up_bound key w e :
  API_CACHE w !! key = Some e -> looked_up key w = with_ticks (S (ticks w)) w.
Proof. intros Hkey. unfold looked_up. by rewrite Hkey. Qed.

Lemma display_fetch_log panel renders writes d w :
  fetch_log (display panel renders writes d w).1 = fetch_log w.
Proof. unfold display. destruct (renders d); [done |]. by destruct (writes d). Qed.

Lemma fallback_of_fetch_log h a w :
  fetch_log (fallback_of h a w).1 = fetch_log w.
Proof.
  destruct a; cbn [fallback_of]; try apply display_fetch_log;
    unfold bind; rewrite sample_unfold; by rewrite display_fetch_log.
Qed.

(** A controller that misses the cache hands exactly one request to
    [fetch], whatever the answer and whatever the rendering does. *)
Lemma cached_or_fetch_miss_log h key u o panel renders writes a w :
  cache_hit (Cache.getCached (API_CACHE w) (clock h (ticks w)) key) = None ->
  fetch_log (cached_or_fetch h key u o (display panel renders writes) (fallback_of h a) w).1
  = fetch_log w ++ [request_sent w u o].
Proof.
  intros Hmiss. rewrite cached_or_fetch_unfold. cbn zeta. rewrite Hmiss.
  destruct ((apiFetch h u o w).2) as [e|v]; [by rewrite fallback_of_fetch_log |].
  match goal with |- context [display panel renders writes ?d ?w3] =>
    pose proof (display_fetch_log panel renders writes d w3) as Hd;
    destruct (display panel renders writes d w3) as [w4 [e|[]]]
  end; cbn [fst] in *; [by rewrite fallback_of_fetch_log | done].
Qed.

(** X2. A request whose answer was rendered and is truthy is repeated.
    The entry carries the reading of the clock that [setCache] took: the
    first reading of the request when its key was unbound (the lookup then
    reads no clock), the second when the key was bound to an entry that no
    longer counted.  The lookup of the repeat finds the key bound and takes
    the next reading.  While less than [CACHE_TTL] lies between the two
    readings, the repeat renders the cached payload and hands nothing to
    [fetch]; once [CACHE_TTL] or more has passed, the repeat hands exactly
    one new request to [fetch]. *)
Theorem repeat_served_from_cache (h : Host) (a : Advisory) (w : World)
    (key : string) (v : value) :
  cache_key h a = Some key ->
  reaches_gateway h a w = true ->
  gateway_result h a w = inr v ->
  truthy v = true ->
  renders_of a (Remote v) = true ->
  let written := clock h (ticks (looked_up key w)) in
  let read := clock h (S (ticks (looked_up key w))) in
  API_CACHE (controller h a w).1 !! key = Some (Cache.Entry (Remote v) written)
  /\ (read - written < Cache.CACHE_TTL ->
      (controller h a (controller h a w).1).2 = inr tt
      /\ fetch_log (controller h a (controller h a w).1).1 = fetch_log (controller h a w).1
      /\ screen (controller h a (controller h a w).1).1
         = screen (controller h a w).1 ++ [(panel_of a, Remote v)])
  /\ (Cache.CACHE_TTL <= read - written ->
      length (fetch_log (controller h a (controller h a w).1).1)
      = S (length (fetch_log (controller h a w).1))).
Proof.
  intros Hkey Hreach Hres Htruthy Hrender written read. unfold gateway_result in Hres.
  destruct (reaches_gateway_miss h a w key Hkey Hreach) as [Hmiss Hloc].
  rewrite (controller_shape h a key Hkey Hloc).
  rewrite (cached_or_fetch_answered _ _ _ _ _ _ _ _ _ v Hmiss Hres Hrender).
  cbn [fst].
  set (w1 := answered_state h w key (gateway_call h a).1 (gateway_call h a).2 (panel_of a) v).
  assert (Hentry : API_CACHE w1 !! key = Some (Cache.Entry (Remote v) written)).
  { unfold w1, answered_state. cbn. unfold Cache.setCache. by rewrite lookup_insert_eq. }
  assert (Hticks : clock h (ticks w1) = read).
  { unfold w1, answered_state. by cbn. }
  assert (Hcache : Cache.getCached (API_CACHE w1) (clock h (ticks w1)) key
                   = if read - written <? Cache.CACHE_TTL then Some (Remote v) else None).
  { unfold Cache.getCached. by rewrite Hentry, Hticks. }
  split; [exact Hentry |]. split.
  - intros Hfresh.
    destruct (Z.ltb_spec (read - written) Cache.CACHE_TTL); [|lia].
    rewrite (cached_or_fetch_hit _ _ _ _ _ _ _ (Remote v))
      by (rewrite Hcache; cbn; by rewrite Htruthy).
    rewrite display_ok by done.
    destruct (looked_up_frame key w1) as (_ & _ & Hlog & Hscreen & _).
    clearbody w1. cbn -[looked_up]. by rewrite Hlog, Hscreen.
  - intros Hold.
    destruct (Z.ltb_spec (read - written) Cache.CACHE_TTL); [lia |].
    rewrite cached_or_fetch_miss_log by (by rewrite Hcache).
    by rewrite length_app, Nat.add_1_r.
Qed.

(** The irrigation plan of the backend is rendered and then served from the
    cache one second later; ten minutes later it is fetched again. *)
Lemma repeat_served_from_cache_witness :
  length (fetch_log (controller host_serving (Irrigation rice_clay_form)
                       (controller host_serving (Irrigation rice_clay_form) empty_world).1).1)
    = 1%nat
  /\ length (fetch_log (controller host_serving_slowly (Irrigation rice_clay_form)
                          (controller host_serving_slowly (Irrigation rice_clay_form)
                             empty_world).1).1)
    = 2%nat.
Proof.
  destruct (repeat_served_from_cache host_serving (Irrigation rice_clay_form) empty_world
              "irr_{}" irrigation_plan) as (_ & Hfresh & _);
    [reflexivity | reflexivity | reflexivity | reflexivity | reflexivity |].
  destruct (repeat_served_from_cache host_serving_slowly (Irrigation rice_clay_form)
              empty_world "irr_{}" irrigation_plan) as (_ & _ & Hold);
    [reflexivity | reflexivity | reflexivity | reflexivity | reflexivity |].
  split.
  - destruct Hfresh as (_ & Hlog & _); [reflexivity |]. rewrite Hlog. reflexivity.
  - rewrite Hold; [reflexivity | vm_compute; discriminate].
Defined.

(** ** Controllers: what reaches the cache *)

Lemma fallback_of_cache h a w :
  API_CACHE (fallback_of h a w).1 = API_CACHE w.
Proof.
  destruct a; cbn [fallback_of]; try apply display_cache;
    apply sample_then_display_cache.
Qed.

(** The cache after any controller: untouched, or the old cache with the
    payload of the answered request under the request's key. *)
Lemma controller_cache_cases h a w :
  API_CACHE (controller h a w).1 = API_CACHE w
  \/ exists key v t,
      cache_key h a = Some key
      /\ gateway_result h a w = inr v
      /\ API_CACHE (controller h a w).1 = Cache.setCache (API_CACHE w) t key (Remote v).
Proof.
  assert (Hcached : forall key,
             cache_key h a = Some key ->
             (forall loc, a = WeatherQuery loc -> loc <> "") ->
             API_CACHE (controller h a w).1 = API_CACHE w
             \/ exists key v t,
                 cache_key h a = Some key
                 /\ gateway_result h a w = inr v
                 /\ API_CACHE (controller h a w).1
                    = Cache.setCache (API_CACHE w) t key (Remote v)).
  { intros key Hkey Hloc. rewrite (controller_shape h a key Hkey Hloc).
    edestruct cached_or_fetch_cache as [Hsame|(v & Hv & Hnew)];
      [| | left; exact Hsame | right; do 3 eexists; eauto];
      intros; [apply display_cache | apply fallback_of_cache]. }
  destruct a as [file|f|f|f|loc]; try (by eapply Hcached).
  - left. cbn [controller].
    unfold analyzeDisease, try_catch, bind at 1, displayDiseaseResult.
    rewrite (surjective_pairing (apiFetch h _ _ w)), apiFetch_state.
    destruct ((apiFetch h _ _ w).2) as [e|v].
    + by rewrite sample_then_display_cache.
    + match goal with |- context [display ?p ?r ?wr ?d ?w0] =>
        pose proof (display_cache p r wr d w0) as Hd;
        destruct (display p r wr d w0) as [w1 [e|[]]]
      end; cbn [fst] in *; [by rewrite sample_then_display_cache | done].
  - destruct (String.eqb_spec loc "") as [->|Hne]; [by left |].
    eapply Hcached; [done |]. by intros loc' [= <-].
Qed.

Lemma only_remote_setCache c t key v :
  only_remote c -> only_remote (Cache.setCache c t key (Remote v)).
Proof.
  intros Hc key' e. unfold Cache.setCache.
  destruct (decide (key = key')) as [->|Hne].
  - rewrite lookup_insert_eq. intros [= <-]. by exists v.
  - rewrite lookup_insert_ne by done. apply Hc.
Qed.

Lemma controller_only_remote h a w :
  only_remote (API_CACHE w) -> only_remote (API_CACHE (controller h a w).1).
Proof.
  intros Hw. destruct (controller_cache_cases h a w) as [->|(key & v & t & _ & _ & ->)];
    [done | by apply only_remote_setCache].
Qed.

(** X3. Whatever requests are made, in whatever order, and whatever the
    network answers, a cache that holds only backend payloads still holds
    only backend payloads afterwards: no estimate of a local fallback is
    ever served from the cache.  In particular this holds for every state
    reached from a freshly loaded page. *)
Theorem cache_never_holds_estimates (h : Host) (requests : list Advisory) (w : World) :
  only_remote (API_CACHE w) ->
  only_remote (API_CACHE (run_all h requests w))
  /\ forall (key : string) (now : Z) (d : Payload),
      Cache.getCached (API_CACHE (run_all h requests w)) now key = Some d ->
      exists v, d = Remote v.
Proof.
  intros Hw.
  assert (Hall : only_remote (API_CACHE (run_all h requests w))).
  { unfold run_all. revert w Hw.
    induction requests as [|a requests IH]; intros w Hw; [done |].
    cbn [foldl]. apply IH. by apply controller_only_remote. }
  split; [exact Hall |].
  intros key now d. unfold Cache.getCached.
  destruct (API_CACHE (run_all h requests w) !! key) as [e|] eqn:He; [|done].
  destruct (Hall key e He) as [v Hv].
  destruct (now - Cache.timestamp e <? Cache.CACHE_TTL); [|done].
  intros [= <-]. by exists v.
Qed.

Lemma empty_cache_only_remote : only_remote (∅ : gmap string (Cache.entry Payload)).
Proof. intros key e Hk. by rewrite lookup_empty in Hk. Defined.

(** A failed irrigation request followed by a failed yield request leaves
    the cache of a fresh page without estimates. *)
Lemma cache_never_holds_estimates_witness :
  only_remote
    (API_CACHE (run_all host_unavailable [Irrigation rice_clay_form; Yield wheat_form]
                  empty_world)).
Proof.
  apply (cache_never_holds_estimates host_unavailable
           [Irrigation rice_clay_form; Yield wheat_form] empty_world).
  exact empty_cache_only_remote.
Defined.





(** ** Fallback estimators: ranges and edge inputs *)

(** X5. A moisture field that is blank, unparsable or 0 is replaced by 40
    before the request is built, so the irrigation fallback for such a form
    reports the level 40, the status "Adequate", the schedule "24h" and the
    text for acceptable moisture: a reading of 0 is never reported as
    critical. *)
Theorem blank_moisture_reads_as_forty (f : IrrigationForm) :
  (irr_moisture f = None \/ exists q, irr_moisture f = Some q /\ (q == 0)%Q) ->
  (i_moisture (irrigation_data f) == 40)%Q
  /\ moisture_status (localIrrigationCalc (irrigation_data f)) = "Adequate"
  /\ schedule (localIrrigationCalc (irrigation_data f)) = "24h"
  /\ recommendation (localIrrigationCalc (irrigation_data f))
     = "For " +:+ irr_crop f +:+ " in " +:+ irr_soil f +:+ " soil at " +:+ irr_stage f
       +:+ " stage: ✅ Moisture levels acceptable."
       +:+ " Apply water early morning or late evening. Consider drip irrigation for 40% water savings.".
Proof.
  intros Hblank.
  assert (Hm : i_moisture (irrigation_data f) = 40%Q).
  { cbn. unfold or_number. destruct Hblank as [->|(q & -> & Hq)]; [done |].
    cbn. unfold Qeq in Hq. cbn in Hq.
    destruct (Z.eqb_spec (Qnum q) 0) as [_|Hne]; [done | lia]. }
  cbn [localIrrigationCalc moisture_status schedule recommendation].
  rewrite Hm. done.
Qed.

Lemma blank_moisture_reads_as_forty_witness :
  moisture_status
    (localIrrigationCalc
       (irrigation_data {| irr_crop := "rice"; irr_soil := "clay";
                           irr_moisture := Some 0%Q; irr_stage := "vegetative" |}))
    = "Adequate".
Proof.
  apply (blank_moisture_reads_as_forty
           {| irr_crop := "rice"; irr_soil := "clay"; irr_moisture := Some 0%Q;
              irr_stage := "vegetative" |}).
  right. exists 0%Q. split; reflexivity.
Defined.

Lemma entry_or_bounds (pairs : list (string * Q)) (key : string) (dflt lo hi : Q) :
  Forall (fun kv => (lo <= kv.2 /\ kv.2 <= hi)%Q) pairs ->
  (lo <= dflt /\ dflt <= hi)%Q ->
  (lo <= entry_or (list_to_map pairs) key dflt
   /\ entry_or (list_to_map pairs) key dflt <= hi)%Q.
Proof.
  intros Hall Hd. destruct (entry_or_cases pairs key dflt) as [->|(q & Hin & ->)]; [done |].
  rewrite Forall_forall in Hall. exact (Hall (key, q) Hin).
Qed.

Ltac table_bounds :=
  apply entry_or_bounds;
  [repeat constructor; cbn; unfold Qle; cbn; lia
  | split; unfold Qle; cbn; lia].

Lemma base_entries_bounds (d : YieldData) :
  (1.1934 <= base_entries d /\ base_entries d <= 80.85)%Q.
Proof.
  unfold base_entries.
  assert (Hb : (1.8 <= entry_or baseYields (y_crop d) 4.0
                /\ entry_or baseYields (y_crop d) 4.0 <= 70)%Q) by table_bounds.
  assert (Hs : (0.78 <= entry_or soilMult (y_soil d) 1.0
                /\ entry_or soilMult (y_soil d) 1.0 <= 1.1)%Q) by table_bounds.
  assert (Hk : (0.85 <= entry_or seasonMult (y_season d) 1.0
                /\ entry_or seasonMult (y_season d) 1.0 <= 1.05)%Q) by table_bounds.
  destruct Hb, Hs, Hk.
  set (b := entry_or baseYields (y_crop d) 4.0) in *.
  set (s := entry_or soilMult (y_soil d) 1.0) in *.
  set (k := entry_or seasonMult (y_season d) 1.0) in *.
  assert (1.404 <= b * s /\ b * s <= 77)%Q by (split; nra).
  split; nra.
Qed.

(** The two rainfall penalties exclude each other, so the penalties remove
    at most 32% of the base yield. *)
Lemma adjusted_entries_bounds (d : YieldData) :
  (0.68 * base_entries d <= adjusted_entries d /\ adjusted_entries d <= base_entries d)%Q.
Proof.
  pose proof (base_entries_bounds d) as [Hlo _].
  unfold adjusted_entries, rainfall_high, rainfall_low.
  destruct (temperature_penalty d);
    destruct (num_truthy (y_rainfall d)); cbn [andb];
    try (destruct (Qgtb (to_number (y_rainfall d)) 300) eqn:Hhi;
         [apply Qgtb_spec in Hhi | apply Qgtb_false in Hhi]);
    try (destruct (Qltb (to_number (y_rainfall d)) 50) eqn:Hlow;
         [apply Qltb_spec in Hlow | apply Qltb_false in Hlow]);
    split; lra.
Qed.

(** The product of the three reads of the yield tables: the product of the
    entries, or NaN as soon as one field names an inherited member. *)
Lemma base_yield_entries (d : YieldData) :
  base_yield d = if yield_inherits d then NaN else Num (base_entries d).
Proof.
  unfold yield_inherits, base_yield, base_entries.
  destruct (inherited (y_crop d)) eqn:Hc.
  { destruct (tables_own_no_inherited _ Hc) as (Hkey & _).
    by rewrite (lookup_or_NaN _ _ _ Hc Hkey). }
  rewrite (lookup_or_entry _ _ _ Hc).
  destruct (inherited (y_soil d)) eqn:Hs.
  { destruct (tables_own_no_inherited _ Hs) as (_ & Hkey & _).
    by rewrite (lookup_or_NaN _ _ _ Hs Hkey). }
  rewrite (lookup_or_entry _ _ _ Hs).
  destruct (inherited (y_season d)) eqn:Hso.
  { destruct (tables_own_no_inherited _ Hso) as (_ & _ & Hkey & _).
    by rewrite (lookup_or_NaN _ _ _ Hso Hkey). }
  by rewrite (lookup_or_entry _ _ _ Hso).
Qed.

(** The penalties keep NaN and multiply a number. *)
Lemma adjusted_yield_entries (d : YieldData) :
  adjusted_yield d = if yield_inherits d then NaN else Num (adjusted_entries d).
Proof.
  unfold adjusted_yield, adjusted_entries. rewrite base_yield_entries.
  destruct (yield_inherits d);
    by destruct (temperature_penalty d), (rainfall_high d), (rainfall_low d).
Qed.

Lemma nearest_close (digits : nat) (x : Q) :
  (x - 1 / (2 * inject_Z (10 ^ Z.of_nat digits)) < nearest digits x
   /\ nearest digits x <= x + 1 / (2 * inject_Z (10 ^ Z.of_nat digits)))%Q.
Proof.
  unfold nearest.
  assert (Hs : (0 < inject_Z (10 ^ Z.of_nat digits))%Q).
  { assert (0 < 10 ^ Z.of_nat digits) by (apply Z.pow_pos_nonneg; lia).
    unfold Qlt. cbn [Qnum Qden inject_Z]. lia. }
  set (s := inject_Z (10 ^ Z.of_nat digits)) in *.
  pose proof (Qfloor_le (x * s + (1 # 2))) as Hle.
  pose proof (Qlt_floor (x * s + (1 # 2))) as Hlt.
  rewrite inject_Z_plus in Hlt. change (inject_Z 1) with 1%Q in Hlt.
  set (fl := inject_Z (Qfloor (x * s + (1 # 2)))) in *.
  split.
  - apply Qlt_shift_div_l; [done |].
    assert ((x - 1 / (2 * s)) * s == x * s - (1 # 2))%Q as -> by (field; lra).
    lra.
  - apply Qle_shift_div_r; [done |].
    assert ((x + 1 / (2 * s)) * s == x * s + (1 # 2))%Q as -> by (field; lra).
    lra.
Qed.

(** [toFixed] of a number that is not negative rounds its value. *)
Lemma rounded_nonneg (digits : nat) (x : Q) :
  (0 <= x)%Q -> rounded digits x = nearest digits x.
Proof.
  intros Hx. unfold rounded.
  destruct (Qle_bool 0 x) eqn:Hb; [done |].
  apply Qle_bool_iff in Hx. congruence.
Qed.

Lemma localYieldPrediction_unfold d draws pos :
  localYieldPrediction d draws pos =
    ({| yield_per_hectare := toFixed 2 (times (adjusted_yield d) (0.95 + draws pos * 0.1));
        total_yield :=
          toFixed 2 (times (times (adjusted_yield d) (0.95 + draws pos * 0.1)) (y_area d));
        yr_crop := y_crop d;
        yr_area := y_area d;
        yr_confidence := rounded 1 (78 + draws (S pos) * 17);
        yr_model := "DSSAT + Random Forest Regression v2.1" |}, S (S pos)).
Proof. reflexivity. Qed.

(** X6. The base yield [base(crop) * soil * season] computed from the
    entries and defaults of the three tables lies between 1.1934 and 80.85
    tonnes.  For draws in [0, 1) and a request none of whose crop, soil and
    season names a member that the tables inherit, the yield per hectare of
    the fallback is a positive number: up to the rounding to two decimals
    it lies between 64.6% and 105% of that base yield.  When one of the
    three fields names an inherited member ("constructor", "toString",
    ...), the yield per hectare and the total yield are NaN.  In both cases
    the reported confidence lies between 78 and 95 and two draws are
    consumed. *)
Theorem localYieldPrediction_bounds (d : YieldData) (draws : nat -> Q) (pos : nat) :
  unit_interval draws ->
  (1.1934 <= base_entries d /\ base_entries d <= 80.85)%Q
  /\ (yield_inherits d = false ->
      base_yield d = Num (base_entries d)
      /\ exists y : Q,
          yield_per_hectare (localYieldPrediction d draws pos).1 = Num y
          /\ (0.646 * base_entries d - 0.005 < y)%Q
          /\ (y <= 1.05 * base_entries d + 0.005)%Q
          /\ (0 < y)%Q)
  /\ (yield_inherits d = true ->
      yield_per_hectare (localYieldPrediction d draws pos).1 = NaN
      /\ total_yield (localYieldPrediction d draws pos).1 = NaN)
  /\ (78 <= yr_confidence (localYieldPrediction d draws pos).1)%Q
  /\ (yr_confidence (localYieldPrediction d draws pos).1 <= 95)%Q
  /\ (localYieldPrediction d draws pos).2 = S (S pos).
Proof.
  intros Hd. destruct (Hd pos) as [Hr0 Hr1]. destruct (Hd (S pos)) as [Hc0 Hc1].
  pose proof (base_entries_bounds d) as [Hblo Hbhi].
  pose proof (adjusted_entries_bounds d) as [Halo Hahi].
  rewrite localYieldPrediction_unfold.
  cbn [fst snd yield_per_hectare total_yield yr_confidence].
  rewrite adjusted_yield_entries, base_yield_entries.
  set (a := adjusted_entries d) in *. set (b := base_entries d) in *.
  set (r := draws pos) in *. set (c := draws (S pos)) in *.
  assert (Hy : (0.646 * b <= a * (0.95 + r * 0.1)
                /\ a * (0.95 + r * 0.1) <= 1.05 * b)%Q) by (split; nra).
  destruct Hy as [Hy0 Hy1].
  split; [done |]. split; [|split].
  - intros ->. split; [done |].
    exists (rounded 2 (a * (0.95 + r * 0.1))). split; [done |].
    rewrite rounded_nonneg by lra.
    pose proof (nearest_close 2 (a * (0.95 + r * 0.1))) as [Hylo Hyhi].
    change (1 / (2 * inject_Z (10 ^ Z.of_nat 2)))%Q with (1 # 200)%Q in *.
    split; [lra |]. split; lra.
  - by intros ->.
  - rewrite rounded_nonneg by lra.
    split; [|split; [|done]].
    + (* 78 is a multiple of 0.1: rounding cannot go below it *)
      unfold nearest. change (inject_Z (10 ^ Z.of_nat 1)) with 10%Q.
      apply Qle_shift_div_l; [reflexivity |].
      change (78 * 10)%Q with (inject_Z 780). rewrite <- Zle_Qle.
      change 780 with (Qfloor (inject_Z 780)). apply Qfloor_resp_le.
      change (inject_Z 780) with 780%Q. lra.
    + unfold nearest. change (inject_Z (10 ^ Z.of_nat 1)) with 10%Q.
      apply Qle_shift_div_r; [reflexivity |].
      change (95 * 10)%Q with (inject_Z 950). rewrite <- Zle_Qle.
      apply Z.lt_succ_r. rewrite Zlt_Qlt.
      eapply Qle_lt_trans; [apply Qfloor_le |].
      change (inject_Z (Z.succ 950)) with 951%Q. lra.
Qed.

(** The request of a freezing rice field gets a positive yield, and the
    same request for the crop ["constructor"] gets NaN. *)
Lemma localYieldPrediction_bounds_witness :
  (exists y : Q,
      yield_per_hectare (localYieldPrediction freezing_request (fun _ => 1 # 2) 0%nat).1
      = Num y /\ (0 < y)%Q)
  /\ yield_per_hectare
       (localYieldPrediction (constructor_yield freezing_request) (fun _ => 1 # 2) 0%nat).1
     = NaN.
Proof.
  split.
  - destruct (localYieldPrediction_bounds freezing_request (fun _ => (1 # 2)%Q) 0%nat
                half_draws_unit_interval) as (_ & Hown & _).
    destruct Hown as (_ & y & Hy & _ & _ & Hpos); [reflexivity |].
    exists y. by split.
  - destruct (localYieldPrediction_bounds (constructor_yield freezing_request)
                (fun _ => (1 # 2)%Q) 0%nat half_draws_unit_interval) as (_ & _ & Hin & _).
    destruct Hin as [Hy _]; [reflexivity | exact Hy].
Defined.

(** [Math.floor(Math.random() * k)] at the draw number [i]. *)
Lemma localWeather_unfold loc draws pos :
  let below i k := Qfloor (draws (i + pos)%nat * inject_Z k) in
  let fday i name :=
    {| day := name; fd_icon := at_index icons (below (1 + 3 * i)%nat 6);
       high := 25 + below (2 + 3 * i)%nat 10; low := 18 + below (3 + 3 * i)%nat 7 |} in
  localWeather loc draws pos =
    ({| temp := 25 + below 16%nat 10;
        w_icon := at_index icons (below 0%nat 3);
        description := at_index descs (below 0%nat 3);
        location := loc;
        humidity := 55 + below 17%nat 30;
        wind := 8 + below 18%nat 20;
        pressure := 1008 + below 19%nat 15;
        forecast := [fday 0%nat "Mon"; fday 1%nat "Tue"; fday 2%nat "Wed";
                     fday 3%nat "Thu"; fday 4%nat "Fri"];
        advisory := advisory_text loc (below 0%nat 3) |}, (20 + pos)%nat).
Proof. reflexivity. Qed.

Lemma draw_below_range draws i k :
  unit_interval draws -> 0 < k -> 0 <= Qfloor (draws i * inject_Z k) < k.
Proof. intros Hd Hk. destruct (Hd i). by apply floor_scaled_range. Qed.

(** X7. For draws in [0, 1) the weather fallback reports a temperature of
    25..34, a humidity of 55..84, a wind of 8..27 and a pressure of
    1008..1022, for the location it was asked for; its forecast has the five
    days Mon..Fri in order, each with an icon, a high of 25..34 and a low of
    18..24, so a low is always below its high; twenty draws are consumed. *)
Theorem localWeather_ranges (loc : string) (draws : nat -> Q) (pos : nat) :
  unit_interval draws ->
  25 <= temp (localWeather loc draws pos).1 <= 34
  /\ 55 <= humidity (localWeather loc draws pos).1 <= 84
  /\ 8 <= wind (localWeather loc draws pos).1 <= 27
  /\ 1008 <= pressure (localWeather loc draws pos).1 <= 1022
  /\ location (localWeather loc draws pos).1 = loc
  /\ day <$> forecast (localWeather loc draws pos).1 = ["Mon"; "Tue"; "Wed"; "Thu"; "Fri"]
  /\ Forall (fun f => 25 <= high f <= 34 /\ 18 <= low f <= 24 /\ low f < high f
                      /\ is_Some (fd_icon f))
       (forecast (localWeather loc draws pos).1)
  /\ (localWeather loc draws pos).2 = (pos + 20)%nat.
Proof.
  intros Hd. rewrite localWeather_unfold.
  cbn [fst snd temp humidity wind pressure location forecast].
  pose proof (fun i k => draw_below_range draws i k Hd) as Hrange.
  split; [pose proof (Hrange (16 + pos)%nat 10); lia |].
  split; [pose proof (Hrange (17 + pos)%nat 30); lia |].
  split; [pose proof (Hrange (18 + pos)%nat 20); lia |].
  split; [pose proof (Hrange (19 + pos)%nat 15); lia |].
  split; [done |]. split; [done |].
  split; [|lia].
  repeat (apply Forall_cons; split;
          [cbn [high low fd_icon];
           match goal with
           | |- context [at_index icons (Qfloor (draws ?i * _))] =>
               pose proof (Hrange i 6 ltac:(lia))
           end;
           match goal with
           | |- context [25 + Qfloor (draws ?i * _)] =>
               pose proof (Hrange i 10 ltac:(lia))
           end;
           match goal with
           | |- context [18 + Qfloor (draws ?i * _)] =>
               pose proof (Hrange i 7 ltac:(lia))
           end;
           split; [lia |]; split; [lia |]; split; [lia |];
           apply at_index_in_range; cbn [length icons Z.of_nat]; lia |]).
  apply Forall_nil_2.
Qed.

Lemma localWeather_ranges_witness :
  25 <= temp (localWeather "Pune" (fun _ => (1 # 2)%Q) 0%nat).1 <= 34.
Proof.
  apply (localWeather_ranges "Pune" (fun _ => (1 # 2)%Q) 0%nat half_draws_unit_interval).
Defined.

Lemma water_entries_bounds (d : IrrigationData) :
  (1050 <= water_entries d /\ water_entries d <= 12740)%Q.
Proof.
  unfold water_entries.
  assert (Hn : (3000 <= entry_or waterNeeds (i_crop d) 4000
                /\ entry_or waterNeeds (i_crop d) 4000 <= 7000)%Q)
    by (unfold waterNeeds; table_bounds).
  assert (Hs : (0.5 <= entry_or stageMult (i_stage d) 1.0
                /\ entry_or stageMult (i_stage d) 1.0 <= 1.3)%Q)
    by (unfold stageMult; table_bounds).
  assert (Hk : (0.7 <= entry_or soilDrain (i_soil d) 1.0
                /\ entry_or soilDrain (i_soil d) 1.0 <= 1.4)%Q)
    by (unfold soilDrain; table_bounds).
  destruct Hn, Hs, Hk.
  set (n := entry_or waterNeeds (i_crop d) 4000) in *.
  set (s := entry_or stageMult (i_stage d) 1.0) in *.
  set (k := entry_or soilDrain (i_soil d) 1.0) in *.
  assert (1500 <= n * s /\ n * s <= 9100)%Q by (split; nra).
  split; nra.
Qed.

(** X8. For a request none of whose crop, stage and soil names a member
    that the tables inherit, the irrigation fallback asks for a whole number
    of 1050 to 12740 litres per day; when one of them does, the water is
    NaN.  Its three verdicts use different thresholds: a critical status
    always comes with the "24h" schedule and the text that asks for
    immediate irrigation, and a high status with the "72h" schedule and the
    text for acceptable moisture; but for a moisture from 35 and below 40
    the status is "Low — Schedule Irrigation" while the text says that the
    moisture levels are acceptable. *)
Theorem localIrrigationCalc_verdicts (d : IrrigationData) :
  (irrigation_inherits d = false ->
   exists z : Z,
     water_per_day (localIrrigationCalc d) = Num (inject_Z z) /\ 1050 <= z <= 12740)
  /\ (irrigation_inherits d = true -> water_per_day (localIrrigationCalc d) = NaN)
  /\ (moisture_status (localIrrigationCalc d) = "Critical — Irrigate Immediately" ->
      schedule (localIrrigationCalc d) = "24h"
      /\ recommendation (localIrrigationCalc d) = immediate_text d)
  /\ (moisture_status (localIrrigationCalc d) = "High — Reduce Irrigation" ->
      schedule (localIrrigationCalc d) = "72h"
      /\ recommendation (localIrrigationCalc d) = acceptable_text d)
  /\ ((35 <= i_moisture d)%Q -> (i_moisture d < 40)%Q ->
      moisture_status (localIrrigationCalc d) = "Low — Schedule Irrigation"
      /\ schedule (localIrrigationCalc d) = "24h"
      /\ recommendation (localIrrigationCalc d) = acceptable_text d).
Proof.
  split.
  { intros Hnone. cbn [localIrrigationCalc water_per_day].
    rewrite water_product, Hnone.
    destruct (water_entries_whole d) as [z Hz]. exists z.
    cbn [Math_round]. rewrite (round_whole _ _ Hz). split; [done |].
    pose proof (water_entries_bounds d) as [Hlo Hhi].
    rewrite Hz in Hlo, Hhi.
    change 1050%Q with (inject_Z 1050) in Hlo. change 12740%Q with (inject_Z 12740) in Hhi.
    rewrite <- Zle_Qle in Hlo, Hhi. lia. }
  split.
  { intros Hsome. cbn [localIrrigationCalc water_per_day].
    by rewrite water_product, Hsome. }
  cbn [localIrrigationCalc schedule moisture_status recommendation].
  unfold schedule_of, moisture_status_of, immediate_text, acceptable_text,
    recommendation_text.
  destruct (Qgtb (i_moisture d) 60) eqn:H60;
    [apply Qgtb_spec in H60 | apply Qgtb_false in H60];
  (destruct (Qgtb (i_moisture d) 40) eqn:H40;
    [apply Qgtb_spec in H40 | apply Qgtb_false in H40]);
  (destruct (Qltb (i_moisture d) 30) eqn:H30;
    [apply Qltb_spec in H30 | apply Qltb_false in H30]);
  (destruct (Qltb (i_moisture d) 40) eqn:H40';
    [apply Qltb_spec in H40' | apply Qltb_false in H40']);
  (destruct (Qgtb (i_moisture d) 70) eqn:H70;
    [apply Qgtb_spec in H70 | apply Qgtb_false in H70]);
  (destruct (Qltb (i_moisture d) 35) eqn:H35;
    [apply Qltb_spec in H35 | apply Qltb_false in H35]);
  repeat split; intros; try reflexivity; try discriminate; exfalso; lra.
Qed.

Lemma localIrrigationCalc_verdicts_witness :
  moisture_status (localIrrigationCalc
                     {| i_crop := "wheat"; i_soil := "silt"; i_moisture := 37;
                        i_stage := "seedling" |})
    = "Low — Schedule Irrigation"
  /\ recommendation (localIrrigationCalc
                       {| i_crop := "wheat"; i_soil := "silt"; i_moisture := 37;
                          i_stage := "seedling" |})
     = "For wheat in silt soil at seedling stage: ✅ Moisture levels acceptable. Apply water early morning or late evening. Consider drip irrigation for 40% water savings."
  /\ water_per_day (localIrrigationCalc
                      {| i_crop := "wheat"; i_soil := "toString"; i_moisture := 37;
                         i_stage := "seedling" |}) = NaN.
Proof.
  pose proof (localIrrigationCalc_verdicts
                {| i_crop := "wheat"; i_soil := "silt"; i_moisture := 37;
                   i_stage := "seedling" |}) as (_ & _ & _ & _ & Hgap).
  pose proof (localIrrigationCalc_verdicts
                {| i_crop := "wheat"; i_soil := "toString"; i_moisture := 37;
                   i_stage := "seedling" |}) as (_ & HNaN & _).
  destruct Hgap as (Hstatus & _ & Htext); [discriminate | reflexivity |].
  split; [exact Hstatus |]. split; [exact Htext | apply HNaN; reflexivity].
Defined.

(** ** Offline directory: lookups after an upsert *)

Lemma cacheUser_nil e : Directory.cacheUser [] e = [e].
Proof. reflexivity. Qed.

Lemma cacheUser_cons u users e :
  Directory.cacheUser (u :: users) e
  = if String.eqb (Directory.email_phone u) (Directory.email_phone e)
    then e :: users
    else u :: Directory.cacheUser users e.
Proof.
  unfold Directory.cacheUser. cbn [Directory.findIndex].
  destruct (String.eqb (Directory.email_phone u) (Directory.email_phone e)); [done |].
  pose proof (findIndex_lower
                (fun u0 => String.eqb (Directory.email_phone u0) (Directory.email_phone e))
                users) as Hlow.
  set (i := Directory.findIndex _ users) in *. cbn zeta.
  destruct (Z.ltb_spec i 0) as [Hneg|Hpos].
  - destruct (Z.leb_spec 0 (-1)); [lia |]. destruct (Z.leb_spec 0 i); [lia | done].
  - destruct (Z.leb_spec 0 (i + 1)); [|lia]. destruct (Z.leb_spec 0 i); [|lia].
    replace (Z.to_nat (i + 1)) with (S (Z.to_nat i)) by lia. done.
Qed.

(** X9. After [cacheUser] (and [storeUserLocally]) the offline login finds
    the entry under its own contact and password, whatever the directory
    held before, and the contact counts as taken; in a directory that held
    the contact at one position at most, no other password opens that
    contact any more. *)
Theorem offline_login_after_upsert (users : list Directory.UserData)
    (e : Directory.UserData) :
  find_account (Directory.cacheUser users e)
    (Directory.email_phone e) (Directory.password e) = Some e
  /\ find_account (Directory.storeUserLocally users e)
       (Directory.email_phone e) (Directory.password e) = Some e
  /\ contact_taken (Directory.cacheUser users e) (Directory.email_phone e) = true
  /\ (at_most_once (Directory.email_phone e) users ->
      forall secret, secret <> Directory.password e ->
        find_account (Directory.cacheUser users e) (Directory.email_phone e) secret = None).
Proof.
  change (Directory.storeUserLocally users e) with (Directory.cacheUser users e).
  assert (Hfind : find_account (Directory.cacheUser users e)
                    (Directory.email_phone e) (Directory.password e) = Some e).
  { induction users as [|u users IH].
    - cbn. by rewrite !String.eqb_refl.
    - rewrite cacheUser_cons.
      destruct (String.eqb (Directory.email_phone u) (Directory.email_phone e)) eqn:Hu.
      + cbn. by rewrite !String.eqb_refl.
      + cbn. rewrite Hu. cbn. exact IH. }
  split; [exact Hfind |]. split; [exact Hfind |]. split.
  { clear Hfind. induction users as [|u users IH].
    - cbn. by rewrite String.eqb_refl.
    - rewrite cacheUser_cons.
      destruct (String.eqb (Directory.email_phone u) (Directory.email_phone e)) eqn:Hu.
      + cbn. by rewrite String.eqb_refl.
      + cbn. rewrite Hu. exact IH. }
  intros Honce secret Hsecret.
  destruct (cacheUser_exactly_one users e Honce) as (i & Hi & Hunique).
  destruct (find_account (Directory.cacheUser users e) (Directory.email_phone e) secret)
    as [u|] eqn:Hu; [|done].
  apply find_some in Hu as [Hin Hmatch].
  apply andb_true_iff in Hmatch as [Hcontact Hpw].
  apply String.eqb_eq in Hcontact, Hpw.
  apply list_elem_of_In, list_elem_of_lookup in Hin as [j Hj].
  assert (j = i) as -> by (apply Hunique; by exists u).
  rewrite Hi in Hj. injection Hj as <-. done.
Qed.

Lemma offline_login_after_upsert_witness :
  find_account (Directory.cacheUser unique_directory ravi_new) "ravi@example.org" "first"
    = None.
Proof.
  destruct (offline_login_after_upsert unique_directory ravi_new) as (_ & _ & _ & Hstale).
  apply Hstale; [|discriminate].
  apply NoDup_at_most_once. refine (bool_decide_unpack _ _). vm_compute. exact I.
Defined.

(** X10. An upsert touches one account only: lookups under any other
    contact give what they gave before, and the directory keeps its length
    when the contact was taken and grows by one entry otherwise. *)
Theorem upsert_leaves_other_accounts (users : list Directory.UserData)
    (e : Directory.UserData) :
  (forall contact secret,
      contact <> Directory.email_phone e ->
      find_account (Directory.cacheUser users e) contact secret
        = find_account users contact secret
      /\ contact_taken (Directory.cacheUser users e) contact = contact_taken users contact)
  /\ length (Directory.cacheUser users e)
     = (if contact_taken users (Directory.email_phone e)
        then length users else S (length users)).
Proof.
  split.
  - intros contact secret Hne.
    assert (He : String.eqb (Directory.email_phone e) contact = false)
      by (apply String.eqb_neq; congruence).
    unfold find_account, contact_taken.
    induction users as [|u users [IHf IHt]].
    + cbn. by rewrite He.
    + rewrite cacheUser_cons.
      destruct (String.eqb_spec (Directory.email_phone u) (Directory.email_phone e))
        as [Hsame|Hdiff].
      * assert (Hu : String.eqb (Directory.email_phone u) contact = false)
          by (apply String.eqb_neq; congruence).
        cbn. by rewrite He, Hu.
      * cbn [List.find existsb]. rewrite IHf, IHt. done.
  - induction users as [|u users IH]; [done |].
    rewrite cacheUser_cons. cbn [contact_taken existsb].
    destruct (String.eqb (Directory.email_phone u) (Directory.email_phone e)); [done |].
    cbn [orb length]. rewrite IH. fold (contact_taken users (Directory.email_phone e)).
    by destruct (contact_taken users (Directory.email_phone e)).
Qed.

Lemma upsert_leaves_other_accounts_witness :
  find_account (Directory.cacheUser unique_directory ravi_new) "asha@example.org" "secret"
    = find_account unique_directory "asha@example.org" "secret".
Proof.
  destruct (upsert_leaves_other_accounts unique_directory ravi_new) as [Hother _].
  apply Hother. discriminate.
Defined.

(** ** Session: logout and the two page loads *)

Lemma handleLogout_run w :
  handleLogout w
  = (with_location_href (Some "login.html")
       (with_localStorage
          (delete "cropdoctor_token" (delete "cropdoctor_user" (localStorage w))) w),
     inr tt).
Proof. reflexivity. Qed.

(** X11. [handleLogout] removes the session record and the token, asks for
    the login page and touches nothing else: every other key of the
    storage keeps its value (in particular the offline accounts, with their
    passwords, stay), and the cache, the log of requests and the page are
    as before.  When the dashboard is loaded again with the storage the
    logout left (a new document: no navigation requested, no current
    user), [loadUserInfo] asks for the login page, installs no user and
    leaves the storage as it is.  A request that [apiFetch] makes after the
    logout is handed to [fetch] with the caller's options as they are: no
    [Authorization] header is added. *)
Theorem logout_ends_session (h : Host) (w : World) :
  (handleLogout w).2 = inr tt
  /\ localStorage (handleLogout w).1 !! "cropdoctor_user" = None
  /\ localStorage (handleLogout w).1 !! "cropdoctor_token" = None
  /\ (forall key : string,
        key <> "cropdoctor_user" -> key <> "cropdoctor_token" ->
        localStorage (handleLogout w).1 !! key = localStorage w !! key)
  /\ location_href (handleLogout w).1 = Some "login.html"
  /\ (API_CACHE (handleLogout w).1 = API_CACHE w
      /\ fetch_log (handleLogout w).1 = fetch_log w
      /\ screen (handleLogout w).1 = screen w
      /\ currentUser (handleLogout w).1 = currentUser w)
  /\ (let page := reloaded (handleLogout w).1 in
      location_href page = None
      /\ (loadUserInfo h page).2 = inr tt
      /\ location_href (loadUserInfo h page).1 = Some "login.html"
      /\ currentUser (loadUserInfo h page).1 = None
      /\ localStorage (loadUserInfo h page).1 = localStorage (handleLogout w).1)
  /\ (forall u o,
        fetch_log (apiFetch h u o (handleLogout w).1).1
        = fetch_log w ++ [{| url := u; options := o |}]).
Proof.
  rewrite handleLogout_run. cbn [fst snd].
  assert (Huser : delete "cropdoctor_token" (delete "cropdoctor_user" (localStorage w))
                    !! "cropdoctor_user" = None)
    by (rewrite lookup_delete_ne by done; apply lookup_delete_eq).
  split; [done |]. split; [exact Huser |].
  split; [apply lookup_delete_eq |].
  split; [intros key Hu Ht; cbn; by rewrite !lookup_delete_ne |].
  split; [done |]. split; [done |].
  split.
  - cbn zeta. rewrite loadUserInfo_absent by exact Huser. done.
  - intros u o. rewrite apiFetch_state. unfold request_sent. cbn.
    by rewrite lookup_delete_eq.
Qed.

(** Asha logs out of a page that holds her record, a token and the offline
    accounts: the accounts stay, and the dashboard loaded next asks for the
    login page. *)
Lemma logout_ends_session_witness :
  localStorage (handleLogout asha_signed_in).1 !! "cropdoctor_users" = Some "[]"
  /\ localStorage (handleLogout asha_signed_in).1 !! "cropdoctor_user" = None
  /\ location_href
       (loadUserInfo host_parsing (reloaded (handleLogout asha_signed_in).1)).1
     = Some "login.html".
Proof.
  destruct (logout_ends_session host_parsing asha_signed_in)
    as (_ & Huser & _ & Hrest & _ & _ & Hload & _).
  split; [by rewrite Hrest |]. split; [exact Huser |].
  by destruct Hload as (_ & _ & Hlogin & _).
Defined.

Lemma pageLoad_without_record h w :
  (localStorage w !! "cropdoctor_user" = None
   \/ localStorage w !! "cropdoctor_user" = Some "") ->
  Login.pageLoad h w = (w, inr tt) /\ Auth.pageLoad h w = (w, inr tt).
Proof.
  intros Hraw. unfold Login.pageLoad, Auth.pageLoad, bind, getItem.
  by destruct Hraw as [->| ->].
Qed.

Lemma pageLoad_forwards h w :
  location_href (Login.pageLoad h w).1 = Some "dashboard.html"
  \/ location_href (Auth.pageLoad h w).1 = Some "dashboard.html" ->
  location_href w = Some "dashboard.html"
  \/ exists text v,
      localStorage w !! "cropdoctor_user" = Some text /\ text <> ""
      /\ JSON_parse h text = Some v /\ has_required_fields v = true.
Proof.
  unfold Login.pageLoad, Auth.pageLoad, bind at 1 3, getItem.
  destruct (localStorage w !! "cropdoctor_user") as [text|] eqn:Hraw;
    [|intros [?|?]; by left].
  destruct (String.eqb_spec text "") as [->|Hne]; [intros [?|?]; by left |].
  unfold try_catch, parse, bind, has_required_fields.
  destruct (JSON_parse h text) as [v|] eqn:Hparse; [|intros [?|?]; by left].
  cbn. destruct (truthy v && truthy (field v "name")) eqn:Hcheck;
    [intros _; right; by exists text, v | intros [?|?]; by left].
Qed.

(** X12. The dashboard and the login page agree on what a session is, so
    they never send the user back and forth.  On a page that has requested
    no navigation: when the dashboard's [loadUserInfo] redirects to the
    login page, neither login page (login module, auth.js) forwards to the
    dashboard from the state it leaves; and when a login page forwards to
    the dashboard, [loadUserInfo] does not redirect back. *)
Theorem no_redirect_loop (h : Host) (w : World) :
  location_href w = None ->
  (location_href (loadUserInfo h w).1 = Some "login.html" ->
   Login.pageLoad h (loadUserInfo h w).1 = ((loadUserInfo h w).1, inr tt)
   /\ Auth.pageLoad h (loadUserInfo h w).1 = ((loadUserInfo h w).1, inr tt))
  /\ (location_href (Login.pageLoad h w).1 = Some "dashboard.html"
      \/ location_href (Auth.pageLoad h w).1 = Some "dashboard.html" ->
      session_accepted w (loadUserInfo h w).1).
Proof.
  intros Hfresh. split.
  - intros Hredirect. apply pageLoad_without_record.
    destruct (localStorage w !! "cropdoctor_user") as [text|] eqn:Hraw.
    + destruct (String.eqb_spec text "") as [->|Hne].
      * rewrite loadUserInfo_empty by done. by right.
      * destruct (JSON_parse h text) as [v|] eqn:Hparse.
        -- destruct (has_required_fields v) eqn:Hcheck.
           ++ destruct (loadUserInfo_accepted h w text v Hraw Hne Hparse Hcheck)
                as [[Hloc _] _]. congruence.
           ++ rewrite (loadUserInfo_rejected h w text) by eauto.
              left. cbn. apply lookup_delete_eq.
        -- rewrite (loadUserInfo_rejected h w text) by eauto.
           left. cbn. apply lookup_delete_eq.
    + rewrite loadUserInfo_absent by done. by left.
  - intros Hforward.
    destruct (pageLoad_forwards h w Hforward)
      as [Hloc|(text & v & Hraw & Hne & Hparse & Hcheck)]; [congruence |].
    by destruct (loadUserInfo_accepted h w text v Hraw Hne Hparse Hcheck).
Qed.

Lemma no_redirect_loop_witness :
  Login.pageLoad host_parsing (loadUserInfo host_parsing (world_storing "{}")).1
    = ((loadUserInfo host_parsing (world_storing "{}")).1, inr tt)
  /\ session_accepted (world_storing asha_text)
       (loadUserInfo host_parsing (world_storing asha_text)).1.
Proof.
  destruct (no_redirect_loop host_parsing (world_storing "{}")) as [Hback _];
    [reflexivity |].
  destruct (no_redirect_loop host_parsing (world_storing asha_text)) as [_ Hforth];
    [reflexivity |].
  split.
  - apply Hback. reflexivity.
  - apply Hforth. left. reflexivity.
Defined.

(** ** Login page: reading the directory *)

Lemma fetch_unfold h u o w :
  fetch h u o w =
    (after_fetch {| url := u; options := o |} w,
     match net h {| url := u; options := o |} with
     | Rejected cause => inl (FetchFailed cause)
     | TimedOut => inl (FetchFailed "timeout")
     | Responded st json => inr {| status_code := st; json_body := json |}
     end).
Proof. unfold fetch, after_fetch. by destruct (net h _). Qed.

Lemma read_users_run h w items :
  stored_users h w = Some items -> read_users h w = (w, inr (VArr items)).
Proof.
  unfold stored_users, read_users, bind, getItem, parse.
  destruct (localStorage w !! "cropdoctor_users") as [text|]; [|by intros [= <-]].
  destruct (String.eqb text ""); [by intros [= <-] |].
  destruct (JSON_parse h text) as [[]|]; try done. by intros [= <-].
Qed.

Lemma stored_users_after_fetch h req w :
  stored_users h (after_fetch req w) = stored_users h w.
Proof. reflexivity. Qed.

(** What [find] returns on an array of objects. *)
Lemma find_first_objects (pred : value -> option bool) (items : list value) :
  Forall (fun u => is_Some (pred u)) items ->
  find_first pred items = Some (List.find (fun u => default false (pred u)) items).
Proof.
  induction 1 as [|u items [r Hr] _ IH]; [done |].
  cbn. rewrite Hr. cbn. destruct r; [done | exact IH].
Qed.

Lemma has_credentials_defined email secret u :
  nullish u = false -> is_Some (has_credentials email secret u).
Proof. intros Hu. unfold has_credentials. by destruct u. Qed.

Lemma has_contact_defined contact u :
  nullish u = false -> is_Some (has_contact contact u).
Proof. intros Hu. unfold has_contact. by destruct u. Qed.

(** A value with the credentials is an object that holds them. *)
Lemma has_credentials_true email secret u :
  has_credentials email secret u = Some true ->
  exists fields, u = VObj fields
    /\ assoc "email_phone" fields = Some (VStr email)
    /\ assoc "password" fields = Some (VStr secret).
Proof.
  unfold has_credentials. destruct u as [| | | | s |items|fields];
    try (cbn; discriminate).
  cbn [prop]. intros [= Hmatch]. apply andb_true_iff in Hmatch as [Hce Hpe].
  exists fields. split; [done |].
  destruct (assoc "email_phone" fields) as [[]|]; try done.
  destruct (assoc "password" fields) as [[]|]; try done.
  cbn in Hce, Hpe. apply String.eqb_eq in Hce, Hpe. by subst.
Qed.

Lemma assoc_put_field key key' v fields :
  assoc key (put_field key' v fields)
  = if String.eqb key key' then Some v else assoc key fields.
Proof.
  induction fields as [|[k x] fields IH]; cbn.
  - by destruct (String.eqb key key').
  - destruct (String.eqb_spec k key') as [->|Hk]; cbn.
    + by destruct (String.eqb key key').
    + rewrite IH. destruct (String.eqb_spec key key') as [->|Hkey]; [|done].
      destruct (String.eqb_spec key' k) as [->|_]; done.
Qed.

Lemma matching_account_spec email secret items user :
  matching_account email secret items = Some user ->
  exists fields, user = VObj fields
    /\ user ∈ items
    /\ assoc "email_phone" fields = Some (VStr email)
    /\ assoc "password" fields = Some (VStr secret).
Proof.
  intros Hfind. apply find_some in Hfind as [Hin Hmatch].
  destruct (has_credentials email secret user) as [[]|] eqn:Hc; try done.
  destruct (has_credentials_true email secret user Hc) as (fields & -> & He & Hp).
  exists fields. split; [done |]. split; [by apply list_elem_of_In | done].
Qed.

(** ** Login module: the offline login *)

Lemma Login_offline_login_run h b email secret w items :
  stored_users h w = Some items ->
  Forall (fun u => nullish u = false) items ->
  Login.offline_login h b email secret w =
    match matching_account email secret items with
    | Some user =>
        (with_location_href (Some "dashboard.html")
           (with_localStorage
              (<["cropdoctor_user" :=
                   JSON_stringify h
                     (VObj (put_field "loggedInAt"
                              (VStr (Date_toISOString b (clock h (ticks w))))
                              (own_fields user)))]> (localStorage w))
              (with_ticks (S (ticks w)) w)),
         inr (NoticeSuccess (VStr "âœ… Logged in (offline mode).")))
    | None =>
        (w, inr (NoticeError
                   (VStr "Cannot reach server. Check your credentials and try again.")))
    end.
Proof.
  intros Hstored Hobjects. unfold Login.offline_login, bind at 1.
  rewrite (read_users_run h w items Hstored).
  rewrite find_first_objects
    by (eapply Forall_impl; [exact Hobjects | apply has_credentials_defined]).
  fold (matching_account email secret items).
  by destruct (matching_account email secret items).
Qed.

Lemma Login_login_unanswered h b email_field secret w :
  String_trim b email_field <> "" -> secret <> "" ->
  unanswered h (login_request h (String_trim b email_field) secret) = true ->
  Login.handleFarmerLogin h b email_field secret w
  = Login.offline_login h b (String_trim b email_field) secret
      (after_fetch (login_request h (String_trim b email_field) secret) w).
Proof.
  intros Hemail Hsecret Hnet. unfold Login.handleFarmerLogin.
  destruct (String.eqb_spec (String_trim b email_field) "") as [|_]; [done |].
  destruct (String.eqb_spec secret "") as [|_]; [done |].
  cbn [orb]. unfold try_catch, bind at 1. rewrite fetch_unfold.
  unfold unanswered, login_request in *.
  destruct (net h _) as [cause| |st [data|]]; try done.
Qed.

(** X13. The farmer login of the login module, when the backend gives no
    readable answer.  With a directory of account objects it hands one
    request to [fetch] and then decides from the directory alone: if an
    account has the trimmed contact and the password, the first such account
    becomes the session, the dashboard is requested and the stored token is
    left as it was; if none has, nothing is stored and no navigation is
    requested.  The session is the cached account with a login time added,
    so it holds the account's password. *)
Theorem offline_login_by_directory (h : Host) (b : Builtins) (w : World)
    (email_field secret : string) (items : list value) :
  String_trim b email_field <> "" -> secret <> "" ->
  unanswered h (login_request h (String_trim b email_field) secret) = true ->
  stored_users h w = Some items ->
  Forall (fun u => nullish u = false) items ->
  fetch_log (Login.handleFarmerLogin h b email_field secret w).1
    = fetch_log w ++ [login_request h (String_trim b email_field) secret]
  /\ localStorage (Login.handleFarmerLogin h b email_field secret w).1 !! "cropdoctor_token"
     = localStorage w !! "cropdoctor_token"
  /\ (matching_account (String_trim b email_field) secret items = None ->
      (Login.handleFarmerLogin h b email_field secret w).2
        = inr (NoticeError
                 (VStr "Cannot reach server. Check your credentials and try again."))
      /\ localStorage (Login.handleFarmerLogin h b email_field secret w).1 = localStorage w
      /\ location_href (Login.handleFarmerLogin h b email_field secret w).1
         = location_href w)
  /\ (forall user,
        matching_account (String_trim b email_field) secret items = Some user ->
        (Login.handleFarmerLogin h b email_field secret w).2
          = inr (NoticeSuccess (VStr "âœ… Logged in (offline mode)."))
        /\ location_href (Login.handleFarmerLogin h b email_field secret w).1
           = Some "dashboard.html"
        /\ exists session,
            localStorage (Login.handleFarmerLogin h b email_field secret w).1
              !! "cropdoctor_user" = Some (JSON_stringify h (VObj session))
            /\ session = put_field "loggedInAt"
                           (VStr (Date_toISOString b (clock h (ticks w))))
                           (own_fields user)
            /\ assoc "email_phone" session = Some (VStr (String_trim b email_field))
            /\ assoc "password" session = Some (VStr secret)).
Proof.
  intros Hemail Hsecret Hnet Hstored Hobjects.
  rewrite (Login_login_unanswered h b email_field secret w Hemail Hsecret Hnet).
  rewrite (Login_offline_login_run h b _ secret _ items) by done.
  destruct (matching_account (String_trim b email_field) secret items) as [user|] eqn:Hfind.
  - cbn [fst snd]. split; [done |].
    split; [cbn; by rewrite lookup_insert_ne |].
    split; [done |].
    intros user' [= <-]. split; [done |]. split; [done |].
    destruct (matching_account_spec _ _ _ _ Hfind) as (fields & -> & _ & He & Hp).
    eexists. split; [cbn; apply lookup_insert_eq |]. split; [done |].
    cbn [own_fields]. by rewrite !assoc_put_field.
  - cbn [fst snd]. split; [done |]. split; [done |]. split; [done |]. done.
Qed.

Lemma offline_login_by_directory_witness :
  location_href (Login.handleFarmerLogin host_offline sample_builtins
                   "ravi@example.org" "monsoon" world_with_ravi).1
    = Some "dashboard.html"
  /\ localStorage (Login.handleFarmerLogin host_offline sample_builtins
                     "ravi@example.org" "wrong" world_with_ravi).1
     = localStorage world_with_ravi.
Proof.
  destruct (offline_login_by_directory host_offline sample_builtins world_with_ravi
              "ravi@example.org" "monsoon" [ravi_account])
    as (_ & _ & _ & Hfound);
    [discriminate | discriminate | reflexivity | reflexivity | by repeat constructor |].
  destruct (offline_login_by_directory host_offline sample_builtins world_with_ravi
              "ravi@example.org" "wrong" [ravi_account])
    as (_ & _ & Hmissing & _);
    [discriminate | discriminate | reflexivity | reflexivity | by repeat constructor |].
  split.
  - destruct (Hfound ravi_account) as (_ & Hnav & _); [reflexivity | exact Hnav].
  - destruct Hmissing as (_ & Hsame & _); [reflexivity | exact Hsame].
Defined.

(** ** auth.js: the offline login *)

Lemma getInitials_computable b user w :
  initials_computable user = true ->
  truthy (field user "initials") = false ->
  exists s, getInitials b (field user "name") w = (w, inr s).
Proof.
  unfold initials_computable, getInitials. intros Hc Hi. rewrite Hi in Hc. cbn in Hc.
  destruct (truthy (field user "name")) eqn:Hn; cbn in *; [|by eexists].
  destruct (field user "name"); try done. by eexists.
Qed.


Lemma Auth_login_unanswered h b email_field secret w :
  String_trim b email_field <> "" -> secret <> "" ->
  unanswered h (login_request h (String_trim b email_field) secret) = true ->
  Auth.handleFarmerLogin h b email_field secret w
  = (run early := Auth.offline_login h b (String_trim b email_field) secret in
     match early with
     | Some notice => ret notice
     | None =>
         navigate "dashboard.html" ;;;
         ret (NoticeSuccess (VStr "✅ Login successful! Redirecting to dashboard..."))
     end) (after_fetch (login_request h (String_trim b email_field) secret) w).
Proof.
  intros Hemail Hsecret Hnet. unfold Auth.handleFarmerLogin.
  destruct (String.eqb_spec (String_trim b email_field) "") as [|_]; [done |].
  destruct (String.eqb_spec secret "") as [|_]; [done |].
  cbn [orb]. unfold bind at 1, try_catch, bind at 1. rewrite fetch_unfold.
  unfold unanswered, login_request in *.
  destruct (net h _) as [cause| |st [data|]]; try done.
Qed.



(** ** Login page: answers of the backend that reject *)




(** ** Requests of the submit handlers *)

Lemma keeps_ret {A} (a : A) : keeps_requests (ret a).
Proof. by intros w. Qed.

Lemma keeps_throw {A} (e : Error) : keeps_requests (throw e : Comp A).
Proof. by intros w. Qed.

Lemma keeps_bind {A B} (c : Comp A) (k : A -> Comp B) :
  keeps_requests c -> (forall a, keeps_requests (k a)) -> keeps_requests (bind c k).
Proof.
  intros Hc Hk w. unfold bind. specialize (Hc w).
  destruct (c w) as [w' [e|a]]; cbn in Hc |- *; [done |].
  by rewrite Hk.
Qed.

Lemma keeps_try_catch {A} (c : Comp A) (handler : Error -> Comp A) :
  keeps_requests c -> (forall e, keeps_requests (handler e)) ->
  keeps_requests (try_catch c handler).
Proof.
  intros Hc Hh w. unfold try_catch. specialize (Hc w).
  destruct (c w) as [w' [e|a]]; cbn in Hc |- *; [|done].
  by rewrite Hh.
Qed.

Lemma keeps_getItem key : keeps_requests (getItem key).
Proof. by intros w. Qed.

Lemma keeps_setItem key text : keeps_requests (setItem key text).
Proof. by intros w. Qed.

Lemma keeps_navigate target : keeps_requests (navigate target).
Proof. by intros w. Qed.

Lemma keeps_Date_now h : keeps_requests (Date_now h).
Proof. by intros w. Qed.

Lemma keeps_member v key : keeps_requests (member v key).
Proof. intros w. unfold member. by destruct (prop v key). Qed.

Lemma keeps_parse h text : keeps_requests (parse h text).
Proof. intros w. unfold parse. by destruct (JSON_parse h text). Qed.

Lemma keeps_res_json res : keeps_requests (res_json res).
Proof. intros w. unfold res_json. by destruct (json_body res). Qed.

Lemma keeps_getInitials b name : keeps_requests (getInitials b name).
Proof. intros w. unfold getInitials. destruct (negb (truthy name)); [done |]. by destruct name. Qed.

Ltac keeps_step :=
  first
    [ apply keeps_ret | apply keeps_throw | apply keeps_getItem | apply keeps_setItem
    | apply keeps_navigate | apply keeps_Date_now | apply keeps_member | apply keeps_parse
    | apply keeps_res_json | apply keeps_getInitials
    | apply keeps_bind; [|intros ?] | apply keeps_try_catch; [|intros ?]
    | match goal with
      | |- keeps_requests (match ?x with _ => _ end) => destruct x
      | |- keeps_requests (if ?x then _ else _) => destruct x
      end ].

Ltac keeps := repeat keeps_step.

Lemma keeps_read_users h : keeps_requests (read_users h).
Proof. unfold read_users. keeps. Qed.

Lemma keeps_cacheUser_stored h userData : keeps_requests (cacheUser_stored h userData).
Proof. unfold cacheUser_stored. apply keeps_bind; [apply keeps_read_users |]. intros ?. keeps. Qed.

Lemma keeps_session_of h b data role : keeps_requests (Login.session_of h b data role).
Proof. unfold Login.session_of. keeps. Qed.

Lemma keeps_Login_offline_login h b email secret :
  keeps_requests (Login.offline_login h b email secret).
Proof.
  unfold Login.offline_login. apply keeps_bind; [apply keeps_read_users |]. intros ?. keeps.
Qed.

Lemma keeps_Auth_offline_login h b email secret :
  keeps_requests (Auth.offline_login h b email secret).
Proof.
  unfold Auth.offline_login. apply keeps_bind; [apply keeps_read_users |]. intros ?. keeps.
Qed.

Lemma keeps_Login_offline_signup h b f : keeps_requests (Login.offline_signup h b f).
Proof.
  unfold Login.offline_signup. apply keeps_bind; [apply keeps_read_users |]. intros ?.
  keeps.
Qed.

Lemma keeps_Auth_offline_signup h b f : keeps_requests (Auth.offline_signup h b f).
Proof.
  unfold Auth.offline_signup. apply keeps_bind; [apply keeps_read_users |]. intros ?.
  keeps.
Qed.

Lemma sends_fetch h u o : sends {| url := u; options := o |} (fetch h u o).
Proof. intros w. unfold fetch. by destruct (net h _). Qed.

Lemma sends_bind {A B} req (c : Comp A) (k : A -> Comp B) :
  sends req c -> (forall a, keeps_requests (k a)) -> sends req (bind c k).
Proof.
  intros Hc Hk w. unfold bind. specialize (Hc w).
  destruct (c w) as [w' [e|a]]; cbn in Hc |- *; [done |].
  by rewrite Hk.
Qed.

Lemma sends_try_catch {A} req (c : Comp A) (handler : Error -> Comp A) :
  sends req c -> (forall e, keeps_requests (handler e)) -> sends req (try_catch c handler).
Proof.
  intros Hc Hh w. unfold try_catch. specialize (Hc w).
  destruct (c w) as [w' [e|a]]; cbn in Hc |- *; [|done].
  by rewrite Hh.
Qed.

Ltac sends_once :=
  repeat first
    [ apply sends_fetch
    | apply sends_try_catch; [|intros ?]
    | apply sends_bind; [|intros ?] ];
  keeps.

Lemma Login_handleFarmerLogin_sends h b email_field secret :
  String_trim b email_field <> "" -> secret <> "" ->
  sends (login_request h (String_trim b email_field) secret)
    (Login.handleFarmerLogin h b email_field secret).
Proof.
  intros Hemail Hsecret. unfold Login.handleFarmerLogin, login_request.
  destruct (String.eqb_spec (String_trim b email_field) "") as [|_]; [done |].
  destruct (String.eqb_spec secret "") as [|_]; [done |].
  cbn [orb]. sends_once.
Qed.

Lemma Login_handleAdminLogin_sends h b email_field secret :
  String_trim b email_field <> "" -> secret <> "" ->
  sends (admin_login_request h (String_trim b email_field) secret)
    (Login.handleAdminLogin h b email_field secret).
Proof.
  intros Hemail Hsecret. unfold Login.handleAdminLogin, admin_login_request.
  destruct (String.eqb_spec (String_trim b email_field) "") as [|_]; [done |].
  destruct (String.eqb_spec secret "") as [|_]; [done |].
  cbn [orb]. sends_once.
Qed.

Lemma Auth_handleFarmerLogin_sends h b email_field secret :
  String_trim b email_field <> "" -> secret <> "" ->
  sends (login_request h (String_trim b email_field) secret)
    (Auth.handleFarmerLogin h b email_field secret).
Proof.
  intros Hemail Hsecret. unfold Auth.handleFarmerLogin, login_request.
  destruct (String.eqb_spec (String_trim b email_field) "") as [|_]; [done |].
  destruct (String.eqb_spec secret "") as [|_]; [done |].
  cbn [orb]. sends_once.
Qed.

Lemma Login_handleSignup_sends h b f :
  Login.validate b f = None ->
  sends (signup_request h (VObj (Login.payload b f))) (Login.handleSignup h b f).
Proof.
  intros Hvalid. unfold Login.handleSignup, signup_request. rewrite Hvalid. sends_once.
Qed.

Lemma Auth_handleSignup_sends h b f :
  Login.validate b f = None ->
  sends (signup_request h (Auth.userData b f)) (Auth.handleSignup h b f).
Proof.
  intros Hvalid. unfold Auth.handleSignup, signup_request. rewrite Hvalid. sends_once.
Qed.

Lemma empty_login_refused h b email_field secret w :
  String_trim b email_field = "" \/ secret = "" ->
  Login.handleFarmerLogin h b email_field secret w
    = (w, inr (NoticeError (VStr "Please fill in all fields.")))
  /\ Login.handleAdminLogin h b email_field secret w
     = (w, inr (NoticeError (VStr "Please fill in all fields.")))
  /\ Auth.handleFarmerLogin h b email_field secret w
     = (w, inr (NoticeError (VStr "Please fill in all fields."))).
Proof.
  intros Hempty.
  unfold Login.handleFarmerLogin, Login.handleAdminLogin, Auth.handleFarmerLogin.
  assert (String.eqb (String_trim b email_field) "" || String.eqb secret "" = true) as ->.
  { destruct Hempty as [-> | ->]; [done |]. apply orb_true_r. }
  done.
Qed.

(** The checks of the signup form, spelled out. *)
Lemma validate_accepts b f :
  Login.validate b f = None <->
    String_trim b (Login.farmer_name f) <> ""
    /\ String_trim b (Login.farmer_address f) <> ""
    /\ Login.farmer_age f <> ""
    /\ String_trim b (Login.farmer_contact f) <> ""
    /\ Login.farmer_password f <> ""
    /\ Login.farmer_password f = Login.farmer_confirm_password f
    /\ (6 <= String_length b (Login.farmer_password f))%nat
    /\ (forall n, Number_parseInt b (Login.farmer_age f) = Some n -> 18 <= n <= 100).
Proof.
  unfold Login.validate, Login.age_out_of_range.
  destruct (String.eqb_spec (String_trim b (Login.farmer_name f)) "") as [Hn|Hn];
    [cbn; split; [done | by intros (? & _)] |].
  destruct (String.eqb_spec (String_trim b (Login.farmer_address f)) "") as [Ha|Ha];
    [cbn; split; [done | by intros (_ & ? & _)] |].
  destruct (String.eqb_spec (Login.farmer_age f) "") as [Hg|Hg];
    [cbn; split; [done | by intros (_ & _ & ? & _)] |].
  destruct (String.eqb_spec (String_trim b (Login.farmer_contact f)) "") as [Hc|Hc];
    [cbn; split; [done | by intros (_ & _ & _ & ? & _)] |].
  destruct (String.eqb_spec (Login.farmer_password f) "") as [Hp|Hp];
    [cbn; split; [done | by intros (_ & _ & _ & _ & ? & _)] |].
  destruct (String.eqb_spec (Login.farmer_confirm_password f) "") as [Hq|Hq].
  { cbn. split; [done |]. intros (_ & _ & _ & _ & _ & Heq & _). congruence. }
  cbn [orb].
  destruct (String.eqb_spec (Login.farmer_password f) (Login.farmer_confirm_password f))
    as [Heq|Heq]; [|cbn; split; [done | by intros (_ & _ & _ & _ & _ & ? & _)]].
  cbn [negb].
  destruct (Nat.ltb_spec (String_length b (Login.farmer_password f)) 6) as [Hlen|Hlen];
    [split; [done | intros (_ & _ & _ & _ & _ & _ & ? & _); lia] |].
  destruct (Number_parseInt b (Login.farmer_age f)) as [n|]; [|by split].
  destruct (Z.ltb_spec n 18) as [Hlo|Hlo].
  { cbn. split; [done |]. intros (_ & _ & _ & _ & _ & _ & _ & Hage).
    specialize (Hage n eq_refl). lia. }
  destruct (Z.ltb_spec 100 n) as [Hhi|Hhi].
  { cbn. split; [done |]. intros (_ & _ & _ & _ & _ & _ & _ & Hage).
    specialize (Hage n eq_refl). lia. }
  cbn. split; [|done]. intros _. repeat (split; [done |]). intros m [= <-]. lia.
Qed.

(** X16. Each submit handler of the login page hands at most one request
    to [fetch], and none for an input that fails its checks.  A login (of
    either module, farmer or admin) with an empty trimmed contact or an
    empty password shows one message and leaves the state as it was;
    otherwise exactly one request, of the trimmed contact and the password,
    is sent, whatever the backend answers and whichever branch runs after.
    A signup is sent, once, exactly when name, address and contact are not
    blank, the age is not empty, the password is not empty, the two
    passwords agree, [password.length] (which counts UTF-16 code units, not
    bytes or characters) is at least 6, and the age, if [parseInt] reads a
    number from it, is between 18 and 100; an age that reads as NaN passes.
    Any other form gets a message and changes nothing. *)
Theorem submit_sends_at_most_once (h : Host) (b : Builtins) (w : World)
    (email_field secret : string) (f : Login.SignupForm) :
  let email := String_trim b email_field in
  let acceptable :=
    String_trim b (Login.farmer_name f) <> ""
    /\ String_trim b (Login.farmer_address f) <> ""
    /\ Login.farmer_age f <> ""
    /\ String_trim b (Login.farmer_contact f) <> ""
    /\ Login.farmer_password f <> ""
    /\ Login.farmer_password f = Login.farmer_confirm_password f
    /\ (6 <= String_length b (Login.farmer_password f))%nat
    /\ (forall n, Number_parseInt b (Login.farmer_age f) = Some n -> 18 <= n <= 100) in
  (email <> "" /\ secret <> "" ->
     fetch_log (Login.handleFarmerLogin h b email_field secret w).1
       = fetch_log w ++ [login_request h email secret]
     /\ fetch_log (Login.handleAdminLogin h b email_field secret w).1
        = fetch_log w ++ [admin_login_request h email secret]
     /\ fetch_log (Auth.handleFarmerLogin h b email_field secret w).1
        = fetch_log w ++ [login_request h email secret])
  /\ (email = "" \/ secret = "" ->
      exists text,
        Login.handleFarmerLogin h b email_field secret w = (w, inr (NoticeError text))
        /\ Login.handleAdminLogin h b email_field secret w = (w, inr (NoticeError text))
        /\ Auth.handleFarmerLogin h b email_field secret w = (w, inr (NoticeError text)))
  /\ (acceptable ->
      fetch_log (Login.handleSignup h b f w).1
        = fetch_log w ++ [signup_request h (VObj (Login.payload b f))]
      /\ fetch_log (Auth.handleSignup h b f w).1
         = fetch_log w ++ [signup_request h (Auth.userData b f)])
  /\ (~ acceptable ->
      exists text,
        Login.handleSignup h b f w = (w, inr (NoticeError text))
        /\ Auth.handleSignup h b f w = (w, inr (NoticeError text))).
Proof.
  intros email acceptable. split; [|split; [|split]].
  - intros [Hemail Hsecret]. split; [|split].
    + by apply Login_handleFarmerLogin_sends.
    + by apply Login_handleAdminLogin_sends.
    + by apply Auth_handleFarmerLogin_sends.
  - intros Hempty. eexists. by apply empty_login_refused.
  - intros Hok. apply validate_accepts in Hok. split.
    + by apply Login_handleSignup_sends.
    + by apply Auth_handleSignup_sends.
  - intros Hbad. destruct (Login.validate b f) as [text|] eqn:Hvalid.
    + exists (VStr text). unfold Login.handleSignup, Auth.handleSignup.
      by rewrite Hvalid.
    + by apply validate_accepts in Hvalid.
Qed.

Lemma submit_sends_at_most_once_witness :
  fetch_log (Login.handleSignup host_offline sample_builtins ageless_form empty_world).1
    = [signup_request host_offline (VObj (Login.payload sample_builtins ageless_form))]
  /\ assoc "age" (Login.payload sample_builtins ageless_form) = Some VNull.
Proof.
  destruct (submit_sends_at_most_once host_offline sample_builtins empty_world
              "" "" ageless_form) as (_ & _ & Hsent & _).
  split; [|reflexivity].
  destruct Hsent as [Hsent _]; [|exact Hsent].
  do 5 (split; [discriminate |]). split; [reflexivity |]. split; [cbn; lia |].
  intros n Hn. discriminate Hn.
Defined.

(** ** Signing up offline, then logging in offline *)

Lemma find_index_absent contact items :
  Forall (fun u => nullish u = false) items ->
  account_with_contact contact items = None ->
  find_index (has_contact (VStr contact)) items = Some (-1).
Proof.
  unfold account_with_contact.
  induction 1 as [|u items Hu _ IH]; [done |].
  cbn. destruct (has_contact_defined (VStr contact) u Hu) as [r Hr]. rewrite Hr.
  cbn. destruct r; [done |]. intros Hrest. by rewrite (IH Hrest).
Qed.

Lemma cacheUser_stored_push h w items acct contact :
  stored_users h w = Some items ->
  Forall (fun u => nullish u = false) items ->
  field acct "email_phone" = VStr contact ->
  account_with_contact contact items = None ->
  cacheUser_stored h acct w
  = (with_localStorage
       (<["cropdoctor_users" := JSON_stringify h (VArr (items ++ [acct]))]> (localStorage w)) w,
     inr tt).
Proof.
  intros Hstored Hobjects Hcontact Hfresh. unfold cacheUser_stored, bind.
  rewrite (read_users_run h w items Hstored), Hcontact.
  by rewrite (find_index_absent contact items Hobjects Hfresh).
Qed.

Lemma stored_users_reads_back h w items :
  reads_back h items ->
  stored_users h
    (with_localStorage (<["cropdoctor_users" := JSON_stringify h (VArr items)]> (localStorage w)) w)
  = Some items.
Proof.
  intros [Hne Hparse]. unfold stored_users. cbn. rewrite lookup_insert_eq.
  destruct (String.eqb_spec (JSON_stringify h (VArr items)) "") as [|_]; [done |].
  by rewrite Hparse.
Qed.

(** The accounts with the credentials once a fresh account was added. *)
Lemma matching_account_push contact secret secret' items acct :
  Forall (fun u => nullish u = false) items ->
  account_with_contact contact items = None ->
  prop acct "email_phone" = Some (VStr contact) ->
  prop acct "password" = Some (VStr secret) ->
  matching_account contact secret' (items ++ [acct])
  = if String.eqb secret secret' then Some acct else None.
Proof.
  intros Hobjects Hfresh He Hp. unfold matching_account, account_with_contact in *.
  induction Hobjects as [|u items Hu _ IH].
  - cbn. unfold has_credentials. rewrite He, Hp. cbn. rewrite String.eqb_refl. cbn.
    by destruct (String.eqb secret secret').
  - cbn in Hfresh |- *.
    unfold has_contact in Hfresh at 1. unfold has_credentials at 1.
    destruct u; try done; cbn [prop] in Hfresh |- *;
      try (destruct (strict_eq _ (VStr contact)); [done | cbn; by apply IH]).
Qed.

Lemma find_first_absent contact items :
  Forall (fun u => nullish u = false) items ->
  account_with_contact contact items = None ->
  find_first (has_contact (VStr contact)) items = Some None.
Proof.
  intros Hobjects Hfresh.
  rewrite find_first_objects
    by (eapply Forall_impl; [exact Hobjects | apply has_contact_defined]).
  by f_equal.
Qed.

Lemma Login_signup_unanswered h b f w :
  Login.validate b f = None ->
  unanswered h (signup_request h (VObj (Login.payload b f))) = true ->
  Login.handleSignup h b f w
  = Login.offline_signup h b f (after_fetch (signup_request h (VObj (Login.payload b f))) w).
Proof.
  intros Hvalid Hnet. unfold Login.handleSignup. rewrite Hvalid.
  unfold try_catch, bind at 1. rewrite fetch_unfold.
  unfold unanswered, signup_request in *.
  destruct (net h _) as [cause| |st [data|]]; try done.
Qed.

Lemma Auth_signup_unanswered h b f w :
  Login.validate b f = None ->
  unanswered h (signup_request h (Auth.userData b f)) = true ->
  Auth.handleSignup h b f w
  = (run early := Auth.offline_signup h b f in
     match early with
     | Some notice => ret notice
     | None =>
         ret (NoticeSuccess
                (VStr "✅ Account created successfully! Redirecting to login..."))
     end) (after_fetch (signup_request h (Auth.userData b f)) w).
Proof.
  intros Hvalid Hnet. unfold Auth.handleSignup. rewrite Hvalid.
  unfold bind at 1, try_catch, bind at 1. rewrite fetch_unfold.
  unfold unanswered, signup_request in *.
  destruct (net h _) as [cause| |st [data|]]; try done.
Qed.

(** X17. An account created while the backend is unreachable opens the
    dashboard offline with its own password and with no other (login
    module).  For a form that passes the checks, a directory of account
    objects none of which has the contact, and a host that reads the grown
    directory back as written: the signup reports success without leaving
    the page and the directory becomes the old accounts followed by the new
    one; an offline login with that contact then requests the dashboard and
    stores the account, with a login time, as the session when the password
    is the one of the form, and otherwise shows an error and changes neither
    storage nor page. *)
Theorem offline_signup_then_login (h : Host) (b : Builtins) (w : World)
    (f : Login.SignupForm) (items : list value) :
  let contact := String_trim b (Login.farmer_contact f) in
  let acct := Login.account_of b f in
  let w1 := (Login.handleSignup h b f w).1 in
  Login.validate b f = None ->
  String_trim b contact = contact ->
  unanswered h (signup_request h (VObj (Login.payload b f))) = true ->
  (forall secret, unanswered h (login_request h contact secret) = true) ->
  stored_users h w = Some items ->
  Forall (fun u => nullish u = false) items ->
  account_with_contact contact items = None ->
  reads_back h (items ++ [acct]) ->
  (Login.handleSignup h b f w).2
    = inr (NoticeSuccess (VStr "âœ… Account created (offline mode). Please login."))
  /\ stored_users h w1 = Some (items ++ [acct])
  /\ location_href w1 = location_href w
  /\ forall secret, secret <> "" ->
       if String.eqb (Login.farmer_password f) secret
       then
         (Login.handleFarmerLogin h b contact secret w1).2
           = inr (NoticeSuccess (VStr "âœ… Logged in (offline mode)."))
         /\ location_href (Login.handleFarmerLogin h b contact secret w1).1
            = Some "dashboard.html"
         /\ localStorage (Login.handleFarmerLogin h b contact secret w1).1 !! "cropdoctor_user"
            = Some (JSON_stringify h
                      (VObj (put_field "loggedInAt"
                               (VStr (Date_toISOString b (clock h (ticks w1))))
                               (own_fields acct))))
       else
         (Login.handleFarmerLogin h b contact secret w1).2
           = inr (NoticeError
                    (VStr "Cannot reach server. Check your credentials and try again."))
         /\ location_href (Login.handleFarmerLogin h b contact secret w1).1
            = location_href w
         /\ localStorage (Login.handleFarmerLogin h b contact secret w1).1
            = localStorage w1.
Proof.
  intros contact acct w1 Hvalid Htrim Hdown Hdown' Hstored Hobjects Hfresh Hback.
  assert (Hcontact : contact <> "").
  { apply validate_accepts in Hvalid. by destruct Hvalid as (_ & _ & _ & ? & _). }
  assert (Hsignup :
    Login.handleSignup h b f w
    = (with_localStorage
         (<["cropdoctor_users" := JSON_stringify h (VArr (items ++ [acct]))]>
            (localStorage w))
         (after_fetch (signup_request h (VObj (Login.payload b f))) w),
       inr (NoticeSuccess (VStr "âœ… Account created (offline mode). Please login.")))).
  { rewrite (Login_signup_unanswered h b f w Hvalid Hdown).
    unfold Login.offline_signup, bind at 1.
    rewrite (read_users_run h _ items) by done.
    fold contact. rewrite (find_first_absent contact items Hobjects Hfresh).
    unfold bind. fold acct.
    by rewrite (cacheUser_stored_push h _ items acct contact). }
  assert (Hdir : stored_users h w1 = Some (items ++ [acct])).
  { unfold w1. rewrite Hsignup. cbn [fst].
    by apply (stored_users_reads_back h (after_fetch _ w)). }
  split; [by rewrite Hsignup |]. split; [exact Hdir |].
  split; [unfold w1; by rewrite Hsignup |].
  intros secret Hsecret.
  assert (Hlogin := Login_login_unanswered h b contact secret w1).
  rewrite Htrim in Hlogin. rewrite Hlogin by done. clear Hlogin.
  assert (Hgrown : Forall (fun u => nullish u = false) (items ++ [acct]))
    by (apply Forall_app; split; [done | by repeat constructor]).
  rewrite (Login_offline_login_run h b contact secret _ (items ++ [acct])
             ltac:(by rewrite stored_users_after_fetch) Hgrown).
  rewrite (matching_account_push contact (Login.farmer_password f) secret items acct)
    by done.
  destruct (String.eqb (Login.farmer_password f) secret); cbn [fst snd].
  - split; [done |]. split; [done |]. cbn. by rewrite lookup_insert_eq.
  - split; [done |]. split; [|done]. unfold w1. by rewrite Hsignup.
Qed.

Lemma offline_signup_then_login_witness :
  let h := host_remembering meena_account in
  let w1 := (Login.handleSignup h sample_builtins meena_form empty_world).1 in
  location_href
    (Login.handleFarmerLogin h sample_builtins "meena@example.org" "harvest" w1).1
    = Some "dashboard.html"
  /\ (Login.handleFarmerLogin h sample_builtins "meena@example.org" "harvesting" w1).2
     = inr (NoticeError (VStr "Cannot reach server. Check your credentials and try again.")).
Proof.
  intros h w1.
  destruct (offline_signup_then_login h sample_builtins empty_world meena_form [])
    as (_ & _ & _ & Hlogin);
    [reflexivity | reflexivity | reflexivity | by intros | reflexivity | constructor
    | reflexivity | split; [discriminate | reflexivity] |].
  split.
  - destruct (Hlogin "harvest") as (_ & Hnav & _); [discriminate | exact Hnav].
  - destruct (Hlogin "harvesting") as (Hres & _); [discriminate | exact Hres].
Defined.

(** ** auth.js: signing up offline, then logging in offline *)

Lemma Auth_offline_login_run h b email secret w items :
  stored_users h w = Some items ->
  Forall (fun u => nullish u = false) items ->
  Auth.offline_login h b email secret w =
    match matching_account email secret items with
    | Some user =>
        (run initials :=
           (if truthy (field user "initials") then ret (field user "initials")
            else run s := getInitials b (field user "name") in ret (VStr s)) in
         run now := Date_now h in
         setItem "cropdoctor_user"
           (JSON_stringify h
              (VObj [("name", field user "name");
                     ("initials", initials);
                     ("email_phone", field user "email_phone");
                     ("address", js_or (field user "address") (VStr ""));
                     ("age", js_or (field user "age") (VStr ""));
                     ("role", VStr "farmer");
                     ("loggedInAt", VStr (Date_toISOString b now))])) ;;;
         ret None) w
    | None =>
        (w, inr (Some (NoticeError
                         (VStr "Invalid email/phone or password. Please check your credentials."))))
    end.
Proof.
  intros Hstored Hobjects. unfold Auth.offline_login, bind at 1.
  rewrite (read_users_run h w items Hstored).
  rewrite find_first_objects
    by (eapply Forall_impl; [exact Hobjects | apply has_credentials_defined]).
  fold (matching_account email secret items).
  by destruct (matching_account email secret items).
Qed.

(** X18. The same round trip in auth.js.  After a signup that the backend
    never answered, the directory holds the form's account last, the page is
    the same, and an offline login with the form's contact opens the
    dashboard exactly when the password is the form's; the session then
    stored has the role "farmer" and the form's name, and no password.  A
    wrong password gets the error text and changes neither storage nor
    page. *)
Theorem auth_offline_signup_then_login (h : Host) (b : Builtins) (w : World)
    (f : Login.SignupForm) (items : list value) :
  let contact := String_trim b (Login.farmer_contact f) in
  let acct := Auth.userData b f in
  let w1 := (Auth.handleSignup h b f w).1 in
  Login.validate b f = None ->
  String_trim b contact = contact ->
  unanswered h (signup_request h acct) = true ->
  (forall secret, unanswered h (login_request h contact secret) = true) ->
  stored_users h w = Some items ->
  Forall (fun u => nullish u = false) items ->
  account_with_contact contact items = None ->
  reads_back h (items ++ [acct]) ->
  (Auth.handleSignup h b f w).2
    = inr (NoticeSuccess (VStr "✅ Account created successfully! Redirecting to login..."))
  /\ stored_users h w1 = Some (items ++ [acct])
  /\ location_href w1 = location_href w
  /\ forall secret, secret <> "" ->
       if String.eqb (Login.farmer_password f) secret
       then
         (Auth.handleFarmerLogin h b contact secret w1).2
           = inr (NoticeSuccess (VStr "✅ Login successful! Redirecting to dashboard..."))
         /\ location_href (Auth.handleFarmerLogin h b contact secret w1).1
            = Some "dashboard.html"
         /\ exists session,
              localStorage (Auth.handleFarmerLogin h b contact secret w1).1 !! "cropdoctor_user"
                = Some (JSON_stringify h (VObj session))
              /\ assoc "name" session = Some (VStr (String_trim b (Login.farmer_name f)))
              /\ assoc "role" session = Some (VStr "farmer")
              /\ assoc "password" session = None
       else
         (Auth.handleFarmerLogin h b contact secret w1).2
           = inr (NoticeError
                    (VStr "Invalid email/phone or password. Please check your credentials."))
         /\ location_href (Auth.handleFarmerLogin h b contact secret w1).1
            = location_href w
         /\ localStorage (Auth.handleFarmerLogin h b contact secret w1).1
            = localStorage w1.
Proof.
  intros contact acct w1 Hvalid Htrim Hdown Hdown' Hstored Hobjects Hfresh Hback.
  assert (Hcontact : contact <> "").
  { apply validate_accepts in Hvalid. by destruct Hvalid as (_ & _ & _ & ? & _). }
  assert (Hsignup :
    Auth.handleSignup h b f w
    = (with_localStorage
         (<["cropdoctor_users" := JSON_stringify h (VArr (items ++ [acct]))]>
            (localStorage w))
         (after_fetch (signup_request h acct) w),
       inr (NoticeSuccess
              (VStr "✅ Account created successfully! Redirecting to login...")))).
  { rewrite (Auth_signup_unanswered h b f w Hvalid Hdown).
    unfold bind at 1, Auth.offline_signup, bind at 1.
    rewrite (read_users_run h _ items) by done.
    fold contact. rewrite (find_first_absent contact items Hobjects Hfresh).
    unfold bind. fold acct.
    by rewrite (cacheUser_stored_push h _ items acct contact). }
  assert (Hdir : stored_users h w1 = Some (items ++ [acct])).
  { unfold w1. rewrite Hsignup. cbn [fst].
    by apply (stored_users_reads_back h (after_fetch _ w)). }
  split; [by rewrite Hsignup |]. split; [exact Hdir |].
  split; [unfold w1; by rewrite Hsignup |].
  intros secret Hsecret.
  remember (Auth.handleFarmerLogin h b contact secret w1) as r eqn:Hr.
  assert (Hlogin := Auth_login_unanswered h b contact secret w1).
  rewrite Htrim in Hlogin. rewrite Hlogin in Hr by done. clear Hlogin.
  assert (Hgrown : Forall (fun u => nullish u = false) (items ++ [acct]))
    by (apply Forall_app; split; [done | by repeat constructor]).
  unfold bind at 1 in Hr.
  rewrite (Auth_offline_login_run h b contact secret _ (items ++ [acct])
             ltac:(by rewrite stored_users_after_fetch) Hgrown) in Hr.
  rewrite (matching_account_push contact (Login.farmer_password f) secret items acct)
    in Hr by done.
  destruct (String.eqb (Login.farmer_password f) secret).
  - unfold bind at 1 in Hr.
    destruct (truthy (field acct "initials")) eqn:Hi.
    + subst r. cbn [fst snd]. split; [done |]. split; [done |].
      eexists. split; [cbn; by rewrite lookup_insert_eq |]. done.
    + assert (Hc : initials_computable acct = true).
      { unfold initials_computable. rewrite Hi. cbn. apply orb_true_r. }
      destruct (getInitials_computable b acct
                  (after_fetch (login_request h contact secret) w1) Hc Hi) as [s Hs].
      unfold bind at 1 in Hr. rewrite Hs in Hr.
      subst r. cbn [fst snd]. split; [done |]. split; [done |].
      eexists. split; [cbn; by rewrite lookup_insert_eq |]. done.
  - subst r. cbn [fst snd]. split; [done |]. split; [|done]. unfold w1. by rewrite Hsignup.
Qed.

Lemma auth_offline_signup_then_login_witness :
  let h := host_remembering meena_userData in
  let w1 := (Auth.handleSignup h sample_builtins meena_form empty_world).1 in
  location_href
    (Auth.handleFarmerLogin h sample_builtins "meena@example.org" "harvest" w1).1
    = Some "dashboard.html"
  /\ (Auth.handleFarmerLogin h sample_builtins "meena@example.org" "harvesting" w1).2
     = inr (NoticeError
              (VStr "Invalid email/phone or password. Please check your credentials.")).
Proof.
  intros h w1.
  destruct (auth_offline_signup_then_login h sample_builtins empty_world meena_form [])
    as (_ & _ & _ & Hlogin);
    [reflexivity | reflexivity | reflexivity | by intros | reflexivity | constructor
    | reflexivity | split; [discriminate | reflexivity] |].
  split.
  - destruct (Hlogin "harvest") as (_ & Hnav & _); [discriminate | exact Hnav].
  - destruct (Hlogin "harvesting") as (Hres & _); [discriminate | exact Hres].
Defined.

(** ** Logging in online, then offline *)


Lemma upsert_nil acct : upsert acct [] = [acct].
Proof. reflexivity. Qed.














(** ** Admin panel *)
























